(** * Sales analytics: the aggregation, gap and trend pipeline of
      [src/ui_builder/insights.py] and [src/ui_builder/data_viz.py]

    The two Python modules compute descriptive analytics over a sales table
    with pandas and hand the results to streamlit and matplotlib.  This file
    embeds the pandas operations they call (group-by, sum, mean, pivot,
    unstack, reindex, pct_change, round, sort, dropna) as list functions,
    the functions of the two modules on top of them, and proves the
    properties of the specification about them.

    Conventions of the embedding.
    - A sales amount is an exact rational ([Q]); a value computed by pandas is
      a [pyfloat]: a rational, one of the two infinities, or NaN, with the
      IEEE rules for the special values written out.  Rounding error of
      binary floating point and the sign of zero are not represented.
    - A date is a calendar date; the [dt] accessors are calendar extractions.
      Dates and the string cells of a frame are never missing.
    - The columns [date] and [sales] are required and every row has them;
      the optional columns are present or not, as [columns] records, and
      reading one that is absent raises [KeyError].
    - The sales frame that a function receives lives in a store and is passed
      by reference, as a Python object; [copy] allocates a new object and an
      assignment to a column updates an object in place.  The frames that
      pandas computes (the results of [groupby], [pivot], [unstack] and the
      like) are new objects that nothing else refers to: they are values
      here, and an assignment to one of their columns is a new value.
    - What the rendering calls receive is kept as data (an [event] per
      streamlit call, a [chart] per figure), numbers unformatted; layout
      ([st.columns], colours, sizes) is not represented.
    - Where pandas does not fix the order of equal values in a sort, the
      embedding keeps their order. *)

From Stdlib Require Import String Ascii ZArith QArith Qround Qabs List Bool Lia Lqa.
From Stdlib Require Import Permutation Sorted Morphisms Setoid.
Import ListNotations.

Local Open Scope Q_scope.

(* ================================================================== *)
(** * Numbers *)

Module Num.

(** A float64 as pandas produces it, with exact finite values. *)
Inductive pyfloat : Type :=
| Fin (q : Q)
| PInf
| NInf
| NaN.

Definition inf_of_sign (c : comparison) : pyfloat :=
  match c with Gt => PInf | Lt => NInf | Eq => NaN end.

Definition fneg (x : pyfloat) : pyfloat :=
  match x with
  | Fin q => Fin (- q)
  | PInf => NInf
  | NInf => PInf
  | NaN => NaN
  end.

Definition fadd (x y : pyfloat) : pyfloat :=
  match x, y with
  | NaN, _ | _, NaN => NaN
  | Fin a, Fin b => Fin (a + b)
  | PInf, NInf | NInf, PInf => NaN
  | PInf, _ | _, PInf => PInf
  | NInf, _ | _, NInf => NInf
  end.

Definition fsub (x y : pyfloat) : pyfloat := fadd x (fneg y).

Definition fmul (x y : pyfloat) : pyfloat :=
  match x, y with
  | NaN, _ | _, NaN => NaN
  | Fin a, Fin b => Fin (a * b)
  | Fin a, PInf | PInf, Fin a => inf_of_sign (a ?= 0)
  | Fin a, NInf | NInf, Fin a => inf_of_sign (0 ?= a)
  | PInf, PInf | NInf, NInf => PInf
  | PInf, NInf | NInf, PInf => NInf
  end.

(** Division: a zero divisor gives an infinity of the sign of the dividend,
    and NaN for 0/0. *)
Definition fdiv (x y : pyfloat) : pyfloat :=
  match x, y with
  | NaN, _ | _, NaN => NaN
  | Fin a, Fin b =>
      if Qeq_bool b 0 then inf_of_sign (a ?= 0) else Fin (a / b)
  | Fin _, PInf | Fin _, NInf => Fin 0
  | PInf, Fin b => if Qle_bool 0 b then PInf else NInf
  | NInf, Fin b => if Qle_bool 0 b then NInf else PInf
  | _, _ => NaN
  end.

Definition fabs (x : pyfloat) : pyfloat :=
  match x with
  | Fin q => Fin (Qabs q)
  | PInf | NInf => PInf
  | NaN => NaN
  end.

(** Comparison; [None] when an operand is NaN. *)
Definition fcmp (x y : pyfloat) : option comparison :=
  match x, y with
  | NaN, _ | _, NaN => None
  | Fin a, Fin b => Some (a ?= b)
  | PInf, PInf | NInf, NInf => Some Eq
  | PInf, _ | _, NInf => Some Gt
  | NInf, _ | _, PInf => Some Lt
  end.

(** [x > y] and [x < y] of Python: false on NaN. *)
Definition fgt (x y : pyfloat) : bool :=
  match fcmp x y with Some Gt => true | _ => false end.

Definition flt (x y : pyfloat) : bool :=
  match fcmp x y with Some Lt => true | _ => false end.

Definition isna (x : pyfloat) : bool :=
  match x with NaN => true | _ => false end.

Definition notna (x : pyfloat) : bool := negb (isna x).

(** Nearest integer, halves to even (numpy's [rint]). *)
Definition rint (q : Q) : Z :=
  let f := Qfloor q in
  match Qcompare (q - inject_Z f) (1 # 2) with
  | Lt => f
  | Gt => (f + 1)%Z
  | Eq => if Z.even f then f else (f + 1)%Z
  end.

(** [round(1)]: scale by ten, round, scale back. *)
Definition round1 (q : Q) : Q := inject_Z (rint (q * 10)) / 10.

Definition fround1 (x : pyfloat) : pyfloat :=
  match x with Fin q => Fin (round1 q) | _ => x end.

Definition of_Z (z : Z) : pyfloat := Fin (inject_Z z).
Definition of_nat (n : nat) : pyfloat := of_Z (Z.of_nat n).

(** Sum of rationals. *)
Definition Qsum (l : list Q) : Q := fold_right Qplus 0 l.

(** [Series.sum()] and [Series.mean()] of a column of finite amounts. *)
Definition series_sum (l : list Q) : pyfloat := Fin (Qsum l).

Definition series_mean (l : list Q) : pyfloat :=
  match l with
  | [] => NaN
  | _ => Fin (Qsum l / inject_Z (Z.of_nat (length l)))
  end.

(** Sum and mean of a column of floats; NaN entries are skipped
    ([skipna=True], the default). *)
Definition fsum (l : list pyfloat) : pyfloat := fold_left fadd l (Fin 0).

Definition mean_skipna (l : list pyfloat) : pyfloat :=
  match filter notna l with
  | [] => NaN
  | v => fdiv (fsum v) (of_nat (length v))
  end.

(** Equality of floats up to the representation of the rational. *)
Definition feq (x y : pyfloat) : Prop :=
  match x, y with
  | Fin a, Fin b => a == b
  | PInf, PInf | NInf, NInf | NaN, NaN => True
  | _, _ => False
  end.

End Num.
Export Num.

Infix "=f=" := feq (at level 70, no associativity).

(* ================================================================== *)
(** * Calendar dates and the [dt] accessors *)

Module Calendar.

Local Open Scope Z_scope.

Record Timestamp : Type := mkDate { year : Z; month : Z; day : Z }.

(** Days since 1970-01-01 in the proleptic Gregorian calendar. *)
Definition days_from_civil (d : Timestamp) : Z :=
  let y := if month d <=? 2 then year d - 1 else year d in
  let era := y / 400 in
  let yoe := y - era * 400 in
  let mp := if month d >? 2 then month d - 3 else month d + 9 in
  let doy := (153 * mp + 2) / 5 + day d - 1 in
  let doe := yoe * 365 + yoe / 4 - yoe / 100 + doy in
  era * 146097 + doe - 719468.

(** [dt.dayofweek]: Monday is 0 (1970-01-01 was a Thursday). *)
Definition dayofweek (d : Timestamp) : Z := (days_from_civil d + 3) mod 7.

Definition day_order : list string :=
  ["Monday"; "Tuesday"; "Wednesday"; "Thursday"; "Friday"; "Saturday";
   "Sunday"]%string.

(** [dt.day_name()]. *)
Definition day_name (d : Timestamp) : string :=
  nth (Z.to_nat (dayofweek d)) day_order ""%string.

(** [dt.to_period("M")]: the year and the month. *)
Definition to_period_M (d : Timestamp) : Z * Z := (year d, month d).

(** [Period.to_timestamp()]: the first day of the month. *)
Definition to_timestamp (p : Z * Z) : Timestamp := mkDate (fst p) (snd p) 1.

End Calendar.
Export Calendar.

(* ================================================================== *)
(** * Group keys *)

(** What pandas needs of a group key: equality, and the order in which
    [groupby] (with its default [sort=True]) lists the groups. *)
Class Key (K : Type) : Type :=
  { key_eqb : K -> K -> bool;
    key_leb : K -> K -> bool }.

#[export] Instance Key_Z : Key Z :=
  {| key_eqb := Z.eqb; key_leb := Z.leb |}.

#[export] Instance Key_string : Key string :=
  {| key_eqb := String.eqb; key_leb := String.leb |}.

(** Tuples compare lexicographically. *)
#[export] Instance Key_pair {A B : Type} `{Key A} `{Key B} : Key (A * B) :=
  {| key_eqb x y := key_eqb (fst x) (fst y) && key_eqb (snd x) (snd y);
     key_leb x y :=
       if key_eqb (fst x) (fst y) then key_leb (snd x) (snd y)
       else key_leb (fst x) (fst y) |}.

Definition ymd (d : Timestamp) : Z * (Z * Z) := (year d, (month d, day d)).

#[export] Instance Key_Timestamp : Key Timestamp :=
  {| key_eqb x y := key_eqb (ymd x) (ymd y);
     key_leb x y := key_leb (ymd x) (ymd y) |}.

(** Column labels of a frame whose columns are years, to which a named
    column is added. *)
#[export] Instance Key_sum {A B : Type} `{Key A} `{Key B} : Key (A + B) :=
  {| key_eqb x y :=
       match x, y with
       | inl a, inl b => key_eqb a b
       | inr a, inr b => key_eqb a b
       | _, _ => false
       end;
     key_leb x y :=
       match x, y with
       | inl a, inl b => key_leb a b
       | inr a, inr b => key_leb a b
       | inl _, inr _ => true
       | inr _, inl _ => false
       end |}.

(* ================================================================== *)
(** * The pandas operations *)

Module Pandas.

Section Keyed.
Context {K : Type} `{Key K}.

Definition mem (k : K) (l : list K) : bool := existsb (key_eqb k) l.

  (** [Series.unique()]: the distinct values, in order of first appearance. *)
Fixpoint unique (l : list K) : list K :=
    match l with
    | [] => []
    | x :: r => x :: filter (fun y => negb (key_eqb y x)) (unique r)
    end.

  (** [Series.nunique()]. *)
Definition nunique (l : list K) : nat := length (unique l).

Fixpoint insert_key (k : K) (l : list K) : list K :=
    match l with
    | [] => [k]
    | x :: r => if key_leb k x then k :: l else x :: insert_key k r
    end.

Definition sort_keys (l : list K) : list K := fold_right insert_key [] l.

  (** The group keys of [groupby]: distinct, ascending. *)
Definition group_keys (l : list K) : list K := sort_keys (unique l).

  (** [df.groupby(key)]: each group key with the rows that carry it, in
      their order in the frame. *)
Definition groupby {R : Type} (key : R -> K) (df : list R)
    : list (K * list R) :=
    map (fun k => (k, filter (fun r => key_eqb (key r) k) df))
        (group_keys (map key df)).

  (** [groupby(key)[col].sum()], [.mean()] and [.agg(["sum","mean","count"])]. *)
Definition groupby_sum {R : Type} (key : R -> K) (col : R -> Q)
      (df : list R) : list (K * Q) :=
    map (fun g => (fst g, Qsum (map col (snd g)))) (groupby key df).

Definition groupby_mean {R : Type} (key : R -> K) (col : R -> Q)
      (df : list R) : list (K * pyfloat) :=
    map (fun g => (fst g, series_mean (map col (snd g)))) (groupby key df).

  (** A label-indexed series: [s[k]], and [s.reindex(labels)], which gives
      NaN to a label the series does not have. *)
Definition lookup {V : Type} (k : K) (s : list (K * V)) : option V :=
    option_map snd (find (fun kv => key_eqb (fst kv) k) s).

Definition reindex (s : list (K * pyfloat)) (labels : list K)
    : list (K * pyfloat) :=
    map (fun k => (k, match lookup k s with Some v => v | None => NaN end))
        labels.

End Keyed.

(** One row of [agg(["sum", "mean", "count"])]. *)
Record Agg : Type := mkAgg { agg_sum : Q; agg_mean : pyfloat; agg_count : nat }.

Definition groupby_agg {K R : Type} `{Key K} (key : R -> K) (col : R -> Q)
    (df : list R) : list (K * Agg) :=
  map (fun g => let v := map col (snd g) in
                (fst g, mkAgg (Qsum v) (series_mean v) (length v)))
      (groupby key df).

(** Stable sort by insertion; [le x y] says that [x] may stand before [y]. *)
Fixpoint insert_by {A : Type} (le : A -> A -> bool) (x : A) (l : list A)
  : list A :=
  match l with
  | [] => [x]
  | y :: r => if le x y then x :: l else y :: insert_by le x r
  end.

Definition sort_by {A : Type} (le : A -> A -> bool) (l : list A) : list A :=
  fold_right (insert_by le) [] l.

(** The order of [sort_values(ascending=False)]: NaN last
    ([na_position="last"]). *)
Definition fle_desc (x y : pyfloat) : bool :=
  match fcmp x y with
  | Some Lt => false
  | Some _ => true
  | None => isna y
  end.

(** [head(n)] and [tail(n)]. *)
Definition head {A : Type} (n : nat) (l : list A) : list A := firstn n l.

Definition tail {A : Type} (n : nat) (l : list A) : list A :=
  skipn (length l - n) l.

(** [Series.shift(1)]: every value moves down one place, the first becomes
    NaN and the last is dropped. *)
Definition shift1 (l : list pyfloat) : list pyfloat :=
  match l with
  | [] => []
  | _ => NaN :: removelast l
  end.

(** [Series.pct_change()]: [s / s.shift(1) - 1], value by value.  (The
    series it is applied to here has no NaN to fill beforehand.) *)
Definition pct1 (xp : pyfloat * pyfloat) : pyfloat :=
  fsub (fdiv (fst xp) (snd xp)) (Fin 1).

Definition pct_change (l : list pyfloat) : list pyfloat :=
  map pct1 (combine l (shift1 l)).

End Pandas.
Export Pandas.

(* ================================================================== *)
(** * The data model *)

(** A row of the sales table. *)
Record SalesRecord : Type := mkRecord
  { date : Timestamp;
    sales : Q;
    store_id : string;
    store_name : string;
    item_id : string;
    item_name : string;
    category : string }.

(** A sales frame as the functions receive it.  [columns] lists the labels
    of its columns; a field of a row whose column is not listed is not part
    of the frame.  [day_of_week] holds the cells of the column of that name
    once it has been assigned. *)
Record DataFrame : Type := mkFrame
  { columns : list string;
    rows : list SalesRecord;
    day_of_week : list string }.

(** [label in data.columns] *)
Definition has_column (label : string) (df : DataFrame) : bool :=
  mem label (columns df).

(** [data.empty]: no rows (the frame always has its required columns). *)
Definition empty (df : DataFrame) : bool :=
  match rows df with [] => true | _ => false end.

(** [df[label] = cells] for the label ["day_of_week"]. *)
Definition assign_day_of_week (cells : list string) (df : DataFrame)
  : DataFrame :=
  {| columns := if has_column "day_of_week" df then columns df
                else columns df ++ ["day_of_week"%string];
     rows := rows df;
     day_of_week := cells |}.

(** A frame indexed by row labels, with float cells: what [pivot] and
    [unstack] build. *)
Record Table (C : Type) : Type := mkTable
  { t_index : list string;
    t_columns : list C;
    t_cell : string -> C -> pyfloat }.

Arguments mkTable {C} _ _ _.
Arguments t_index {C} _.
Arguments t_columns {C} _.
Arguments t_cell {C} _ _ _.

Section Tables.
Context {C : Type} `{Key C}.

  (** [t[c]]: the column as a function of the row label. *)
Definition column (t : Table C) (c : C) : string -> pyfloat :=
    fun r => t_cell t r c.

Definition column_values (t : Table C) (c : C) : list pyfloat :=
    map (column t c) (t_index t).

  (** [t[c] = s]: replaces the column, or appends it when it is new. *)
Definition set_column (t : Table C) (c : C) (s : string -> pyfloat)
    : Table C :=
    {| t_index := t_index t;
       t_columns := if mem c (t_columns t) then t_columns t
                    else t_columns t ++ [c];
       t_cell := fun r c' => if key_eqb c' c then s r else t_cell t r c' |}.

  (** [t.mean()]: the mean of every column, NaN cells skipped. *)
Definition column_means (t : Table C) : list (C * pyfloat) :=
    map (fun c => (c, mean_skipna (column_values t c))) (t_columns t).

  (** [t.dropna()]: keeps the rows that have no NaN cell. *)
Definition dropna (t : Table C) : Table C :=
    {| t_index :=
         filter (fun r => forallb (fun c => notna (t_cell t r c))
                                  (t_columns t))
                (t_index t);
       t_columns := t_columns t;
       t_cell := t_cell t |}.

  (** [t.sort_values(c, ascending=False)] *)
Definition sort_values_desc (t : Table C) (c : C) : Table C :=
    {| t_index :=
         sort_by (fun r1 r2 => fle_desc (t_cell t r1 c) (t_cell t r2 c))
                 (t_index t);
       t_columns := t_columns t;
       t_cell := t_cell t |}.

  (** [t[mask]], [t.head(n)], [t.tail(n)] *)
Definition select_rows (f : list string -> list string) (t : Table C)
    : Table C :=
    {| t_index := f (t_index t);
       t_columns := t_columns t;
       t_cell := t_cell t |}.

End Tables.

(** A two-level series turned into a table: [pivot(index, columns, values)]
    of a frame that has one row per pair, and [unstack] of a series indexed
    by pairs.  A pair without a row gives a NaN cell. *)
Definition table_of {C : Type} `{Key C} (s : list ((string * C) * pyfloat))
  : Table C :=
  {| t_index := group_keys (map (fun kv => fst (fst kv)) s);
     t_columns := group_keys (map (fun kv => snd (fst kv)) s);
     t_cell := fun r c =>
       match lookup (r, c) s with Some v => v | None => NaN end |}.

(* ================================================================== *)
(** * Exceptions, the store and the screen *)

Module Runtime.

Inductive exn : Type :=
| KeyError
| IndexError
| ValueError
| ReferenceError.

Inductive result (A : Type) : Type :=
| Ok (a : A)
| Raise (e : exn).

Arguments Ok {A} _.
Arguments Raise {A} _.

(** A value interpolated into a text or given to a chart. *)
Inductive value : Type :=
| VStr (s : string)
| VNum (x : pyfloat)
| VInt (n : Z)
| VDate (d : Timestamp)
| VStrs (l : list string).

(** A formatted text: the f-string, named by its first words, and the values
    interpolated into it, in order. *)
Record message : Type := mkMsg { template : string; args : list value }.

(** A figure: the kind of plot, its title, the labels and the series. *)
Record chart : Type := mkChart
  { chart_kind : string;
    chart_title : string;
    chart_labels : list value;
    chart_series : list (list pyfloat) }.

(** One call of the streamlit interface. *)
Inductive event : Type :=
| st_title (s : string)
| st_header (s : string)
| st_subheader (s : string)
| st_markdown (m : message)
| st_success (m : message)
| st_info (m : message)
| st_warning (m : message)
| st_error (m : message)
| st_metric (label : string) (v : value)
| st_divider
| st_pyplot (c : chart).

(** Frames live in a store and are passed by reference, as Python objects
    are; the screen is what has been rendered so far. *)
Definition ref : Type := nat.

Record World : Type := mkWorld { heap : list DataFrame; screen : list event }.

Definition M (A : Type) : Type := World -> result A * World.

Definition ret {A : Type} (a : A) : M A := fun w => (Ok a, w).

Definition bind {A B : Type} (m : M A) (k : A -> M B) : M B :=
  fun w =>
    match m w with
    | (Ok a, w') => k a w'
    | (Raise e, w') => (Raise e, w')
    end.

Definition raise {A : Type} (e : exn) : M A := fun w => (Raise e, w).

Definition lift {A : Type} (r : result A) : M A := fun w => (r, w).

Definition emit (e : event) : M unit :=
  fun w => (Ok tt, {| heap := heap w; screen := screen w ++ [e] |}).

(** Reading the frame a reference points to. *)
Definition load (r : ref) : M DataFrame :=
  fun w =>
    match nth_error (heap w) r with
    | Some df => (Ok df, w)
    | None => (Raise ReferenceError, w)
    end.

(** [df.copy()]: a new object with the same contents. *)
Definition copy (r : ref) : M ref :=
  fun w =>
    match nth_error (heap w) r with
    | Some df =>
        (Ok (length (heap w)),
         {| heap := heap w ++ [df]; screen := screen w |})
    | None => (Raise ReferenceError, w)
    end.

Fixpoint update {A : Type} (n : nat) (f : A -> A) (l : list A) : list A :=
  match l, n with
  | [], _ => []
  | x :: r, O => f x :: r
  | x :: r, S n' => x :: update n' f r
  end.

(** [df["day_of_week"] = cells], in place. *)
Definition setitem_day_of_week (r : ref) (cells : list string) : M unit :=
  fun w =>
    match nth_error (heap w) r with
    | Some _ =>
        (Ok tt,
         {| heap := update r (assign_day_of_week cells) (heap w);
            screen := screen w |})
    | None => (Raise ReferenceError, w)
    end.

End Runtime.
Export Runtime.

Notation "x <- m ;; k" := (bind m (fun x => k))
  (at level 61, m at next level, right associativity).
Notation "m ;;; k" := (bind m (fun _ => k))
  (at level 61, right associativity).

(* ================================================================== *)
(** * Helpers shared by the two modules *)

Module Common.

Definition rbind {A B : Type} (r : result A) (k : A -> result B) : result B :=
  match r with Ok a => k a | Raise e => Raise e end.

(** The cells of a string column, by label; [KeyError] when the frame does
    not have the column. *)
Definition str_column (label : string) (df : DataFrame)
  : result (SalesRecord -> string) :=
  if has_column label df then
    if (label =? "store_id")%string then Ok store_id
    else if (label =? "store_name")%string then Ok store_name
    else if (label =? "item_id")%string then Ok item_id
    else if (label =? "item_name")%string then Ok item_name
    else if (label =? "category")%string then Ok category
    else Raise KeyError
  else Raise KeyError.

(** The rows of a frame paired with the cells of its [day_of_week] column. *)
Definition with_day_of_week (df : DataFrame)
  : result (list (string * SalesRecord)) :=
  if has_column "day_of_week" df
  then Ok (combine (day_of_week df) (rows df))
  else Raise KeyError.

(** [s.iloc[0]] and [s.iloc[-1]] *)
Definition iloc_first {A : Type} (l : list A) : result A :=
  match l with [] => Raise IndexError | x :: _ => Ok x end.

Definition iloc_last {A : Type} (l : list A) : result A :=
  match rev l with [] => Raise IndexError | x :: _ => Ok x end.

(** [l[i]] of a Python list: a negative index counts from the end. *)
Definition py_index {A : Type} (l : list A) (i : Z) : result A :=
  let n := Z.of_nat (length l) in
  let j := (if i <? 0 then i + n else i)%Z in
  if (j <? 0)%Z then Raise IndexError
  else match nth_error l (Z.to_nat j) with
       | Some x => Ok x
       | None => Raise IndexError
       end.

(** [s.idxmax()] and [s.idxmin()]: the label of the first greatest (least)
    value, NaN skipped; [ValueError] when there is no value to compare. *)
Definition idx_best {K : Type} (better : pyfloat -> pyfloat -> bool)
    (s : list (K * pyfloat)) : result K :=
  match
    fold_left
      (fun best kv =>
         if isna (snd kv) then best
         else match best with
              | None => Some kv
              | Some b => if better (snd kv) (snd b) then Some kv else best
              end)
      s None
  with
  | Some kv => Ok (fst kv)
  | None => Raise ValueError
  end.

Definition idxmax {K : Type} (s : list (K * pyfloat)) : result K :=
  idx_best fgt s.

Definition idxmin {K : Type} (s : list (K * pyfloat)) : result K :=
  idx_best flt s.

(** [s[labels]]: the values at the labels. *)
Definition select {K : Type} `{Key K} (s : list (K * pyfloat))
    (labels : list K) : result (list pyfloat) :=
  fold_right
    (fun k acc =>
       rbind (match lookup k s with Some v => Ok v | None => Raise KeyError end)
             (fun v => rbind acc (fun vs => Ok (v :: vs))))
    (Ok []) labels.

Definition floats (s : list Q) : list pyfloat := map Fin s.

Definition fin_series {K : Type} (s : list (K * Q)) : list (K * pyfloat) :=
  map (fun kv => (fst kv, Fin (snd kv))) s.

Definition hundred : pyfloat := Fin 100.

(** The column [day_of_week] that both modules compute from [date]. *)
Definition day_names (df : DataFrame) : list string :=
  map (fun r => day_name (date r)) (rows df).

(** [groupby("day_of_week")["sales"].mean()] *)
Definition sales_by_day_name (df : DataFrame)
  : result (list (string * pyfloat)) :=
  rbind (with_day_of_week df)
        (fun t => Ok (groupby_mean fst (fun x => sales (snd x)) t)).

End Common.
Export Common.

(* ================================================================== *)
(** * [insights.py] *)

Module Insights.

Local Open Scope string_scope.

Definition emit_all (l : list event) : M unit :=
  fold_right (fun e k => emit e ;;; k) (ret tt) l.

Definition store_col (df : DataFrame) : string :=
  if has_column "store_name" df then "store_name" else "store_id".

Definition item_col (df : DataFrame) : string :=
  if has_column "item_name" df then "item_name" else "item_id".

(** ** [display_executive_summary] *)

Definition total_sales (df : DataFrame) : pyfloat :=
  series_sum (map sales (rows df)).

Definition date_min (l : list Timestamp) : option Timestamp :=
  fold_left (fun acc d =>
               match acc with
               | None => Some d
               | Some a => if key_leb a d then Some a else Some d
               end) l None.

Definition date_max (l : list Timestamp) : option Timestamp :=
  fold_left (fun acc d =>
               match acc with
               | None => Some d
               | Some a => if key_leb d a then Some a else Some d
               end) l None.

(** [(data["date"].max() - data["date"].min()).days + 1]; no value for a
    frame without rows. *)
Definition total_days (df : DataFrame) : option Z :=
  match date_max (map date (rows df)), date_min (map date (rows df)) with
  | Some hi, Some lo => Some (days_from_civil hi - days_from_civil lo + 1)%Z
  | _, _ => None
  end.

(** [data.groupby("date")["sales"].sum()] *)
Definition daily_sales (df : DataFrame) : list (Timestamp * Q) :=
  groupby_sum date sales (rows df).

Definition avg_daily_revenue (df : DataFrame) : pyfloat :=
  series_mean (map snd (daily_sales df)).

(** The frame [monthly]: one row per calendar month that has rows. *)
Record MonthlyRow : Type := mkMonthly
  { m_date : Timestamp;
    m_sales : Q;
    m_pct_change : pyfloat }.

(** [data.groupby(data["date"].dt.to_period("M"))["sales"].sum().reset_index()] *)
Definition monthly_totals (df : DataFrame) : list ((Z * Z) * Q) :=
  groupby_sum (fun r => to_period_M (date r)) sales (rows df).

(** [monthly["sales"].pct_change() * 100] *)
Definition pct_change_100 (totals : list Q) : list pyfloat :=
  map (fun x => fmul x hundred) (pct_change (floats totals)).

Definition monthly (df : DataFrame) : list MonthlyRow :=
  let m := monthly_totals df in
  map (fun kp => mkMonthly (to_timestamp (fst (fst kp))) (snd (fst kp))
                           (snd kp))
      (combine m (pct_change_100 (map snd m))).

(** [monthly["pct_change"].tail(3).mean()] *)
Definition recent_trend (df : DataFrame) : pyfloat :=
  mean_skipna (tail 3 (map m_pct_change (monthly df))).

(** The three branches on [recent_trend]. *)
Definition trend_event (t : pyfloat) : event :=
  if fgt t (Fin 5) then
    st_success (mkMsg "Positive trend" [VNum t])
  else if fgt t (Fin 0) then
    st_info (mkMsg "Stable growth" [VNum t])
  else
    st_warning (mkMsg "Declining trend" [VNum (fabs t)]).

Definition display_executive_summary (data : ref) : M unit :=
  emit (st_header "Executive Summary") ;;;
  df <- load data ;;
  let total_sales := total_sales df in
  let total_days := total_days df in
  let avg_daily_revenue := avg_daily_revenue df in
  let num_stores :=
    if has_column "store_id" df then nunique (map store_id (rows df))
    else O in
  let num_items :=
    if has_column "item_id" df then nunique (map item_id (rows df))
    else O in
  emit (st_metric "Total Sales (all time)" (VNum total_sales)) ;;;
  emit (st_metric "Avg Daily Revenue" (VNum avg_daily_revenue)) ;;;
  emit (st_metric "Active Stores" (VInt (Z.of_nat num_stores))) ;;;
  emit (st_metric "Product Range" (VInt (Z.of_nat num_items))) ;;;
  let monthly := monthly df in
  let recent_trend := mean_skipna (tail 3 (map m_pct_change monthly)) in
  emit (trend_event recent_trend) ;;;
  emit (st_pyplot
          (mkChart "bar" "Monthly Revenue Trend"
                   (map (fun m => VDate (m_date m)) monthly)
                   [floats (map m_sales monthly)])).

(** ** [display_performer_analysis] *)

(** [groupby(key)["sales"].agg([...]).sort_values("sum", ascending=False)] *)
Definition ranking (key : SalesRecord -> string) (df : DataFrame)
  : list (string * Agg) :=
  sort_by (fun a b => Qle_bool (agg_sum (snd b)) (agg_sum (snd a)))
          (groupby_agg key sales (rows df)).

Definition totals (r : list (string * Agg)) : list pyfloat :=
  map (fun x => Fin (agg_sum (snd x))) r.

Definition percent_diff (a b : pyfloat) : pyfloat :=
  fmul (fdiv (fsub a b) b) hundred.

(** [(total / total.sum() * 100).round(1)] *)
Definition revenue_share (r : list (string * Agg)) (x : string * Agg)
  : pyfloat :=
  fround1 (fmul (fdiv (Fin (agg_sum (snd x)))
                      (Fin (Qsum (map (fun y => agg_sum (snd y)) r))))
                hundred).

Definition display_performer_analysis (data : ref) : M unit :=
  emit (st_header "Performance Analysis") ;;;
  emit (st_subheader "Store Performance Ranking") ;;;
  df <- load data ;;
  key <- lift (str_column (store_col df) df) ;;
  let store_sales := ranking key df in
  best_store <- lift (iloc_first store_sales) ;;
  worst_store <- lift (iloc_last store_sales) ;;
  emit (st_success
          (mkMsg "Top store"
                 [VStr (fst best_store);
                  VNum (Fin (agg_sum (snd best_store)));
                  VNum (agg_mean (snd best_store))])) ;;;
  emit (st_error
          (mkMsg "Lowest store"
                 [VStr (fst worst_store);
                  VNum (Fin (agg_sum (snd worst_store)));
                  VNum (agg_mean (snd worst_store))])) ;;;
  let gap_pct := percent_diff (Fin (agg_sum (snd best_store)))
                              (Fin (agg_sum (snd worst_store))) in
  emit (st_info (mkMsg "The gap between top and bottom stores"
                       [VNum gap_pct])) ;;;
  emit (st_pyplot
          (mkChart "barh" "Store Revenue Ranking"
                   (map (fun x => VStr (fst x)) store_sales)
                   [totals store_sales])) ;;;
  emit (st_subheader "Product Performance Ranking") ;;;
  df <- load data ;;
  key <- lift (str_column (item_col df) df) ;;
  let item_sales := ranking key df in
  let top5 := head 5 item_sales in
  let bottom5 := tail 5 item_sales in
  emit (st_success (mkMsg "Best sellers" [VStrs (map fst top5)])) ;;;
  emit (st_error (mkMsg "Lowest sellers" [VStrs (map fst bottom5)])) ;;;
  let top10 := head 10 item_sales in
  emit (st_pyplot
          (mkChart "barh" "Top 10 Products by Revenue"
                   (map (fun x => VStr (fst x)) top10)
                   [totals top10])) ;;;
  df <- load data ;;
  if has_column "category" df then
    emit (st_subheader "Category Performance") ;;;
    key <- lift (str_column "category" df) ;;
    let cat_sales := ranking key df in
    emit (st_pyplot
            (mkChart "pie" "Revenue Share by Category"
                     (map (fun x => VStr (fst x)) cat_sales)
                     [totals cat_sales])) ;;;
    top_cat <- lift (iloc_first cat_sales) ;;
    bottom_cat <- lift (iloc_last cat_sales) ;;
    emit (st_markdown
            (mkMsg "leads with"
                   [VStr (fst top_cat);
                    VNum (revenue_share cat_sales top_cat);
                    VNum (Fin (agg_sum (snd top_cat)));
                    VStr (fst bottom_cat);
                    VNum (revenue_share cat_sales bottom_cat);
                    VNum (Fin (agg_sum (snd bottom_cat)))]))
  else ret tt.

(** ** [display_timing_insights] *)

Definition month_names : list string :=
  ["Jan"; "Feb"; "Mar"; "Apr"; "May"; "Jun";
   "Jul"; "Aug"; "Sep"; "Oct"; "Nov"; "Dec"].

Definition weekend : list string := ["Saturday"; "Sunday"].

Definition weekdays : list string :=
  ["Monday"; "Tuesday"; "Wednesday"; "Thursday"; "Friday"].

(** [groupby("day_of_week")["sales"].mean().reindex(day_order)] of a frame
    that has the column. *)
Definition dow_sales (df : DataFrame) : result (list (string * pyfloat)) :=
  rbind (sales_by_day_name df) (fun s => Ok (reindex s day_order)).

(** [data.groupby(data["date"].dt.month)["sales"].mean()] *)
Definition monthly_avg (df : DataFrame) : list (Z * pyfloat) :=
  groupby_mean (fun r => month (date r)) sales (rows df).

Definition month_name_of (m : Z) : result string :=
  py_index month_names (m - 1).

Fixpoint traverse {A B : Type} (f : A -> result B) (l : list A)
  : result (list B) :=
  match l with
  | [] => Ok []
  | x :: r => rbind (f x) (fun y => rbind (traverse f r)
                                          (fun ys => Ok (y :: ys)))
  end.

Definition display_timing_insights (data : ref) : M unit :=
  emit (st_header "Timing & Seasonal Insights") ;;;
  emit (st_subheader "Day-of-Week Pattern") ;;;
  data_copy <- copy data ;;
  dc <- load data_copy ;;
  setitem_day_of_week data_copy (day_names dc) ;;;
  dc <- load data_copy ;;
  dow_sales <- lift (dow_sales dc) ;;
  best_day <- lift (idxmax dow_sales) ;;
  worst_day <- lift (idxmin dow_sales) ;;
  weekend_vals <- lift (select dow_sales weekend) ;;
  weekday_vals <- lift (select dow_sales weekdays) ;;
  let weekend_avg := mean_skipna weekend_vals in
  let weekday_avg := mean_skipna weekday_vals in
  let weekend_lift := percent_diff weekend_avg weekday_avg in
  emit (st_pyplot
          (mkChart "bar" "Average Sales by Day of Week"
                   (map VStr day_order) [map snd dow_sales])) ;;;
  (if fgt weekend_lift (Fin 0) then
     emit (st_info (mkMsg "Weekends drive"
                          [VNum weekend_lift; VStr best_day; VStr worst_day;
                           VStr worst_day]))
   else
     emit (st_info (mkMsg "Weekdays outperform weekends" [VStr best_day]))) ;;;
  emit (st_subheader "Monthly Seasonality") ;;;
  df <- load data ;;
  let monthly_avg := monthly_avg df in
  available_months <- lift (traverse month_name_of (map fst monthly_avg)) ;;
  peak <- lift (idxmax monthly_avg) ;;
  peak_month <- lift (month_name_of peak) ;;
  low <- lift (idxmin monthly_avg) ;;
  low_month <- lift (month_name_of low) ;;
  emit (st_pyplot
          (mkChart "plot" "Monthly Sales Seasonality"
                   (map VStr available_months) [map snd monthly_avg])) ;;;
  emit (st_info (mkMsg "Peak season" [VStr peak_month; VStr low_month])).

(** ** [display_growth_opportunities] *)

(** [t[c]] and [s[c]] by label. *)
Definition get_column {C : Type} `{Key C} (t : Table C) (c : C)
  : result (string -> pyfloat) :=
  if mem c (t_columns t) then Ok (column t c) else Raise KeyError.

Definition series_at {C : Type} `{Key C} (s : list (C * pyfloat)) (c : C)
  : result pyfloat :=
  match lookup c s with Some v => Ok v | None => Raise KeyError end.

(** The pivot of the mean sales: a row per store, a column per category. *)
Definition store_category_pivot (df : DataFrame) : Table string :=
  table_of (groupby_mean (fun r => (store_name r, category r)) sales
                         (rows df)).

(** [((pivot[col] - category_avg[col]) / category_avg[col] * 100).round(1)] *)
Definition gap_column (cells : string -> pyfloat) (avg : pyfloat)
  : string -> pyfloat :=
  fun r => fround1 (percent_diff (cells r) avg).

(** The loop over the columns of the copy of the pivot. *)
Definition compute_gaps (pivot : Table string) : result (Table string) :=
  let category_avg := column_means pivot in
  fold_left
    (fun acc col =>
       rbind acc (fun gaps =>
       rbind (get_column pivot col) (fun cells =>
       rbind (series_at category_avg col) (fun avg =>
       Ok (set_column gaps col (gap_column cells avg))))))
    (t_columns pivot) (Ok pivot).

(** The cells below -10, rows outermost, then sorted by value. *)
Definition find_opportunities (gaps : Table string)
  : list (string * string * pyfloat) :=
  sort_by (fun a b => negb (flt (snd b) (snd a)))
    (flat_map
       (fun store =>
          flat_map
            (fun cat =>
               let val := t_cell gaps store cat in
               if flt val (Fin (-10 # 1)) then [(store, cat, val)] else [])
            (t_columns gaps))
       (t_index gaps)).

Definition growth_label : Z + string := inr "growth_pct".

(** [groupby([year, item])["sales"].sum().unstack(level=0)]: a row per item,
    a column per year. *)
Definition yearly_item_sales (key : SalesRecord -> string) (df : DataFrame)
  : Table Z :=
  table_of
    (map (fun kv => ((snd (fst kv), fst (fst kv)), Fin (snd kv)))
         (groupby_sum (fun r => (year (date r), key r)) sales (rows df))).

(** The same frame, its columns labelled by a year or by a name, as it is
    once a named column is added to it. *)
Definition year_or_name (t : Table Z) : Table (Z + string) :=
  {| t_index := t_index t;
     t_columns := map inl (t_columns t);
     t_cell := fun r c =>
       match c with inl y => t_cell t r y | inr _ => NaN end |}.

(** [((yoy[year2] - yoy[year1]) / yoy[year1] * 100).round(1)] *)
Definition growth_pct (y1 y2 : string -> pyfloat) : string -> pyfloat :=
  fun r => fround1 (percent_diff (y2 r) (y1 r)).

(** The frame [yoy] after the growth column is added, the rows are sorted by
    it and those with a NaN cell are dropped. *)
Definition yoy_growth (yoy : Table Z) : result (Table (Z + string)) :=
  match sort_keys (t_columns yoy) with
  | year1 :: year2 :: _ =>
      rbind (get_column yoy year2) (fun y2 =>
      rbind (get_column yoy year1) (fun y1 =>
      let yoy := set_column (year_or_name yoy) growth_label
                            (growth_pct y1 y2) in
      Ok (dropna (sort_values_desc yoy growth_label))))
  | _ => Raise ValueError
  end.

Definition growth_lines (template : string) (t : Table (Z + string))
  : list event :=
  map (fun item =>
         st_markdown (mkMsg template
                            [VStr item; VNum (t_cell t item growth_label)]))
      (t_index t).

Definition display_growth_opportunities (data : ref) : M unit :=
  emit (st_header "Growth Opportunities") ;;;
  df <- load data ;;
  (if has_column "category" df && has_column "store_name" df then
     emit (st_subheader "Underperforming Store-Category Combinations") ;;;
     let pivot := store_category_pivot df in
     let category_avg := column_means pivot in
     gaps <- lift (compute_gaps pivot) ;;
     emit (st_pyplot
             (mkChart "heatmap" "Store Performance vs Category Average (%)"
                      (VStrs (t_index gaps) :: map VStr (t_columns gaps))
                      (map (fun r => map (t_cell gaps r) (t_columns gaps))
                           (t_index gaps)))) ;;;
     emit (st_markdown (mkMsg "How to read this chart" [])) ;;;
     let opportunities := find_opportunities gaps in
     match opportunities with
     | [] => ret tt
     | _ =>
         emit (st_subheader "Top Improvement Targets") ;;;
         fold_right
           (fun o k =>
              let '(store, cat, gap) := o in
              avg <- lift (series_at category_avg cat) ;;
              let potential := fdiv (fmul (fabs gap) avg) hundred in
              emit (st_markdown
                      (mkMsg "below average"
                             [VStr store; VStr cat; VNum gap;
                              VNum potential])) ;;;
              k)
           (ret tt) (head 5 opportunities)
     end
   else ret tt) ;;;
  df <- load data ;;
  if (1 <? nunique (map (fun r => year (date r)) (rows df)))%nat then
    emit (st_subheader "Year-over-Year Item Growth") ;;;
    key <- lift (str_column (item_col df) df) ;;
    let yoy := yearly_item_sales key df in
    if (2 <=? length (t_columns yoy))%nat then
      yoy <- lift (yoy_growth yoy) ;;
      emit (st_markdown (mkMsg "Fastest Growing Products" [])) ;;;
      let top_growth := select_rows (head 5) yoy in
      emit_all (growth_lines "growth" top_growth) ;;;
      emit (st_markdown (mkMsg "Invest more in these products" [])) ;;;
      emit (st_markdown (mkMsg "Declining Products" [])) ;;;
      let declining :=
        select_rows
          (fun idx =>
             tail 5 (filter (fun r => flt (t_cell yoy r growth_label) (Fin 0))
                            idx))
          yoy in
      match t_index declining with
      | [] => emit (st_success (mkMsg "No declining products found!" []))
      | _ =>
          emit_all (growth_lines "declining" declining) ;;;
          emit (st_markdown (mkMsg "Review pricing, placement" []))
      end
    else ret tt
  else ret tt.

(** ** [display_recommendations] *)

Record Recommendation : Type := mkRec
  { rec_title : string; rec_detail : message; rec_impact : string }.

Definition impact_colors : list (string * string) :=
  [("High", "red"); ("Medium", "orange"); ("Low", "blue")].

Definition impact_color (impact : string) : result string :=
  match lookup impact impact_colors with
  | Some c => Ok c
  | None => Raise KeyError
  end.

(** [groupby(key)["sales"].sum().nlargest(5).index.tolist()] and
    [nsmallest(5)]: ties keep their order in the series. *)
Definition nlargest (n : nat) (s : list (string * Q)) : list string :=
  map fst (head n (sort_by (fun a b => Qle_bool (snd b) (snd a)) s)).

Definition nsmallest (n : nat) (s : list (string * Q)) : list string :=
  map fst (head n (sort_by (fun a b => Qle_bool (snd a) (snd b)) s)).

Fixpoint render_recommendations (i : Z) (l : list Recommendation) : M unit :=
  match l with
  | [] => ret tt
  | r :: rest =>
      color <- lift (impact_color (rec_impact r)) ;;
      emit (st_markdown
              (mkMsg "recommendation"
                     (VInt i :: VStr (rec_title r) :: VStr color
                      :: VStr (rec_impact r)
                      :: VStr (template (rec_detail r))
                      :: args (rec_detail r)))) ;;;
      emit st_divider ;;;
      render_recommendations (i + 1) rest
  end.

Definition display_recommendations (data : ref) : M unit :=
  emit (st_header "Actionable Recommendations") ;;;
  emit (st_markdown (mkMsg "Based on the analysis above" [])) ;;;
  df <- load data ;;
  key <- lift (str_column (store_col df) df) ;;
  let store_sales := fin_series (groupby_sum key sales (rows df)) in
  best_store <- lift (idxmax store_sales) ;;
  worst_store <- lift (idxmin store_sales) ;;
  data_copy <- copy data ;;
  dc <- load data_copy ;;
  setitem_day_of_week data_copy (day_names dc) ;;;
  dc <- load data_copy ;;
  dow_sales <- lift (sales_by_day_name dc) ;;
  worst_day <- lift (idxmin dow_sales) ;;
  df <- load data ;;
  let monthly_avg := monthly_avg df in
  peak <- lift (idxmax monthly_avg) ;;
  peak_month <- lift (month_name_of peak) ;;
  low <- lift (idxmin monthly_avg) ;;
  low_month <- lift (month_name_of low) ;;
  key <- lift (str_column (item_col df) df) ;;
  let top_items := nlargest 5 (groupby_sum key sales (rows df)) in
  let bottom_items := nsmallest 5 (groupby_sum key sales (rows df)) in
  let recommendations :=
    [ mkRec "Replicate Top Store Practices"
            (mkMsg "significantly outperforms"
                   [VStr best_store; VStr worst_store])
            "High";
      mkRec "Optimize Weekly Promotions"
            (mkMsg "has the lowest sales" [VStr worst_day; VStr worst_day])
            "Medium";
      mkRec "Seasonal Inventory Planning"
            (mkMsg "Sales peak in"
                   [VStr peak_month; VStr low_month; VStr peak_month;
                    VStr low_month])
            "High";
      mkRec "Product Bundling Strategy"
            (mkMsg "Bundle low sellers"
                   [VStrs (firstn 3 bottom_items); VStrs (firstn 3 top_items)])
            "Medium";
      mkRec "Focus on High-Value Products"
            (mkMsg "Top revenue drivers are" [VStrs top_items])
            "High" ] in
  recommendations <-
    (if has_column "category" df then
       key <- lift (str_column "category" df) ;;
       let cat_sales := fin_series (groupby_sum key sales (rows df)) in
       top_cat <- lift (idxmax cat_sales) ;;
       bottom_cat <- lift (idxmin cat_sales) ;;
       ret (recommendations ++
            [ mkRec "Cross-Category Promotion"
                    (mkMsg "underperforms compared to"
                           [VStr bottom_cat; VStr top_cat; VStr bottom_cat;
                            VStr top_cat])
                    "Medium" ])%list
     else ret recommendations) ;;
  render_recommendations 1 recommendations.

(** ** [business_insights_view] *)

Definition business_insights_view (data : ref) : M unit :=
  emit (st_title "Business Insights & Recommendations") ;;;
  df <- load data ;;
  if empty df then
    emit (st_warning (mkMsg "No sales data available." []))
  else
    emit (st_markdown (mkMsg "This page analyzes your historical sales data"
                             [])) ;;;
    display_executive_summary data ;;;
    emit st_divider ;;;
    display_performer_analysis data ;;;
    emit st_divider ;;;
    display_timing_insights data ;;;
    emit st_divider ;;;
    display_growth_opportunities data ;;;
    emit st_divider ;;;
    display_recommendations data.

End Insights.
Export Insights.

(* ================================================================== *)
(** * [data_viz.py] *)

Module DataViz.

Local Open Scope string_scope.

Definition plot_sales_time_series (filtered_data : ref)
    (selected_store selected_store_name : string) : M chart :=
  df <- load filtered_data ;;
  let daily_sales := daily_sales df in
  let store_label :=
    if negb (selected_store_name =? "All Stores") then selected_store_name
    else selected_store in
  let title :=
    if negb (store_label =? "All Stores") then "Daily Sales - " ++ store_label
    else "Daily Sales - All Stores" in
  ret (mkChart "plot" title
               (map (fun x => VDate (fst x)) daily_sales)
               [floats (map snd daily_sales)]).

Definition plot_day_of_week_pattern (filtered_data : ref) : M chart :=
  data <- copy filtered_data ;;
  d <- load data ;;
  setitem_day_of_week data (day_names d) ;;;
  d <- load data ;;
  daily_avg <- lift (dow_sales d) ;;
  ret (mkChart "barplot" "Average Sales by Day of Week"
               (map (fun x => VStr (fst x)) daily_avg)
               [map snd daily_avg]).

Definition plot_sales_distribution (filtered_data : ref) : M chart :=
  df <- load filtered_data ;;
  ret (mkChart "histplot" "Sales Distribution" []
               [floats (map sales (rows df))]).

Definition plot_category_distribution (filtered_data : ref) : M chart :=
  df <- load filtered_data ;;
  key <- lift (str_column "category" df) ;;
  let category_sales := groupby_sum key sales (rows df) in
  ret (mkChart "pie" "Sales by Category"
               (map (fun x => VStr (fst x)) category_sales)
               [floats (map snd category_sales)]).

Definition plot_store_comparison (filtered_data : ref)
    (store_identifier : string) : M chart :=
  df <- load filtered_data ;;
  key <- lift (str_column store_identifier df) ;;
  let store_sales :=
    tail 10 (sort_by (fun a b => Qle_bool (snd a) (snd b))
                     (groupby_sum key sales (rows df))) in
  ret (mkChart "barh" "Top 10 Stores by Sales"
               (map (fun x => VStr (fst x)) store_sales)
               [floats (map snd store_sales)]).

End DataViz.
Export DataViz.

(* ================================================================== *)
(** * The vocabulary of the specification *)

Module Spec.


(** The rows of a calendar month, given by any date in it. *)
Definition in_month_of (d : Timestamp) (r : SalesRecord) : bool :=
  key_eqb (to_period_M (date r)) (to_period_M d).

Definition month_total (df : DataFrame) (d : Timestamp) : Q :=
  Qsum (map sales (filter (in_month_of d) (rows df))).

(** (current - previous) / previous * 100 *)
Definition percent_change (previous current : Q) : Q :=
  (current - previous) / previous * 100.

(** The mean sales of the rows whose date falls on a day of the week; NaN
    when there is none. *)
Definition on_day (day : string) (r : SalesRecord) : bool :=
  key_eqb (day_name (date r)) day.

Definition day_mean (df : DataFrame) (day : string) : pyfloat :=
  series_mean (map sales (filter (on_day day) (rows df))).

(** The frame that the functions group by day: the copy of the frame,
    with the column [day_of_week] computed from its dates. *)
Definition with_day_names (df : DataFrame) : DataFrame :=
  assign_day_of_week (day_names df) df.

(** The postcondition that asks nothing. *)
Definition anything {A : Type} : A -> Prop := fun _ => True.

(** [w'] has the first [n] frames of [w] as they were, and the screen of
    [w] with more rendered after it. *)
Definition keeps (n : nat) (w w' : World) : Prop :=
  firstn n (heap w') = firstn n (heap w) /\
  (n <= length (heap w'))%nat /\
  exists l, screen w' = screen w ++ l.

(** A computation that, run in a store of at least [n] frames, keeps them,
    and whose result, when it returns one, satisfies [Q]. *)
Definition preserving {A : Type} (n : nat) (m : M A) (Q : A -> Prop) : Prop :=
  forall w, (n <= length (heap w))%nat ->
            keeps n w (snd (m w)) /\ forall a, fst (m w) = Ok a -> Q a.

(** A function of a frame reference that leaves the frame as it was. *)
Definition leaves_input_unchanged {A : Type} (f : ref -> M A) : Prop :=
  forall (w : World) (data : ref) (df : DataFrame),
    nth_error (heap w) data = Some df ->
    nth_error (heap (snd (f data w))) data = Some df.

(** The rows of a store in a category, the mean of their sales, and whether
    there is any. *)
Definition in_cell (s c : string) (r : SalesRecord) : bool :=
  key_eqb (store_name r, category r) (s, c).

Definition cell_mean (df : DataFrame) (s c : string) : pyfloat :=
  series_mean (map sales (filter (in_cell s c) (rows df))).

Definition has_data (df : DataFrame) (s c : string) : bool :=
  existsb (in_cell s c) (rows df).

(** The mean of a category over the stores that have data in it, each store
    counting once, with the mean of its sales. *)
Definition store_names (df : DataFrame) : list string :=
  group_keys (map store_name (rows df)).

Definition cell_value (df : DataFrame) (s c : string) : Q :=
  Qsum (map sales (filter (in_cell s c) (rows df)))
  / inject_Z (Z.of_nat (length (filter (in_cell s c) (rows df)))).

Definition category_mean (df : DataFrame) (c : string) : pyfloat :=
  series_mean (map (fun s => cell_value df s c)
                   (filter (fun s => has_data df s c) (store_names df))).

(** The rows of an item in a year, their total, and whether there is any. *)
Definition in_year_item (key : SalesRecord -> string) (y : Z) (item : string)
    (r : SalesRecord) : bool :=
  key_eqb (year (date r), key r) (y, item).

Definition year_total (key : SalesRecord -> string) (df : DataFrame) (y : Z)
    (item : string) : Q :=
  Qsum (map sales (filter (in_year_item key y item) (rows df))).


(** A pair of a year and an item, as the pair of the item and the year. *)
Definition swap_key (k : Z * string) : string * Z := (snd k, fst k).


(** The laws of a key: the equality test decides equality. *)
Class KeyLaws (K : Type) `{Key K} : Prop :=
  { key_eqb_eq : forall a b : K, key_eqb a b = true <-> a = b }.

(** The laws of the order of the keys. *)
Class KeyOrder (K : Type) `{Key K} : Prop :=
  { key_leb_total : forall a b : K, key_leb a b = true \/ key_leb b a = true;
    key_leb_trans : forall a b c : K,
        key_leb a b = true -> key_leb b c = true -> key_leb a c = true;
    key_leb_antisym : forall a b : K,
        key_leb a b = true -> key_leb b a = true -> a = b }.

(** The order of group keys, and the strict order. *)
Definition key_le {K : Type} `{Key K} (a b : K) : Prop := key_leb a b = true.

Definition key_lt {K : Type} `{Key K} (a b : K) : Prop :=
  key_leb a b = true /\ a <> b.

End Spec.
Export Spec.

(* ================================================================== *)
(** * Sample frames *)

Module Samples.

Local Open Scope string_scope.

Definition all_columns : list string :=
  ["date"; "sales"; "store_id"; "store_name"; "item_id"; "item_name";
   "category"].

Definition row (y m d : Z) (amount : Q) (store item cat : string)
  : SalesRecord :=
  mkRecord (mkDate y m d) amount store store item item cat.

Definition frame (l : list SalesRecord) : DataFrame := mkFrame all_columns l [].

(** Two months, with totals 100 and 150. *)
Definition two_months : DataFrame :=
  frame [ row 2024 1 10 60 "A" "x" "c"; row 2024 1 20 40 "B" "x" "c";
          row 2024 2 5 150 "A" "x" "c" ].


(** One month. *)
Definition one_month : DataFrame :=
  frame [ row 2024 3 1 5 "A" "x" "c"; row 2024 3 9 7 "B" "y" "c" ].

Definition no_rows : DataFrame := frame [].

(** One store that sold nothing in the one category. *)
Definition nothing_sold : DataFrame :=
  frame [ row 2024 1 1 0 "A" "x" "c"; row 2024 1 2 0 "A" "x" "c" ].

(** Three years; item x has no rows in the last one. *)
Definition three_years : DataFrame :=
  frame [ row 2021 3 1 100 "A" "x" "c"; row 2022 3 1 150 "A" "x" "c";
          row 2021 5 1 3 "A" "y" "c"; row 2022 5 1 4 "A" "y" "c";
          row 2023 5 1 5 "A" "y" "c" ].

(** Two years, both items sold in both. *)
Definition two_years : DataFrame :=
  frame [ row 2021 3 1 100 "A" "x" "c"; row 2022 3 1 150 "A" "x" "c";
          row 2021 5 1 3 "A" "y" "c"; row 2022 5 1 4 "A" "y" "c";
          row 2022 6 1 7 "A" "z" "c" ].

(** Two stores and two categories; store B has no rows in category d. *)
Definition two_stores : DataFrame :=
  frame [ row 2024 1 1 10 "A" "x" "c"; row 2024 1 2 20 "A" "x" "c";
          row 2024 1 1 5 "B" "x" "c"; row 2024 1 3 8 "A" "y" "d" ].

End Samples.

(* ================================================================== *)
(** * More vocabulary and sample frames *)

Module More.

Local Open Scope string_scope.

(** Descending and ascending order of totals. *)
Definition by_total_desc (a b : string * Agg) : Prop :=
  agg_sum (snd b) <= agg_sum (snd a).


(** What [display_executive_summary] renders for a frame. *)
Definition executive_summary_events (df : DataFrame) : list event :=
  [ st_header "Executive Summary";
    st_metric "Total Sales (all time)" (VNum (total_sales df));
    st_metric "Avg Daily Revenue" (VNum (avg_daily_revenue df));
    st_metric "Active Stores"
      (VInt (Z.of_nat (if has_column "store_id" df
                       then nunique (map store_id (rows df)) else O)));
    st_metric "Product Range"
      (VInt (Z.of_nat (if has_column "item_id" df
                       then nunique (map item_id (rows df)) else O)));
    trend_event (recent_trend df);
    st_pyplot
      (mkChart "bar" "Monthly Revenue Trend"
               (map (fun m => VDate (m_date m)) (monthly df))
               [floats (map m_sales (monthly df))]) ].

(** What is on screen when [display_performer_analysis] reads the store
    column. *)
Definition performer_analysis_start : list event :=
  [ st_header "Performance Analysis";
    st_subheader "Store Performance Ranking" ].

(** What the scan of [idx_best] has found after the rows [seen]: nothing
    when all were NaN, else a row that none of them betters. *)
Definition best_so_far {K : Type} (better : pyfloat -> pyfloat -> bool)
    (acc : option (K * pyfloat)) (seen : list (K * pyfloat)) : Prop :=
  match acc with
  | None => forall kv, In kv seen -> isna (snd kv) = true
  | Some b =>
      In b seen /\ isna (snd b) = false /\
      forall kv, In kv seen -> isna (snd kv) = false ->
                 better (snd kv) (snd b) = false
  end.

(** The rows of a month of the year, whatever the year. *)
Definition in_month_number (m : Z) (r : SalesRecord) : bool :=
  key_eqb (month (date r)) m.

(** An impact that [impact_color] knows. *)
Definition known_impact (r : Recommendation) : Prop :=
  In (rec_impact r) ["High"; "Medium"; "Low"].

(** The growth of an item in the year-over-year table. *)
Definition growth_of (g : Table (Z + string)) (item : string) : pyfloat :=
  t_cell g item growth_label.

(** A frame like [Samples.frame] with the columns given. *)
Definition frame_with (cols : list string) (l : list SalesRecord)
  : DataFrame :=
  mkFrame cols l [].

(** Rows but no store column. *)
Definition no_store_columns : DataFrame :=
  frame_with ["date"; "sales"; "item_name"; "category"]
             [ Samples.row 2024 3 1 5 "A" "x" "c" ].

(** Three stores. *)
Definition three_stores : DataFrame :=
  Samples.frame
    [ Samples.row 2024 1 1 10 "A" "x" "c"; Samples.row 2024 1 2 20 "B" "y" "c";
      Samples.row 2024 1 3 5 "C" "x" "d"; Samples.row 2024 1 4 7 "A" "y" "d" ].

(** A month without sales, then a month with sales. *)
Definition after_a_quiet_month : DataFrame :=
  Samples.frame
    [ Samples.row 2024 1 10 0 "A" "x" "c"; Samples.row 2024 2 10 5 "A" "x" "c" ].

(** Sales on a Saturday and on a Sunday only. *)
Definition weekend_only : DataFrame :=
  Samples.frame
    [ Samples.row 2024 1 6 10 "A" "x" "c"; Samples.row 2024 1 7 30 "A" "x" "c" ].

(** A table of gaps with one cell below the threshold. *)
Definition some_gaps : Table string :=
  {| t_index := ["A"; "B"];
     t_columns := ["c"];
     t_cell := fun s _ => if (s =? "A") then Fin (-20 # 1) else Fin 5 |}.

(** Two recommendations. *)
Definition two_recommendations : list Recommendation :=
  [ mkRec "First" (mkMsg "one" []) "High";
    mkRec "Second" (mkMsg "two" []) "Medium" ].

End More.
Export More.

(* ================================================================== *)
(** * Properties of the numbers *)

Lemma feq_refl (x : pyfloat) : x =f= x.
Proof. destruct x; simpl; auto. reflexivity. Qed.

Lemma feq_sym (x y : pyfloat) : x =f= y -> y =f= x.
Proof. destruct x, y; simpl; auto. intros E. now rewrite E. Qed.

Lemma feq_trans (x y z : pyfloat) : x =f= y -> y =f= z -> x =f= z.
Proof.
  destruct x, y, z; simpl; auto; try contradiction.
  intros E1 E2. now rewrite E1.
Qed.

#[export] Instance feq_equivalence : Equivalence feq.
Proof.
  split; [exact feq_refl | exact feq_sym | exact feq_trans].
Qed.


Lemma Qsum_perm (l1 l2 : list Q) : Permutation l1 l2 -> Qsum l1 == Qsum l2.
Proof.
  induction 1; simpl.
  - reflexivity.
  - now rewrite IHPermutation.
  - ring.
  - now rewrite IHPermutation1.
Qed.


(* ================================================================== *)
(** * Properties of group keys and of [groupby] *)

#[export] Instance KeyLaws_Z : KeyLaws Z.
Proof. split. intros a b. apply Z.eqb_eq. Qed.

#[export] Instance KeyOrder_Z : KeyOrder Z.
Proof.
  split; simpl; intros.
  - destruct (Z.leb_spec a b), (Z.leb_spec b a); auto; lia.
  - apply Z.leb_le in H, H0. apply Z.leb_le. lia.
  - apply Z.leb_le in H, H0. lia.
Qed.

#[export] Instance KeyLaws_string : KeyLaws string.
Proof. split. intros a b. apply String.eqb_eq. Qed.

#[export] Instance KeyLaws_pair {A B : Type} `{KeyLaws A} `{KeyLaws B} :
  KeyLaws (A * B).
Proof.
  split. intros [a1 b1] [a2 b2]. simpl.
  rewrite andb_true_iff, !key_eqb_eq. split.
  - intros [-> ->]. reflexivity.
  - intros E. inversion E. auto.
Qed.

#[export] Instance KeyOrder_pair {A B : Type}
    `{KeyLaws A} `{KeyLaws B} `{!KeyOrder A} `{!KeyOrder B} :
  KeyOrder (A * B).
Proof.
  split.
  - intros [a1 b1] [a2 b2]. simpl.
    destruct (key_eqb a1 a2) eqn:E12.
    + apply key_eqb_eq in E12. subst a2.
      assert (E : key_eqb a1 a1 = true) by now apply key_eqb_eq.
      rewrite E. apply key_leb_total.
    + destruct (key_eqb a2 a1) eqn:E21.
      * apply key_eqb_eq in E21. subst a2.
        assert (E : key_eqb a1 a1 = true) by now apply key_eqb_eq.
        congruence.
      * apply key_leb_total.
  - intros [a1 b1] [a2 b2] [a3 b3]. simpl.
    destruct (key_eqb a1 a2) eqn:E12.
    + apply key_eqb_eq in E12. subst a2.
      destruct (key_eqb a1 a3) eqn:E13; auto.
      apply key_leb_trans.
    + destruct (key_eqb a2 a3) eqn:E23.
      * apply key_eqb_eq in E23. subst a3. rewrite E12. auto.
      * intros L12 L23.
        destruct (key_eqb a1 a3) eqn:E13.
        -- apply key_eqb_eq in E13. subst a3.
           assert (a1 = a2) by (apply key_leb_antisym; auto).
           subst a2.
           assert (E : key_eqb a1 a1 = true) by now apply key_eqb_eq.
           congruence.
        -- eapply key_leb_trans; eauto.
  - intros [a1 b1] [a2 b2]. simpl.
    destruct (key_eqb a1 a2) eqn:E12.
    + apply key_eqb_eq in E12. subst a2.
      assert (E : key_eqb a1 a1 = true) by now apply key_eqb_eq.
      rewrite E. intros L1 L2. f_equal. apply key_leb_antisym; auto.
    + destruct (key_eqb a2 a1) eqn:E21.
      * apply key_eqb_eq in E21. subst a2.
        assert (E : key_eqb a1 a1 = true) by now apply key_eqb_eq.
        congruence.
      * intros L1 L2.
        assert (a1 = a2) by (apply key_leb_antisym; auto). subst a2.
        assert (E : key_eqb a1 a1 = true) by now apply key_eqb_eq.
        congruence.
Qed.

Lemma ymd_inj (a b : Timestamp) : ymd a = ymd b -> a = b.
Proof.
  destruct a, b. unfold ymd. simpl. intros E. inversion E. reflexivity.
Qed.

#[export] Instance KeyLaws_Timestamp : KeyLaws Timestamp.
Proof.
  split. intros a b.
  change (key_eqb a b) with (key_eqb (ymd a) (ymd b)).
  rewrite key_eqb_eq. split.
  - apply ymd_inj.
  - now intros ->.
Qed.

Section GroupByFacts.
Context {K : Type} `{KeyLaws K}.

Lemma key_eqb_refl (k : K) : key_eqb k k = true.
  Proof. now apply key_eqb_eq. Qed.

Lemma key_eqb_neq (a b : K) : key_eqb a b = false <-> a <> b.
  Proof.
    rewrite <- key_eqb_eq. destruct (key_eqb a b); split; congruence.
  Qed.

Lemma mem_In (k : K) (l : list K) : mem k l = true <-> In k l.
  Proof.
    unfold mem. rewrite existsb_exists. split.
    - intros [x [Hx E]]. apply key_eqb_eq in E. now subst.
    - intros Hk. exists k. split; auto. apply key_eqb_refl.
  Qed.

Lemma unique_In (k : K) (l : list K) : In k (unique l) <-> In k l.
  Proof.
    induction l as [|x l IH]; simpl; [tauto|].
    rewrite filter_In, IH, negb_true_iff, key_eqb_neq.
    split.
    - intros [E | [Hk _]]; auto.
    - intros [E | Hk]; auto.
      destruct (key_eqb k x) eqn:E.
      + apply key_eqb_eq in E. auto.
      + apply key_eqb_neq in E. auto.
  Qed.

Lemma unique_NoDup (l : list K) : NoDup (unique l).
  Proof.
    induction l as [|x l IH]; simpl; constructor.
    - rewrite filter_In, negb_true_iff, key_eqb_neq. intros [_ N]. auto.
    - now apply NoDup_filter.
  Qed.

Lemma insert_key_perm (k : K) (l : list K) :
    Permutation (insert_key k l) (k :: l).
  Proof.
    induction l as [|x l IH]; simpl; auto.
    destruct (key_leb k x); auto.
    rewrite IH. apply perm_swap.
  Qed.

Lemma sort_keys_perm (l : list K) : Permutation (sort_keys l) l.
  Proof.
    induction l as [|x l IH]; simpl; auto.
    rewrite insert_key_perm. now constructor.
  Qed.

Lemma group_keys_In (k : K) (l : list K) : In k (group_keys l) <-> In k l.
  Proof.
    unfold group_keys. split; intros Hk.
    - apply unique_In.
      eapply Permutation_in; [apply sort_keys_perm | exact Hk].
    - eapply Permutation_in; [symmetry; apply sort_keys_perm|].
      now apply unique_In.
  Qed.

Lemma group_keys_NoDup (l : list K) : NoDup (group_keys l).
  Proof.
    unfold group_keys.
    eapply Permutation_NoDup; [symmetry; apply sort_keys_perm|].
    apply unique_NoDup.
  Qed.

Lemma filter_disjoint_perm {R : Type} (p q : R -> bool) (l : list R) :
    (forall r, p r = true -> q r = true -> False) ->
    Permutation (filter p l ++ filter q l) (filter (fun r => p r || q r) l).
  Proof.
    intros D. induction l as [|r l IH]; simpl; auto.
    destruct (p r) eqn:Ep, (q r) eqn:Eq; simpl.
    - exfalso. eauto.
    - now constructor.
    - rewrite <- IH. symmetry. apply Permutation_middle.
    - exact IH.
  Qed.

  (** The groups of distinct keys are the rows that carry one of them. *)
Lemma groups_perm {R : Type} (key : R -> K) (df : list R) (ks : list K) :
    NoDup ks ->
    Permutation
      (concat (map (fun k => filter (fun r => key_eqb (key r) k) df) ks))
      (filter (fun r => mem (key r) ks) df).
  Proof.
    induction 1 as [|k ks Hk Hnd IH]; simpl.
    - induction df; simpl; auto.
    - rewrite IH. apply filter_disjoint_perm.
      intros r E Hm. apply key_eqb_eq in E. apply mem_In in Hm.
      subst. auto.
  Qed.

Lemma filter_all {R : Type} (p : R -> bool) (l : list R) :
    (forall r, In r l -> p r = true) -> filter p l = l.
  Proof.
    induction l as [|r l IH]; simpl; intros Hp; auto.
    rewrite Hp by auto. f_equal. apply IH. auto.
  Qed.

Lemma groupby_keys {R : Type} (key : R -> K) (df : list R) :
    map fst (groupby key df) = group_keys (map key df).
  Proof.
    unfold groupby. rewrite map_map. simpl. apply map_id.
  Qed.

Lemma groupby_groups {R : Type} (key : R -> K) (df : list R) :
    map snd (groupby key df)
    = map (fun k => filter (fun r => key_eqb (key r) k) df)
          (group_keys (map key df)).
  Proof.
    unfold groupby. rewrite map_map. reflexivity.
  Qed.

  (** Every row is in exactly one group. *)
Lemma groupby_partition {R : Type} (key : R -> K) (df : list R) :
    Permutation (concat (map snd (groupby key df))) df.
  Proof.
    rewrite groupby_groups, groups_perm by apply group_keys_NoDup.
    rewrite filter_all; auto.
    intros r Hr. apply mem_In, group_keys_In, in_map, Hr.
  Qed.


End GroupByFacts.


(* ================================================================== *)
(** * The order of the group keys *)

Section SortedKeys.
Context {K : Type} `{KeyLaws K} `{!KeyOrder K}.

Lemma insert_key_sorted (k : K) (l : list K) :
    StronglySorted key_le l -> StronglySorted key_le (insert_key k l).
  Proof.
    induction 1 as [|x l Hs IH Hx]; simpl.
    - repeat constructor.
    - destruct (key_leb k x) eqn:E.
      + constructor.
        * now constructor.
        * constructor; auto.
          eapply Forall_impl; [|exact Hx].
          intros y Hy. eapply key_leb_trans; eauto.
      + constructor; auto.
        assert (Hxk : key_le x k).
        { destruct (key_leb_total k x); [congruence | assumption]. }
        eapply Permutation_Forall;
          [symmetry; apply insert_key_perm|].
        constructor; auto.
  Qed.

Lemma sort_keys_sorted (l : list K) : StronglySorted key_le (sort_keys l).
  Proof.
    induction l as [|x l IH]; simpl.
    - constructor.
    - now apply insert_key_sorted.
  Qed.

Lemma sorted_nodup_strict (l : list K) :
    StronglySorted key_le l -> NoDup l -> StronglySorted key_lt l.
  Proof.
    induction 1 as [|x l Hs IH Hx]; intros Hnd.
    - constructor.
    - inversion Hnd as [|? ? Hnot Hnd']; subst.
      constructor; auto.
      rewrite Forall_forall in *. intros y Hy. split.
      + apply Hx, Hy.
      + intros E. subst y. auto.
  Qed.

  (** The group keys are listed in strictly ascending order. *)
Lemma group_keys_sorted (l : list K) : StronglySorted key_lt (group_keys l).
  Proof.
    apply sorted_nodup_strict.
    - apply sort_keys_sorted.
    - apply group_keys_NoDup.
  Qed.

End SortedKeys.



(* ================================================================== *)
(** * The monthly trend *)

Lemma nth_error_combine {A B : Type} (l1 : list A) (l2 : list B) (i : nat)
    (a : A) (b : B) :
  nth_error (combine l1 l2) i = Some (a, b) <->
  nth_error l1 i = Some a /\ nth_error l2 i = Some b.
Proof.
  revert l2 i. induction l1 as [|x l1 IH]; intros [|y l2] [|i]; simpl;
    try (split; [discriminate | intros [? ?]; discriminate]).
  - split; [intros E; inversion E; auto | intros [E1 E2]; congruence].
  - apply IH.
Qed.

Lemma combine_removelast {A : Type} (x : A) (r : list A) :
  combine r (removelast (x :: r)) = combine r (x :: r).
Proof.
  revert x. induction r as [|y r IH]; intros x; auto.
  change (removelast (x :: y :: r)) with (x :: removelast (y :: r)).
  cbn [combine]. now rewrite IH.
Qed.

Lemma pct_change_cons (x : pyfloat) (r : list pyfloat) :
  pct_change (x :: r) = NaN :: map pct1 (combine r (x :: r)).
Proof.
  unfold pct_change.
  change (shift1 (x :: r)) with (NaN :: removelast (x :: r)).
  cbn [combine map]. rewrite combine_removelast. f_equal.
  destruct x; reflexivity.
Qed.

Lemma nth_error_combine_prev {A : Type} (r : list A) (x : A) (i : nat)
    (p c : A) :
  nth_error (x :: r) i = Some p -> nth_error r i = Some c ->
  nth_error (combine r (x :: r)) i = Some (c, p).
Proof.
  intros Hp Hc. apply nth_error_combine. auto.
Qed.

Lemma pct_change_first (l : list pyfloat) (v : pyfloat) :
  nth_error (pct_change l) 0 = Some v -> v = NaN.
Proof.
  destruct l as [|x r].
  - discriminate.
  - rewrite pct_change_cons. simpl. congruence.
Qed.

Lemma pct_change_next (l : list pyfloat) (i : nat) (p c : pyfloat) :
  nth_error l i = Some p -> nth_error l (S i) = Some c ->
  nth_error (pct_change l) (S i) = Some (fsub (fdiv c p) (Fin 1)).
Proof.
  destruct l as [|x r]; [destruct i; discriminate|].
  intros Hp Hc. rewrite pct_change_cons. simpl in Hc |- *.
  rewrite nth_error_map, (nth_error_combine_prev r x i p c Hp Hc).
  reflexivity.
Qed.



Lemma percent_diff_fin (c p : Q) :
  ~ p == 0 -> percent_diff (Fin c) (Fin p) =f= Fin (percent_change p c).
Proof.
  intros Hp. unfold percent_diff, percent_change, hundred, fsub, fdiv, fneg.
  simpl fadd.
  destruct (Qeq_bool p 0) eqn:E.
  - apply Qeq_bool_iff in E. contradiction.
  - simpl. field. exact Hp.
Qed.

Section GroupSums.
Context {K : Type} `{KeyLaws K}.



Lemma groupby_mean_keys {R : Type} (key : R -> K) (col : R -> Q)
      (df : list R) :
    map fst (groupby_mean key col df) = group_keys (map key df).
  Proof.
    unfold groupby_mean. rewrite map_map. simpl. apply groupby_keys.
  Qed.

End GroupSums.



Lemma monthly_nth (df : DataFrame) (i : nat) (row : MonthlyRow) :
  nth_error (monthly df) i = Some row ->
  exists p t pc,
    nth_error (monthly_totals df) i = Some (p, t) /\
    nth_error (pct_change_100 (map snd (monthly_totals df))) i = Some pc /\
    row = mkMonthly (to_timestamp p) t pc.
Proof.
  unfold monthly. rewrite nth_error_map.
  destruct (nth_error (combine _ _) i) as [[[p t] pc]|] eqn:E;
    [|discriminate].
  apply nth_error_combine in E. destruct E as [E1 E2].
  simpl. intros E. inversion E. exists p, t, pc. auto.
Qed.






Lemma monthly_first_pct (df : DataFrame) (row : MonthlyRow) :
  nth_error (monthly df) 0 = Some row -> m_pct_change row = NaN.
Proof.
  intros Hrow.
  destruct (monthly_nth df 0 row Hrow) as (p & t & pc & _ & E2 & ->).
  cbn [m_pct_change]. unfold pct_change_100 in E2.
  rewrite nth_error_map in E2.
  destruct (nth_error (pct_change _) 0) as [v|] eqn:E; [|discriminate].
  apply pct_change_first in E. subst v. inversion E2. reflexivity.
Qed.

Lemma monthly_next_pct (df : DataFrame) (i : nat) (prev cur : MonthlyRow) :
  nth_error (monthly df) i = Some prev ->
  nth_error (monthly df) (S i) = Some cur ->
  m_pct_change cur
  = fmul (fsub (fdiv (Fin (m_sales cur)) (Fin (m_sales prev))) (Fin 1))
         hundred.
Proof.
  intros Hp Hc.
  destruct (monthly_nth df i prev Hp) as (p1 & t1 & pc1 & E1 & _ & ->).
  destruct (monthly_nth df (S i) cur Hc) as (p2 & t2 & pc2 & E2 & E3 & ->).
  cbn [m_pct_change m_sales]. unfold pct_change_100 in E3.
  rewrite nth_error_map in E3.
  rewrite (pct_change_next _ i (Fin t1) (Fin t2)) in E3.
  - inversion E3. reflexivity.
  - unfold floats. rewrite !nth_error_map, E1. reflexivity.
  - unfold floats. rewrite !nth_error_map, E2. reflexivity.
Qed.


(* ================================================================== *)
(** * Running the view functions *)

Lemma run_emit {A : Type} (e : event) (k : M A) (w : World) :
  (emit e ;;; k) w = k {| heap := heap w; screen := screen w ++ [e] |}.
Proof. reflexivity. Qed.

Lemma run_load {A : Type} (r : ref) (k : DataFrame -> M A) (w : World)
    (df : DataFrame) :
  nth_error (heap w) r = Some df -> (x <- load r ;; k x) w = k df w.
Proof. intros E. unfold bind, load. now rewrite E. Qed.

Lemma run_lift_ok {A B : Type} (a : A) (k : A -> M B) (w : World) :
  (x <- lift (Ok a) ;; k x) w = k a w.
Proof. reflexivity. Qed.

(** What [display_executive_summary] renders. *)
Lemma executive_summary_screen (w : World) (data : ref) (df : DataFrame) :
  nth_error (heap w) data = Some df ->
  display_executive_summary data w
  = (Ok tt,
     {| heap := heap w;
        screen :=
          screen w ++
          [ st_header "Executive Summary";
            st_metric "Total Sales (all time)" (VNum (total_sales df));
            st_metric "Avg Daily Revenue" (VNum (avg_daily_revenue df));
            st_metric "Active Stores"
              (VInt (Z.of_nat (if has_column "store_id" df
                               then nunique (map store_id (rows df))
                               else O)));
            st_metric "Product Range"
              (VInt (Z.of_nat (if has_column "item_id" df
                               then nunique (map item_id (rows df))
                               else O)));
            trend_event (recent_trend df);
            st_pyplot
              (mkChart "bar" "Monthly Revenue Trend"
                       (map (fun m => VDate (m_date m)) (monthly df))
                       [floats (map m_sales (monthly df))]) ] |}).
Proof.
  intros Hdf. unfold display_executive_summary.
  rewrite run_emit, (run_load data _ _ df) by exact Hdf.
  cbv zeta. rewrite !run_emit.
  unfold emit. cbn [heap screen]. rewrite <- !app_assoc. reflexivity.
Qed.

(** What [business_insights_view] does with a frame without rows. *)
Lemma view_of_empty (w : World) (data : ref) (df : DataFrame) :
  nth_error (heap w) data = Some df -> empty df = true ->
  business_insights_view data w
  = (Ok tt,
     {| heap := heap w;
        screen :=
          screen w ++
          [ st_title "Business Insights & Recommendations";
            st_warning (mkMsg "No sales data available." []) ] |}).
Proof.
  intros Hdf He. unfold business_insights_view.
  rewrite run_emit, (run_load data _ _ df) by exact Hdf.
  rewrite He. unfold emit. cbn [heap screen]. rewrite <- app_assoc.
  reflexivity.
Qed.

(** C2.  For a frame without rows [business_insights_view] renders the page
    title and the warning "No sales data available." and returns: nothing
    else is rendered, no section is started, no exception is raised and the
    store is as it was. *)
Theorem empty_dataset_shows_no_data (w : World) (data : ref)
    (df : DataFrame) :
  nth_error (heap w) data = Some df ->
  empty df = true ->
  business_insights_view data w
  = (Ok tt,
     {| heap := heap w;
        screen :=
          screen w ++
          [ st_title "Business Insights & Recommendations";
            st_warning (mkMsg "No sales data available." []) ] |}).
Proof. apply view_of_empty. Qed.

(* ================================================================== *)
(** * A single month *)

Lemma filter_none {A : Type} (p : A -> bool) (l : list A) :
  (forall x, In x l -> p x = false) -> filter p l = [].
Proof.
  induction l as [|x l IH]; simpl; intros Hp; auto.
  rewrite Hp by auto. apply IH. auto.
Qed.

Section ConstantKeys.
Context {K : Type} `{KeyLaws K}.

Lemma unique_const (k : K) (l : list K) :
    l <> [] -> (forall x, In x l -> x = k) -> unique l = [k].
  Proof.
    destruct l as [|x l]; [congruence|]. intros _ Hall. simpl.
    rewrite (Hall x) by (left; reflexivity). f_equal.
    apply filter_none. intros y Hy. apply (proj1 (unique_In _ _)) in Hy.
    rewrite (Hall y) by (right; exact Hy).
    now rewrite key_eqb_refl.
  Qed.

Lemma group_keys_const (k : K) (l : list K) :
    l <> [] -> (forall x, In x l -> x = k) -> group_keys l = [k].
  Proof.
    intros Hne Hall. unfold group_keys.
    now rewrite (unique_const k l Hne Hall).
  Qed.

End ConstantKeys.

Lemma monthly_single (df : DataFrame) (d : Timestamp) :
  rows df <> [] ->
  (forall r, In r (rows df) -> to_period_M (date r) = to_period_M d) ->
  monthly df
  = [ mkMonthly (to_timestamp (to_period_M d)) (month_total df d) NaN ].
Proof.
  intros Hne Hall.
  assert (Hk : group_keys (map (fun r => to_period_M (date r)) (rows df))
               = [to_period_M d]).
  { apply group_keys_const.
    - destruct (rows df); [congruence | discriminate].
    - intros x Hx. apply in_map_iff in Hx. destruct Hx as [r [<- Hr]].
      now apply Hall. }
  unfold monthly, monthly_totals, groupby_sum, groupby. rewrite Hk.
  cbn [map fst snd]. unfold pct_change_100, floats. cbn [map].
  rewrite pct_change_cons. reflexivity.
Qed.

(** C10.  When all rows of a non-empty frame fall in one calendar month,
    the percent changes are the single value NaN, their recent mean is NaN,
    and [display_executive_summary] renders the "Declining trend" warning:
    NaN is neither greater than 5 nor greater than 0. *)
Theorem single_month_is_declining (df : DataFrame) (d : Timestamp) :
  rows df <> [] ->
  (forall r, In r (rows df) -> to_period_M (date r) = to_period_M d) ->
  map m_pct_change (monthly df) = [NaN] /\
  recent_trend df = NaN /\
  trend_event (recent_trend df)
  = st_warning (mkMsg "Declining trend" [VNum NaN]) /\
  forall (w : World) (data : ref),
    nth_error (heap w) data = Some df ->
    fst (display_executive_summary data w) = Ok tt /\
    In (st_warning (mkMsg "Declining trend" [VNum NaN]))
       (screen (snd (display_executive_summary data w))) /\
    forall m, ~ In (st_success m)
                   (skipn (length (screen w))
                          (screen (snd (display_executive_summary data w)))) /\
              ~ In (st_info m)
                   (skipn (length (screen w))
                          (screen (snd (display_executive_summary data w)))).
Proof.
  intros Hne Hall.
  assert (Hm := monthly_single df d Hne Hall).
  assert (Ht : recent_trend df = NaN).
  { unfold recent_trend. rewrite Hm. reflexivity. }
  split; [now rewrite Hm|].
  split; [exact Ht|].
  split; [now rewrite Ht|].
  intros w data Hdf.
  rewrite (executive_summary_screen w data df Hdf), Ht.
  cbn [fst snd screen]. split; [reflexivity|]. split.
  - apply in_or_app. right. simpl. tauto.
  - intros m. rewrite skipn_app, skipn_all, Nat.sub_diag. simpl.
    split; intros Hin; repeat (destruct Hin as [Hin|Hin]; try discriminate);
      exact Hin.
Qed.

(* ================================================================== *)
(** * The recent trend and its bands *)

Lemma tail_short {A : Type} (n : nat) (l : list A) :
  (length l <= n)%nat -> tail n l = l.
Proof.
  intros Hl. unfold tail.
  replace (length l - n)%nat with O by lia. reflexivity.
Qed.





Lemma fgt_fin (q c : Q) : fgt (Fin q) (Fin c) = true <-> c < q.
Proof.
  unfold fgt, fcmp. rewrite Qlt_alt, <- (Qcompare_antisym q c).
  destruct (q ?= c); simpl; split; intros E;
    (reflexivity || discriminate E).
Qed.

Lemma fgt_fin_false (q c : Q) : fgt (Fin q) (Fin c) = false <-> q <= c.
Proof.
  rewrite <- not_true_iff_false, fgt_fin. split.
  - apply Qnot_lt_le.
  - apply Qle_not_lt.
Qed.



(* ================================================================== *)
(** * Day-of-week aggregation *)

Section Lookup.
Context {K : Type} `{KeyLaws K}.

Lemma lookup_tabulate {V : Type} (f : K -> V) (ks : list K) (k : K) :
    lookup k (map (fun x => (x, f x)) ks)
    = if mem k ks then Some (f k) else None.
  Proof.
    unfold lookup, mem. induction ks as [|x ks IH]; simpl; auto.
    destruct (key_eqb x k) eqn:E.
    - apply key_eqb_eq in E. subst x. now rewrite key_eqb_refl.
    - assert (E' : key_eqb k x = false).
      { apply key_eqb_neq. apply key_eqb_neq in E. congruence. }
      rewrite E'. simpl. exact IH.
  Qed.

Lemma lookup_groupby_mean {R : Type} (key : R -> K) (col : R -> Q)
      (df : list R) (k : K) :
    lookup k (groupby_mean key col df)
    = if mem k (map key df)
      then Some (series_mean
                   (map col (filter (fun r => key_eqb (key r) k) df)))
      else None.
  Proof.
    unfold groupby_mean, groupby. rewrite map_map. cbn [fst snd].
    rewrite (lookup_tabulate
               (fun k => series_mean
                           (map col (filter (fun r => key_eqb (key r) k) df)))).
    destruct (mem k (group_keys (map key df))) eqn:E1,
             (mem k (map key df)) eqn:E2; auto.
    - apply (proj1 (mem_In _ _)), (proj1 (group_keys_In _ _)),
        (proj2 (mem_In _ _)) in E1. congruence.
    - apply (proj1 (mem_In _ _)), (proj2 (group_keys_In _ _)),
        (proj2 (mem_In _ _)) in E2. congruence.
  Qed.

End Lookup.

Lemma combine_map_self {A B : Type} (f : A -> B) (l : list A) :
  combine (map f l) l = map (fun x => (f x, x)) l.
Proof. induction l; simpl; congruence. Qed.

Lemma filter_tagged {A B : Type} (f : A -> B) (p : B -> bool) (l : list A) :
  map snd (filter (fun x => p (fst x)) (map (fun x => (f x, x)) l))
  = filter (fun x => p (f x)) l.
Proof.
  induction l as [|x l IH]; simpl; auto.
  destruct (p (f x)); simpl; congruence.
Qed.

Lemma series_mean_empty_filter (day : string) (df : DataFrame) :
  mem day (map (fun r => day_name (date r)) (rows df)) = false ->
  day_mean df day = NaN.
Proof.
  intros Hm. unfold day_mean. rewrite filter_none; auto.
  intros r Hr. unfold on_day.
  destruct (key_eqb (day_name (date r)) day) eqn:E; auto.
  apply key_eqb_eq in E. subst day.
  assert (Hin : mem (day_name (date r))
                    (map (fun r => day_name (date r)) (rows df)) = true).
  { apply mem_In. now apply (in_map (fun r => day_name (date r))). }
  congruence.
Qed.

Lemma with_day_names_has_column (df : DataFrame) :
  has_column "day_of_week" (with_day_names df) = true.
Proof.
  unfold with_day_names, assign_day_of_week, has_column. cbn [columns].
  destruct (mem "day_of_week"%string (columns df)) eqn:E; auto.
  apply mem_In, in_or_app. right. left. reflexivity.
Qed.

Lemma sales_by_day_name_lookup (df : DataFrame) :
  exists s, sales_by_day_name (with_day_names df) = Ok s /\
            forall day,
              match lookup day s with Some v => v | None => NaN end
              = day_mean df day.
Proof.
  unfold sales_by_day_name, with_day_of_week.
  rewrite with_day_names_has_column. cbn [rbind].
  eexists. split; [reflexivity|]. intros day.
  rewrite lookup_groupby_mean.
  unfold with_day_names, assign_day_of_week, day_names.
  cbn [day_of_week rows]. rewrite combine_map_self, map_map. cbn [fst].
  destruct (mem day _) eqn:E.
  - unfold day_mean, on_day. f_equal.
    rewrite <- (filter_tagged (fun r => day_name (date r))
                              (fun d => key_eqb d day)).
    now rewrite map_map.
  - symmetry. now apply series_mean_empty_filter.
Qed.

Lemma dow_sales_spec (df : DataFrame) :
  dow_sales (with_day_names df)
  = Ok (map (fun day => (day, day_mean df day)) day_order).
Proof.
  unfold dow_sales.
  destruct (sales_by_day_name_lookup df) as [s [-> Hs]].
  cbn [rbind]. f_equal. unfold reindex.
  apply map_ext. intros day. now rewrite Hs.
Qed.

Lemma series_mean_nonempty (l : list Q) :
  l <> [] ->
  series_mean l = Fin (Qsum l / inject_Z (Z.of_nat (length l))).
Proof. destruct l; [congruence | reflexivity]. Qed.

Lemma series_mean_perm (l l' : list Q) :
  Permutation l l' -> series_mean l =f= series_mean l'.
Proof.
  intros Hp.
  destruct l as [|x l].
  - apply Permutation_nil in Hp. subst l'. exact I.
  - assert (Hne : l' <> []).
    { intros ->. symmetry in Hp. apply Permutation_nil in Hp.
      discriminate. }
    rewrite (series_mean_nonempty (x :: l)) by discriminate.
    rewrite (series_mean_nonempty l' Hne).
    unfold feq. rewrite (Qsum_perm _ _ Hp), (Permutation_length Hp).
    reflexivity.
Qed.



(* ================================================================== *)
(** * What a computation does to the store and the screen *)

Lemma keeps_refl (n : nat) (w : World) :
  (n <= length (heap w))%nat -> keeps n w w.
Proof.
  intros Hn. split; [reflexivity|]. split; [exact Hn|].
  exists []. now rewrite app_nil_r.
Qed.

Lemma keeps_trans (n : nat) (w1 w2 w3 : World) :
  keeps n w1 w2 -> keeps n w2 w3 -> keeps n w1 w3.
Proof.
  intros (H1 & L1 & l1 & S1) (H2 & L2 & l2 & S2).
  split; [congruence|]. split; [exact L2|].
  exists (l1 ++ l2). now rewrite S2, S1, app_assoc.
Qed.

Lemma preserving_ret {A : Type} (n : nat) (a : A) :
  preserving n (ret a) anything.
Proof.
  intros w Hn. split; [now apply keeps_refl | intros; exact I].
Qed.

Lemma preserving_lift {A : Type} (n : nat) (r : result A) :
  preserving n (lift r) anything.
Proof.
  intros w Hn. split; [now apply keeps_refl | intros; exact I].
Qed.

Lemma preserving_load (n : nat) (r : ref) : preserving n (load r) anything.
Proof.
  intros w Hn. unfold load.
  destruct (nth_error (heap w) r);
    (split; [now apply keeps_refl | intros; exact I]).
Qed.

Lemma preserving_emit (n : nat) (e : event) : preserving n (emit e) anything.
Proof.
  intros w Hn. split; [|intros; exact I].
  split; [reflexivity|]. split; [exact Hn|]. now exists [e].
Qed.

Lemma firstn_app_left {A : Type} (n : nat) (l1 l2 : list A) :
  (n <= length l1)%nat -> firstn n (l1 ++ l2) = firstn n l1.
Proof.
  intros Hn. rewrite firstn_app.
  replace (n - length l1)%nat with O by lia.
  simpl. apply app_nil_r.
Qed.

(** [copy] returns a reference that is not among the first [n]. *)
Lemma preserving_copy (n : nat) (r : ref) :
  preserving n (copy r) (fun c => (n <= c)%nat).
Proof.
  intros w Hn. unfold copy.
  destruct (nth_error (heap w) r) as [df|].
  - cbn [fst snd]. split.
    + split; [|split].
      * cbn [heap]. now apply firstn_app_left.
      * cbn [heap]. rewrite length_app. lia.
      * exists []. cbn [screen]. now rewrite app_nil_r.
    + intros a E. inversion E. exact Hn.
  - split; [now apply keeps_refl | intros a E; discriminate E].
Qed.

Lemma length_update {A : Type} (i : nat) (f : A -> A) (l : list A) :
  length (update i f l) = length l.
Proof.
  revert i. induction l as [|x l IH]; intros [|i]; simpl; auto.
Qed.

Lemma firstn_update {A : Type} (n i : nat) (f : A -> A) (l : list A) :
  (n <= i)%nat -> firstn n (update i f l) = firstn n l.
Proof.
  revert n i. induction l as [|x l IH]; intros [|n] [|i] Hn; simpl; auto.
  - lia.
  - f_equal. apply IH. lia.
Qed.

(** Assigning a column of a frame beyond the first [n] keeps these. *)
Lemma preserving_setitem (n : nat) (c : ref) (cells : list string) :
  (n <= c)%nat -> preserving n (setitem_day_of_week c cells) anything.
Proof.
  intros Hc w Hn. unfold setitem_day_of_week.
  destruct (nth_error (heap w) c).
  - split; [|intros; exact I]. cbn [snd]. split; [|split].
    + cbn [heap]. now apply firstn_update.
    + cbn [heap]. now rewrite length_update.
    + exists []. cbn [screen]. now rewrite app_nil_r.
  - split; [now apply keeps_refl | intros; exact I].
Qed.

Lemma preserving_bind {A B : Type} (n : nat) (m : M A) (k : A -> M B)
    (P : A -> Prop) (Q : B -> Prop) :
  preserving n m P ->
  (forall a, P a -> preserving n (k a) Q) ->
  preserving n (bind m k) Q.
Proof.
  intros Hm Hk w Hn. unfold bind.
  destruct (Hm w Hn) as [Hkeep Hres].
  destruct (m w) as [[a|e] w1]; cbn [fst snd] in *.
  - destruct Hkeep as (H1 & L1 & S1).
    destruct (Hk a (Hres a eq_refl) w1) as [Hkeep2 Hres2].
    + exact L1.
    + split; [|exact Hres2].
      eapply keeps_trans; [|exact Hkeep2]. split; auto.
  - split; [exact Hkeep | intros a E; discriminate E].
Qed.

Lemma preserving_then {A B : Type} (n : nat) (m : M A) (k : A -> M B)
    (Q : B -> Prop) :
  preserving n m anything ->
  (forall a, preserving n (k a) Q) ->
  preserving n (bind m k) Q.
Proof.
  intros Hm Hk. eapply preserving_bind; [exact Hm | intros a _; apply Hk].
Qed.

Lemma preserving_after_copy {B : Type} (n : nat) (r : ref) (k : ref -> M B)
    (Q : B -> Prop) :
  (forall c, (n <= c)%nat -> preserving n (k c) Q) ->
  preserving n (bind (copy r) k) Q.
Proof.
  intros Hk. eapply preserving_bind; [apply preserving_copy | exact Hk].
Qed.

Lemma preserving_emit_all (n : nat) (l : list event) :
  preserving n (emit_all l) anything.
Proof.
  induction l as [|e l IH]; unfold emit_all; simpl.
  - apply preserving_ret.
  - apply preserving_then; [apply preserving_emit | intros _; exact IH].
Qed.

Lemma preserving_fold {X : Type} (n : nat) (body : X -> M unit -> M unit)
    (l : list X) :
  (forall x k, preserving n k anything -> preserving n (body x k) anything) ->
  preserving n (fold_right body (ret tt) l) anything.
Proof.
  intros Hbody. induction l as [|x l IH]; simpl.
  - apply preserving_ret.
  - apply Hbody, IH.
Qed.

Create HintDb preserving.

(** One step through a computation built from the operations above. *)
Ltac preserve_step :=
  lazymatch goal with
  | |- preserving _ (bind (copy _) _) _ =>
      apply preserving_after_copy; intros ? ?
  | |- preserving _ (bind _ _) _ => apply preserving_then; [|intros ?]
  | |- preserving _ (emit _) _ => apply preserving_emit
  | |- preserving _ (load _) _ => apply preserving_load
  | |- preserving _ (lift _) _ => apply preserving_lift
  | |- preserving _ (ret _) _ => apply preserving_ret
  | |- preserving _ (setitem_day_of_week _ _) _ =>
      apply preserving_setitem; assumption
  | |- preserving _ (emit_all _) _ => apply preserving_emit_all
  | |- preserving _ (fold_right _ _ _) _ =>
      apply preserving_fold; intros [[? ?] ?] ? ?
  | |- preserving _ (if ?b then _ else _) _ => destruct b
  | |- preserving _ (match ?x with _ => _ end) _ => destruct x
  | |- preserving _ (let _ := _ in _) _ => cbv zeta
  | |- preserving _ _ _ => solve [assumption | auto with preserving]
  end.

Ltac preserve := repeat preserve_step.

Lemma preserving_render_recommendations (n : nat) (l : list Recommendation)
    (i : Z) :
  preserving n (render_recommendations i l) anything.
Proof.
  revert i. induction l as [|r l IH]; intros i; simpl.
  - apply preserving_ret.
  - preserve.
Qed.

#[export] Hint Resolve preserving_render_recommendations : preserving.

Lemma preserving_executive_summary (n : nat) (data : ref) :
  preserving n (display_executive_summary data) anything.
Proof. unfold display_executive_summary. preserve. Qed.

Lemma preserving_performer_analysis (n : nat) (data : ref) :
  preserving n (display_performer_analysis data) anything.
Proof. unfold display_performer_analysis. preserve. Qed.

Lemma preserving_timing_insights (n : nat) (data : ref) :
  preserving n (display_timing_insights data) anything.
Proof. unfold display_timing_insights. preserve. Qed.

Lemma preserving_growth_opportunities (n : nat) (data : ref) :
  preserving n (display_growth_opportunities data) anything.
Proof. unfold display_growth_opportunities. preserve. Qed.

Lemma preserving_recommendations (n : nat) (data : ref) :
  preserving n (display_recommendations data) anything.
Proof. unfold display_recommendations. preserve. Qed.

#[export] Hint Resolve preserving_executive_summary
  preserving_performer_analysis preserving_timing_insights
  preserving_growth_opportunities preserving_recommendations : preserving.

Lemma preserving_business_insights_view (n : nat) (data : ref) :
  preserving n (business_insights_view data) anything.
Proof. unfold business_insights_view. preserve. Qed.

Lemma preserving_plot_sales_time_series (n : nat) (data : ref)
    (selected_store selected_store_name : string) :
  preserving n
    (plot_sales_time_series data selected_store selected_store_name)
    anything.
Proof. unfold plot_sales_time_series. preserve. Qed.

Lemma preserving_plot_day_of_week_pattern (n : nat) (data : ref) :
  preserving n (plot_day_of_week_pattern data) anything.
Proof. unfold plot_day_of_week_pattern. preserve. Qed.

Lemma preserving_plot_sales_distribution (n : nat) (data : ref) :
  preserving n (plot_sales_distribution data) anything.
Proof. unfold plot_sales_distribution. preserve. Qed.

Lemma preserving_plot_category_distribution (n : nat) (data : ref) :
  preserving n (plot_category_distribution data) anything.
Proof. unfold plot_category_distribution. preserve. Qed.

Lemma preserving_plot_store_comparison (n : nat) (data : ref)
    (store_identifier : string) :
  preserving n (plot_store_comparison data store_identifier) anything.
Proof. unfold plot_store_comparison. preserve. Qed.

Lemma preserving_unchanged {A : Type} (f : ref -> M A) :
  (forall n data, preserving n (f data) anything) ->
  leaves_input_unchanged f.
Proof.
  intros Hf w data df Hdf.
  destruct (Hf (length (heap w)) data w (Nat.le_refl _)) as [[Hh _] _].
  assert (Hlt : (data < length (heap w))%nat).
  { apply nth_error_Some. congruence. }
  rewrite firstn_all in Hh.
  assert (E : nth_error (firstn (length (heap w)) (heap (snd (f data w))))
                        data
              = nth_error (heap (snd (f data w))) data).
  { rewrite nth_error_firstn.
    destruct (Nat.ltb_spec data (length (heap w))); [reflexivity | lia]. }
  rewrite <- E, Hh. exact Hdf.
Qed.

Lemma run_copy {A : Type} (r : ref) (k : ref -> M A) (w : World)
    (df : DataFrame) :
  nth_error (heap w) r = Some df ->
  (c <- copy r ;; k c) w
  = k (length (heap w)) {| heap := heap w ++ [df]; screen := screen w |}.
Proof. intros E. unfold bind, copy. now rewrite E. Qed.

Lemma run_setitem {A : Type} (r : ref) (cells : list string) (k : M A)
    (w : World) (df : DataFrame) :
  nth_error (heap w) r = Some df ->
  (setitem_day_of_week r cells ;;; k) w
  = k {| heap := update r (assign_day_of_week cells) (heap w);
         screen := screen w |}.
Proof. intros E. unfold bind, setitem_day_of_week. now rewrite E. Qed.

Lemma nth_error_last {A : Type} (l : list A) (x : A) :
  nth_error (l ++ [x]) (length l) = Some x.
Proof.
  rewrite nth_error_app2 by lia. now rewrite Nat.sub_diag.
Qed.

Lemma update_last {A : Type} (f : A -> A) (l : list A) (x : A) :
  update (length l) f (l ++ [x]) = l ++ [f x].
Proof. induction l as [|y l IH]; simpl; congruence. Qed.

(** What [plot_day_of_week_pattern] returns and does: the column goes to a
    copy, at the end of the store. *)
Lemma plot_day_of_week_pattern_run (w : World) (data : ref)
    (df : DataFrame) :
  nth_error (heap w) data = Some df ->
  plot_day_of_week_pattern data w
  = (Ok (mkChart "barplot" "Average Sales by Day of Week"
                 (map VStr day_order)
                 [map (day_mean df) day_order]),
     {| heap := heap w ++ [with_day_names df]; screen := screen w |}).
Proof.
  intros Hdf. unfold plot_day_of_week_pattern.
  rewrite (run_copy data _ w df Hdf).
  rewrite (run_load _ _ _ df) by (cbn [heap]; apply nth_error_last).
  rewrite (run_setitem _ _ _ _ df) by (cbn [heap]; apply nth_error_last).
  cbn [heap screen]. rewrite update_last.
  rewrite (run_load _ _ _ (with_day_names df))
    by (cbn [heap]; apply nth_error_last).
  rewrite dow_sales_spec, run_lift_ok. unfold ret.
  rewrite !map_map. reflexivity.
Qed.

(** C9.  Each of the view functions and of the plotting functions leaves
    the frame it is given as it was, with the same rows and the same
    columns, whatever it renders and also when it raises an exception.  The
    column [day_of_week] is assigned to a copy: after
    [plot_day_of_week_pattern] the store has the frames it had, unchanged,
    and one more, the copy with the new column. *)
Theorem analysis_leaves_dataset_unchanged :
  leaves_input_unchanged business_insights_view /\
  leaves_input_unchanged display_executive_summary /\
  leaves_input_unchanged display_performer_analysis /\
  leaves_input_unchanged display_timing_insights /\
  leaves_input_unchanged display_growth_opportunities /\
  leaves_input_unchanged display_recommendations /\
  (forall store name,
      leaves_input_unchanged
        (fun data => plot_sales_time_series data store name)) /\
  leaves_input_unchanged plot_day_of_week_pattern /\
  leaves_input_unchanged plot_sales_distribution /\
  leaves_input_unchanged plot_category_distribution /\
  (forall store_identifier,
      leaves_input_unchanged
        (fun data => plot_store_comparison data store_identifier)) /\
  (forall (w : World) (data : ref) (df : DataFrame),
      nth_error (heap w) data = Some df ->
      heap (snd (plot_day_of_week_pattern data w))
      = heap w ++ [with_day_names df]).
Proof.
  repeat match goal with |- _ /\ _ => split end.
  - apply preserving_unchanged. intros n data.
    apply preserving_business_insights_view.
  - apply preserving_unchanged. intros n data.
    apply preserving_executive_summary.
  - apply preserving_unchanged. intros n data.
    apply preserving_performer_analysis.
  - apply preserving_unchanged. intros n data.
    apply preserving_timing_insights.
  - apply preserving_unchanged. intros n data.
    apply preserving_growth_opportunities.
  - apply preserving_unchanged. intros n data.
    apply preserving_recommendations.
  - intros store name. apply preserving_unchanged. intros n data.
    apply preserving_plot_sales_time_series.
  - apply preserving_unchanged. intros n data.
    apply preserving_plot_day_of_week_pattern.
  - apply preserving_unchanged. intros n data.
    apply preserving_plot_sales_distribution.
  - apply preserving_unchanged. intros n data.
    apply preserving_plot_category_distribution.
  - intros store_identifier. apply preserving_unchanged. intros n data.
    apply preserving_plot_store_comparison.
  - intros w data df Hdf.
    now rewrite (plot_day_of_week_pattern_run w data df Hdf).
Qed.

(* ================================================================== *)
(** * The day-of-week chart of [display_timing_insights] *)

Lemma day_name_in_order (d : Timestamp) : In (day_name d) day_order.
Proof.
  unfold day_name. apply nth_In.
  assert (H := Z.mod_pos_bound (days_from_civil d + 3) 7 eq_refl).
  unfold dayofweek. change (length day_order) with 7%nat. lia.
Qed.

Lemma idx_best_some {K : Type} (better : pyfloat -> pyfloat -> bool)
    (s : list (K * pyfloat)) (acc : option (K * pyfloat)) :
  acc <> None \/ (exists kv, In kv s /\ isna (snd kv) = false) ->
  fold_left
    (fun best kv =>
       if isna (snd kv) then best
       else match best with
            | None => Some kv
            | Some b => if better (snd kv) (snd b) then Some kv else best
            end)
    s acc <> None.
Proof.
  revert acc. induction s as [|kv s IH]; intros acc Hsome; simpl.
  - destruct Hsome as [Hacc | [x [[] _]]]. exact Hacc.
  - apply IH. destruct (isna (snd kv)) eqn:Ena.
    + destruct Hsome as [Hacc | [x [[<- | Hx] Hn]]].
      * now left.
      * congruence.
      * right. now exists x.
    + left. destruct acc as [b|]; [|discriminate].
      destruct (better (snd kv) (snd b)); discriminate.
Qed.

Lemma idx_best_ok {K : Type} (better : pyfloat -> pyfloat -> bool)
    (s : list (K * pyfloat)) :
  (exists kv, In kv s /\ isna (snd kv) = false) ->
  exists k, idx_best better s = Ok k.
Proof.
  intros Hs. unfold idx_best.
  assert (H := idx_best_some better s None (or_intror Hs)).
  destruct (fold_left _ s None) as [kv|]; [|congruence].
  now exists (fst kv).
Qed.

Lemma some_day_has_sales (df : DataFrame) :
  rows df <> [] ->
  exists kv, In kv (map (fun day => (day, day_mean df day)) day_order) /\
             isna (snd kv) = false.
Proof.
  destruct (rows df) as [|r rs] eqn:Er; [congruence|]. intros _.
  exists (day_name (date r), day_mean df (day_name (date r))). split.
  - apply (in_map (fun day => (day, day_mean df day))), day_name_in_order.
  - cbn [snd]. unfold day_mean. rewrite Er. cbn [filter].
    unfold on_day at 1. rewrite key_eqb_refl. reflexivity.
Qed.

Lemma select_weekend (f : string -> pyfloat) :
  select (map (fun day => (day, f day)) day_order) weekend
  = Ok [f "Saturday"%string; f "Sunday"%string].
Proof. reflexivity. Qed.

Lemma select_weekdays (f : string -> pyfloat) :
  select (map (fun day => (day, f day)) day_order) weekdays
  = Ok (map f weekdays).
Proof. reflexivity. Qed.



(* ================================================================== *)
(** * Arithmetic up to the representation of the rationals *)

#[export] Instance fneg_proper : Proper (feq ==> feq) fneg.
Proof.
  intros [a| | |] [b| | |] E; simpl in *; auto. now rewrite E.
Qed.

#[export] Instance fadd_proper : Proper (feq ==> feq ==> feq) fadd.
Proof.
  intros [a| | |] [a'| | |] Ea [b| | |] [b'| | |] Eb; simpl in *;
    try contradiction; auto.
  now rewrite Ea, Eb.
Qed.

#[export] Instance fsub_proper : Proper (feq ==> feq ==> feq) fsub.
Proof.
  intros x x' Ex y y' Ey. unfold fsub. now rewrite Ex, Ey.
Qed.

#[export] Instance fmul_proper : Proper (feq ==> feq ==> feq) fmul.
Proof.
  intros [a| | |] [a'| | |] Ea [b| | |] [b'| | |] Eb; simpl in *;
    try contradiction; auto;
    try (rewrite Ea; reflexivity); try (rewrite Eb; reflexivity).
  now rewrite Ea, Eb.
Qed.

#[export] Instance fdiv_proper : Proper (feq ==> feq ==> feq) fdiv.
Proof.
  intros [a| | |] [a'| | |] Ea [b| | |] [b'| | |] Eb; simpl in *;
    try contradiction; auto; try reflexivity.
  - rewrite (Qeqb_comp _ _ Eb 0 0 (Qeq_refl 0)).
    rewrite (Qcompare_comp _ _ Ea 0 0 (Qeq_refl 0)).
    destruct (Qeq_bool b' 0); [reflexivity|].
    simpl. now rewrite Ea, Eb.
  - rewrite (Qleb_comp 0 0 (Qeq_refl 0) _ _ Eb). reflexivity.
  - rewrite (Qleb_comp 0 0 (Qeq_refl 0) _ _ Eb). reflexivity.
Qed.

Lemma rint_comp (a b : Q) : a == b -> rint a = rint b.
Proof.
  intros E. unfold rint. rewrite (Qfloor_comp _ _ E).
  assert (Ec : Qcompare (a - inject_Z (Qfloor b)) (1 # 2)
               = Qcompare (b - inject_Z (Qfloor b)) (1 # 2)).
  { apply Qcompare_comp; [now rewrite E | reflexivity]. }
  now rewrite Ec.
Qed.

#[export] Instance round1_proper : Proper (Qeq ==> Qeq) round1.
Proof.
  intros a b E. unfold round1.
  assert (E10 : a * 10 == b * 10) by now rewrite E.
  now rewrite (rint_comp _ _ E10).
Qed.

#[export] Instance fround1_proper : Proper (feq ==> feq) fround1.
Proof.
  intros [a| | |] [b| | |] E; simpl in *; auto. now rewrite E.
Qed.

#[export] Instance percent_diff_proper :
  Proper (feq ==> feq ==> feq) percent_diff.
Proof.
  intros x x' Ex y y' Ey. unfold percent_diff. now rewrite Ex, Ey.
Qed.

(** The left-to-right sum of finite values is their sum. *)
Lemma fsum_fin_from (l : list Q) (acc : Q) :
  fold_left fadd (map Fin l) (Fin acc) =f= Fin (acc + Qsum l).
Proof.
  revert acc. induction l as [|x l IH]; intros acc; simpl.
  - ring.
  - rewrite IH. simpl. ring.
Qed.

Lemma fsum_fin (l : list Q) : fsum (map Fin l) =f= Fin (Qsum l).
Proof.
  unfold fsum. rewrite fsum_fin_from. simpl. ring.
Qed.

Lemma filter_notna_fin (l : list Q) : filter notna (map Fin l) = map Fin l.
Proof. induction l as [|x l IH]; simpl; congruence. Qed.

Lemma positive_length_nonzero {A : Type} (x : A) (l : list A) :
  Qeq_bool (inject_Z (Z.of_nat (length (x :: l)))) 0 = false.
Proof.
  apply not_true_iff_false. intros E. apply Qeq_bool_iff in E.
  unfold Qeq in E. simpl in E. lia.
Qed.

Lemma mean_skipna_all (v : list pyfloat) :
  v <> [] -> filter notna v = v ->
  mean_skipna v = fdiv (fsum v) (of_nat (length v)).
Proof.
  intros Hne Hf. unfold mean_skipna. rewrite Hf.
  destruct v; [congruence | reflexivity].
Qed.

(** The NaN-skipping mean of finite values is their mean. *)
Lemma mean_skipna_fin (l : list Q) :
  mean_skipna (map Fin l) =f= series_mean l.
Proof.
  destruct l as [|x l]; [exact I|].
  rewrite mean_skipna_all;
    [|discriminate | apply filter_notna_fin].
  rewrite fsum_fin. unfold of_nat, of_Z, fdiv.
  rewrite length_map, (positive_length_nonzero x l).
  rewrite series_mean_nonempty by discriminate. reflexivity.
Qed.

(* ================================================================== *)
(** * The pivot of mean sales and the gaps *)

Section Tabulated.
Context {K : Type} `{KeyLaws K}.

Lemma groupby_mean_tabulate {R : Type} (key : R -> K) (col : R -> Q)
      (df : list R) :
    groupby_mean key col df
    = map (fun k => (k, series_mean
                          (map col (filter (fun r => key_eqb (key r) k) df))))
          (group_keys (map key df)).
  Proof.
    unfold groupby_mean, groupby. rewrite map_map. reflexivity.
  Qed.

Lemma groupby_sum_tabulate {R : Type} (key : R -> K) (col : R -> Q)
      (df : list R) :
    groupby_sum key col df
    = map (fun k => (k, Qsum
                          (map col (filter (fun r => key_eqb (key r) k) df))))
          (group_keys (map key df)).
  Proof.
    unfold groupby_sum, groupby. rewrite map_map. reflexivity.
  Qed.

Lemma filter_absent {R : Type} (key : R -> K) (df : list R) (k : K) :
    mem k (map key df) = false ->
    filter (fun r => key_eqb (key r) k) df = [].
  Proof.
    intros Hm. apply filter_none. intros r Hr.
    destruct (key_eqb (key r) k) eqn:E; auto.
    apply key_eqb_eq in E. subst k.
    assert (Hin : mem (key r) (map key df) = true)
      by (apply mem_In; now apply in_map).
    congruence.
  Qed.


End Tabulated.

Lemma existsb_filter_nil {A : Type} (p : A -> bool) (l : list A) :
  existsb p l = false -> filter p l = [].
Proof.
  induction l as [|x l IH]; simpl; auto.
  destruct (p x); simpl; [discriminate | exact IH].
Qed.

Lemma existsb_filter_cons {A : Type} (p : A -> bool) (l : list A) :
  existsb p l = true -> filter p l <> [].
Proof.
  induction l as [|x l IH]; simpl; [discriminate|].
  destruct (p x); simpl; [discriminate | exact IH].
Qed.

Lemma pivot_cell (df : DataFrame) (s c : string) :
  t_cell (store_category_pivot df) s c = cell_mean df s c.
Proof.
  unfold store_category_pivot, table_of. cbn [t_cell].
  rewrite lookup_groupby_mean. unfold cell_mean, in_cell.
  destruct (mem (s, c) _) eqn:E; [reflexivity|].
  now rewrite (filter_absent _ _ _ E).
Qed.

Lemma cell_mean_cases (df : DataFrame) (s c : string) :
  cell_mean df s c
  = if has_data df s c then Fin (cell_value df s c) else NaN.
Proof.
  unfold cell_mean, has_data, cell_value.
  destruct (existsb (in_cell s c) (rows df)) eqn:E.
  - apply existsb_filter_cons in E.
    rewrite series_mean_nonempty.
    + now rewrite length_map.
    + destruct (filter _ _); [congruence | discriminate].
  - now rewrite (existsb_filter_nil _ _ E).
Qed.

Lemma has_data_row (df : DataFrame) (s c : string) :
  has_data df s c = true <->
  exists r, In r (rows df) /\ store_name r = s /\ category r = c.
Proof.
  unfold has_data, in_cell. rewrite existsb_exists. split.
  - intros [r [Hr E]]. apply key_eqb_eq in E. inversion E. eauto.
  - intros [r [Hr [<- <-]]]. exists r. split; auto. apply key_eqb_refl.
Qed.

Lemma pivot_index (df : DataFrame) (s : string) :
  In s (t_index (store_category_pivot df)) <->
  exists r, In r (rows df) /\ store_name r = s.
Proof.
  unfold store_category_pivot, table_of. cbn [t_index].
  rewrite group_keys_In, groupby_mean_tabulate, map_map. cbn [fst].
  rewrite in_map_iff. split.
  - intros [[s' c] [<- Hk]]. apply group_keys_In, in_map_iff in Hk.
    destruct Hk as [r [E Hr]]. inversion E. eauto.
  - intros [r [Hr <-]]. exists (store_name r, category r). split; auto.
    apply group_keys_In.
    now apply (in_map (fun r => (store_name r, category r))).
Qed.


Lemma store_names_In (df : DataFrame) (s : string) :
  In s (store_names df) <-> exists r, In r (rows df) /\ store_name r = s.
Proof.
  unfold store_names. rewrite group_keys_In, in_map_iff.
  split; intros [r [H1 H2]]; eauto.
Qed.

Lemma filter_notna_cells (f : string -> bool) (q : string -> Q)
    (idx : list string) :
  filter notna (map (fun s => if f s then Fin (q s) else NaN) idx)
  = map Fin (map q (filter f idx)).
Proof.
  induction idx as [|s idx IH]; simpl; auto.
  destruct (f s); simpl; congruence.
Qed.

Lemma mean_skipna_of_filter (l : list pyfloat) (qs : list Q) :
  filter notna l = map Fin qs -> mean_skipna l =f= series_mean qs.
Proof.
  intros Hf. rewrite <- mean_skipna_fin. unfold mean_skipna.
  rewrite filter_notna_fin, Hf. reflexivity.
Qed.

(** The mean of a column of the pivot is the mean over the stores that have
    data in the category. *)
Lemma pivot_column_mean (df : DataFrame) (c : string) :
  mean_skipna (column_values (store_category_pivot df) c)
  =f= category_mean df c.
Proof.
  unfold column_values, column.
  rewrite (map_ext _ (fun s => if has_data df s c
                               then Fin (cell_value df s c) else NaN))
    by (intros s; rewrite pivot_cell; apply cell_mean_cases).
  rewrite (mean_skipna_of_filter _ _ (filter_notna_cells _ _ _)).
  unfold category_mean. apply series_mean_perm, Permutation_map.
  apply NoDup_Permutation.
  - apply NoDup_filter. unfold store_category_pivot, table_of.
    cbn [t_index]. apply group_keys_NoDup.
  - apply NoDup_filter, group_keys_NoDup.
  - intros s. rewrite !filter_In, pivot_index, store_names_In. tauto.
Qed.

Lemma series_at_column_means (t : Table string) (c : string) :
  mem c (t_columns t) = true ->
  series_at (column_means t) c = Ok (mean_skipna (column_values t c)).
Proof.
  intros Hc. unfold series_at, column_means.
  rewrite (lookup_tabulate (fun c => mean_skipna (column_values t c))).
  now rewrite Hc.
Qed.

(** The loop of [compute_gaps], from any column on. *)
Lemma compute_gaps_loop (pivot : Table string) (cols : list string) :
  (forall c, In c cols -> mem c (t_columns pivot) = true) ->
  forall g : Table string,
    t_columns g = t_columns pivot ->
    exists g',
      fold_left
        (fun acc col =>
           rbind acc (fun gaps =>
           rbind (get_column pivot col) (fun cells =>
           rbind (series_at (column_means pivot) col) (fun avg =>
           Ok (set_column gaps col (gap_column cells avg))))))
        cols (Ok g) = Ok g' /\
      t_index g' = t_index g /\
      t_columns g' = t_columns g /\
      forall s c,
        t_cell g' s c
        = if mem c cols
          then gap_column (column pivot c)
                          (mean_skipna (column_values pivot c)) s
          else t_cell g s c.
Proof.
  induction cols as [|col cols IH]; intros Hcols g Hg.
  - exists g. simpl. auto.
  - assert (Hcol : mem col (t_columns pivot) = true)
      by (apply Hcols; left; reflexivity).
    assert (Hget : get_column pivot col = Ok (column pivot col))
      by (unfold get_column; now rewrite Hcol).
    cbn [fold_left rbind].
    rewrite Hget, (series_at_column_means pivot col Hcol).
    cbn [rbind].
    destruct (IH (fun c Hc => Hcols c (or_intror Hc))
                 (set_column g col
                    (gap_column (column pivot col)
                       (mean_skipna (column_values pivot col)))))
      as (g' & Hrun & Hidx & Hcolumns & Hcell).
    { unfold set_column. cbn [t_columns]. now rewrite Hg, Hcol. }
    exists g'. split; [exact Hrun|]. split; [exact Hidx|]. split.
    + rewrite Hcolumns. unfold set_column. cbn [t_columns].
      now rewrite Hg, Hcol.
    + intros s c. rewrite Hcell. unfold set_column. cbn [t_cell].
      unfold mem at 2. cbn [existsb].
      fold (mem c cols). destruct (mem c cols); [now rewrite orb_true_r|].
      rewrite orb_false_r.
      destruct (key_eqb c col) eqn:E; [|reflexivity].
      apply key_eqb_eq in E. now subst c.
Qed.

Lemma compute_gaps_cells (pivot : Table string) :
  exists gaps,
    compute_gaps pivot = Ok gaps /\
    t_index gaps = t_index pivot /\
    t_columns gaps = t_columns pivot /\
    forall s c,
      In c (t_columns pivot) ->
      t_cell gaps s c
      = fround1 (percent_diff (t_cell pivot s c)
                              (mean_skipna (column_values pivot c))).
Proof.
  destruct (compute_gaps_loop pivot (t_columns pivot)
              (fun c Hc => proj2 (mem_In c _) Hc) pivot eq_refl)
    as (g & Hrun & Hidx & Hcols & Hcell).
  exists g. split; [exact Hrun|]. split; [exact Hidx|].
  split; [exact Hcols|].
  intros s c Hc. rewrite Hcell, (proj2 (mem_In c _) Hc). reflexivity.
Qed.


(** C3 (as the code has it).  When the mean of a category column is zero,
    [compute_gaps] raises nothing and keeps the column; the deviation of
    each of its cells is not finite: NaN where the store has no data or a
    zero mean, an infinity of the sign of the cell otherwise. *)
Theorem zero_mean_column_is_kept (df : DataFrame) (c : string) :
  In c (t_columns (store_category_pivot df)) ->
  category_mean df c =f= Fin 0 ->
  exists gaps,
    compute_gaps (store_category_pivot df) = Ok gaps /\
    In c (t_columns gaps) /\
    forall s,
      t_cell gaps s c
      = if has_data df s c
        then inf_of_sign (cell_value df s c ?= 0)
        else NaN.
Proof.
  intros Hc Hzero.
  destruct (compute_gaps_cells (store_category_pivot df))
    as (gaps & Hrun & Hidx & Hcols & Hcell).
  exists gaps. split; [exact Hrun|]. split; [now rewrite Hcols|].
  intros s. rewrite (Hcell s c Hc), pivot_cell, cell_mean_cases.
  assert (Hm := pivot_column_mean df c).
  rewrite Hzero in Hm.
  destruct (mean_skipna (column_values (store_category_pivot df) c))
    as [m| | |]; try contradiction.
  simpl in Hm.
  destruct (has_data df s c); [|reflexivity].
  unfold percent_diff, fsub, fdiv, fneg. cbn [fadd].
  rewrite (proj2 (Qeq_bool_iff m 0) Hm).
  assert (Hs : (cell_value df s c + - m ?= 0) = (cell_value df s c ?= 0)).
  { apply Qcompare_comp; [rewrite Hm; ring | reflexivity]. }
  rewrite Hs. destruct (cell_value df s c ?= 0); reflexivity.
Qed.

(** C3 as stated fails: a store whose sales in the one category are all
    zero gives a column of mean zero; [compute_gaps] returns a table that
    still has the column, with the deviation NaN, and
    [display_growth_opportunities] renders it. *)
Lemma zero_mean_column_gives_nan :
  category_mean Samples.nothing_sold "c"%string =f= Fin 0 /\
  (exists gaps,
      compute_gaps (store_category_pivot Samples.nothing_sold) = Ok gaps /\
      t_index gaps = ["A"%string] /\
      t_columns gaps = ["c"%string] /\
      t_cell gaps "A"%string "c"%string = NaN) /\
  display_growth_opportunities 0%nat (mkWorld [Samples.nothing_sold] [])
  = (Ok tt,
     mkWorld [Samples.nothing_sold]
       [ st_header "Growth Opportunities";
         st_subheader "Underperforming Store-Category Combinations";
         st_pyplot (mkChart "heatmap"
                            "Store Performance vs Category Average (%)"
                            [VStrs ["A"%string]; VStr "c"] [[NaN]]);
         st_markdown (mkMsg "How to read this chart" []) ]%list).
Proof.
  split; [vm_compute; reflexivity|].
  split.
  - eexists. split; [vm_compute; reflexivity|].
    repeat split; reflexivity.
  - vm_compute. reflexivity.
Qed.

(* ================================================================== *)
(** * Year-over-year growth *)

Section SortedAgain.
Context {K : Type} `{KeyLaws K} `{!KeyOrder K}.




End SortedAgain.

Lemma insert_by_perm {A : Type} (le : A -> A -> bool) (x : A) (l : list A) :
  Permutation (insert_by le x l) (x :: l).
Proof.
  induction l as [|y l IH]; simpl; auto.
  destruct (le x y); auto. rewrite IH. apply perm_swap.
Qed.

Lemma sort_by_perm {A : Type} (le : A -> A -> bool) (l : list A) :
  Permutation (sort_by le l) l.
Proof.
  induction l as [|x l IH]; simpl; auto.
  rewrite insert_by_perm. now constructor.
Qed.

Lemma yearly_series (key : SalesRecord -> string) (df : DataFrame) :
  map (fun kv => ((snd (fst kv), fst (fst kv)), Fin (snd kv)))
      (groupby_sum (fun r => (year (date r), key r)) sales (rows df))
  = map (fun k => (k, Fin (year_total key df (snd k) (fst k))))
        (map swap_key
             (group_keys (map (fun r => (year (date r), key r)) (rows df)))).
Proof.
  rewrite groupby_sum_tabulate, !map_map. apply map_ext.
  intros [y item]. reflexivity.
Qed.



Lemma yearly_columns (key : SalesRecord -> string) (df : DataFrame) :
  exists l, t_columns (yearly_item_sales key df) = group_keys l /\
            forall y, In y l <-> exists r, In r (rows df) /\ year (date r) = y.
Proof.
  unfold yearly_item_sales, table_of. cbn [t_columns]. eexists.
  split; [reflexivity|]. intros y.
  rewrite yearly_series, !map_map. cbn [fst snd].
  rewrite in_map_iff. split.
  - intros [[y' item] [<- Hk]]. apply group_keys_In, in_map_iff in Hk.
    destruct Hk as [r [E Hr]]. inversion E. eauto.
  - intros [r [Hr <-]]. exists (year (date r), key r). split; auto.
    apply group_keys_In.
    now apply (in_map (fun r => (year (date r), key r))).
Qed.

Lemma yearly_index (key : SalesRecord -> string) (df : DataFrame)
    (item : string) :
  In item (t_index (yearly_item_sales key df)) <->
  exists r, In r (rows df) /\ key r = item.
Proof.
  unfold yearly_item_sales, table_of. cbn [t_index].
  rewrite group_keys_In, yearly_series, !map_map. cbn [fst snd].
  rewrite in_map_iff. split.
  - intros [[y item'] [<- Hk]]. apply group_keys_In, in_map_iff in Hk.
    destruct Hk as [r [E Hr]]. inversion E. eauto.
  - intros [r [Hr <-]]. exists (year (date r), key r). split; auto.
    apply group_keys_In.
    now apply (in_map (fun r => (year (date r), key r))).
Qed.


Lemma growth_label_is_new (cols : list Z) :
  mem growth_label (map inl cols) = false.
Proof. unfold mem. induction cols as [|y cols IH]; simpl; auto. Qed.






(* ================================================================== *)
(** * Sorting by a key *)

Section SortBy.
Context {A : Type} (le : A -> A -> bool) (P : A -> Prop).
Hypothesis le_total :
  forall a b, P a -> P b -> le a b = true \/ le b a = true.
Hypothesis le_trans :
  forall a b c, P a -> P b -> P c ->
                le a b = true -> le b c = true -> le a c = true.

Lemma insert_by_sorted (x : A) (l : list A) :
  P x -> Forall P l ->
  StronglySorted (fun a b => le a b = true) l ->
  StronglySorted (fun a b => le a b = true) (insert_by le x l).
Proof.
  intros Px Pl Hs. induction Hs as [|y l Hs IH Hy]; simpl.
  - repeat constructor.
  - inversion Pl as [|? ? Py Pl']; subst.
    destruct (le x y) eqn:E.
    + constructor; [now constructor|].
      constructor; auto.
      rewrite Forall_forall in *. intros z Hz. eauto.
    + constructor; auto.
      eapply Permutation_Forall; [symmetry; apply insert_by_perm|].
      constructor; auto.
      destruct (le_total x y Px Py); [congruence | assumption].
Qed.

Lemma sort_by_sorted (l : list A) :
  Forall P l -> StronglySorted (fun a b => le a b = true) (sort_by le l).
Proof.
  induction l as [|x l IH]; simpl; intros Pl.
  - constructor.
  - inversion Pl; subst. apply insert_by_sorted; auto.
    eapply Permutation_Forall; [symmetry; apply sort_by_perm | assumption].
Qed.

End SortBy.

Lemma StronglySorted_impl {A : Type} (R S : A -> A -> Prop) (l : list A) :
  (forall a b, R a b -> S a b) -> StronglySorted R l -> StronglySorted S l.
Proof.
  intros HRS. induction 1 as [|x l Hs IH Hx]; constructor; auto.
  eapply Forall_impl; [|exact Hx]. auto.
Qed.

Lemma sorted_first_last {A : Type} (R : A -> A -> Prop) (l : list A)
    (first last : A) :
  (forall a, R a a) ->
  StronglySorted R l ->
  iloc_first l = Ok first -> iloc_last l = Ok last ->
  forall x, In x l -> R first x /\ R x last.
Proof.
  intros Hrefl Hs Hf Hl x Hx. split.
  - destruct l as [|y l]; [discriminate|]. inversion Hf; subst.
    inversion Hs as [|? ? _ Hall]; subst.
    destruct Hx as [<- | Hx]; [apply Hrefl|].
    rewrite Forall_forall in Hall. auto.
  - unfold iloc_last in Hl.
    destruct (rev l) as [|z r] eqn:Er; [discriminate|]. inversion Hl; subst.
    assert (El : l = rev r ++ [last]).
    { rewrite <- (rev_involutive l), Er. reflexivity. }
    rewrite El in Hs, Hx. clear El Er Hf Hl.
    induction (rev r) as [|y p IH]; simpl in *.
    + destruct Hx as [<- | []]. apply Hrefl.
    + inversion Hs as [|? ? Hs' Hall]; subst.
      destruct Hx as [<- | Hx].
      * rewrite Forall_forall in Hall. apply Hall, in_or_app.
        right. left. reflexivity.
      * now apply IH.
Qed.

(* ================================================================== *)
(** * Sums, means and counts per group *)

Section Aggregates.
Context {K : Type} `{KeyLaws K}.

Lemma groupby_agg_tabulate {R : Type} (key : R -> K) (col : R -> Q)
    (df : list R) :
  groupby_agg key col df
  = map (fun k =>
           let v := map col (filter (fun r => key_eqb (key r) k) df) in
           (k, mkAgg (Qsum v) (series_mean v) (length v)))
        (group_keys (map key df)).
Proof.
  unfold groupby_agg, groupby. rewrite map_map. reflexivity.
Qed.

Lemma groupby_agg_keys {R : Type} (key : R -> K) (col : R -> Q)
    (df : list R) :
  map fst (groupby_agg key col df) = group_keys (map key df).
Proof.
  rewrite groupby_agg_tabulate, map_map. cbn [fst]. apply map_id.
Qed.

Lemma group_nonempty {R : Type} (key : R -> K) (df : list R) (k : K) :
  In k (map key df) -> filter (fun r => key_eqb (key r) k) df <> [].
Proof.
  intros Hk. apply in_map_iff in Hk. destruct Hk as [r [<- Hr]].
  intros E.
  assert (Hin : In r (filter (fun r' => key_eqb (key r') (key r)) df)).
  { apply filter_In. split; auto. apply key_eqb_refl. }
  rewrite E in Hin. exact Hin.
Qed.

Lemma group_keys_length (l : list K) : length (group_keys l) = nunique l.
Proof.
  unfold group_keys, nunique. apply Permutation_length, sort_keys_perm.
Qed.

Lemma groupby_counts {R : Type} (key : R -> K) (col : R -> Q)
    (df : list R) :
  list_sum (map (fun x => agg_count (snd x)) (groupby_agg key col df))
  = length df.
Proof.
  rewrite <- (Permutation_length (groupby_partition key df)).
  rewrite length_concat, groupby_groups, groupby_agg_tabulate, !map_map.
  f_equal. apply map_ext. intros k. cbn [snd agg_count].
  apply length_map.
Qed.

End Aggregates.

(** X1.  Every group of [agg(["sum", "mean", "count"])] has at least one
    row, its mean is its sum divided by its count, so that its sum is its
    mean times its count, and the counts of the groups add up to the number
    of rows of the frame. *)
Theorem aggregate_sum_mean_count_agree :
  forall (K : Type) `(KeyLaws K) (key : SalesRecord -> K)
         (records : list SalesRecord),
    (forall k a,
        In (k, a) (groupby_agg key sales records) ->
        (0 < agg_count a)%nat /\
        agg_count a
        = length (filter (fun r => key_eqb (key r) k) records) /\
        exists m, agg_mean a = Fin m /\
                  m * inject_Z (Z.of_nat (agg_count a)) == agg_sum a) /\
    list_sum (map (fun x => agg_count (snd x))
                  (groupby_agg key sales records))
    = length records.
Proof.
  intros K HK HL key records. split; [|apply groupby_counts].
  intros k a Hin. rewrite groupby_agg_tabulate in Hin.
  apply in_map_iff in Hin. destruct Hin as [k' [E Hk]].
  cbv zeta in E. inversion E; subst k' a. clear E.
  apply (proj1 (group_keys_In _ _)) in Hk.
  assert (Hne := group_nonempty key records k Hk).
  cbn [agg_count agg_mean agg_sum]. rewrite length_map.
  destruct (filter (fun r => key_eqb (key r) k) records) as [|r g] eqn:Eg;
    [congruence|].
  split; [cbn [length]; lia|]. split; [reflexivity|].
  rewrite series_mean_nonempty by discriminate.
  eexists. split; [reflexivity|]. rewrite length_map.
  field. intros E0. unfold Qeq in E0. simpl in E0. lia.
Qed.

(* ================================================================== *)
(** * The ranking of stores, items and categories *)

Lemma Qle_bool_total (a b : Q) : Qle_bool a b = true \/ Qle_bool b a = true.
Proof.
  rewrite !Qle_bool_iff. destruct (Qlt_le_dec a b) as [Hlt | Hle].
  - left. now apply Qlt_le_weak.
  - now right.
Qed.

Lemma Qle_bool_trans (a b c : Q) :
  Qle_bool a b = true -> Qle_bool b c = true -> Qle_bool a c = true.
Proof. rewrite !Qle_bool_iff. apply Qle_trans. Qed.

Lemma ranking_sorted (key : SalesRecord -> string) (df : DataFrame) :
  StronglySorted by_total_desc (ranking key df).
Proof.
  unfold ranking.
  eapply StronglySorted_impl;
    [|apply (sort_by_sorted
               (fun a b : string * Agg =>
                  Qle_bool (agg_sum (snd b)) (agg_sum (snd a)))
               (fun _ => True))].
  - intros a b Hab. now apply Qle_bool_iff in Hab.
  - intros a b _ _. apply Qle_bool_total.
  - intros a b c _ _ _ Hab Hbc. eapply Qle_bool_trans; eauto.
  - apply Forall_forall. auto.
Qed.

Lemma ranking_perm (key : SalesRecord -> string) (df : DataFrame) :
  Permutation (ranking key df) (groupby_agg key sales (rows df)).
Proof. apply sort_by_perm. Qed.

Lemma ranking_keys (key : SalesRecord -> string) (df : DataFrame) :
  NoDup (map fst (ranking key df)) /\
  forall k, In k (map fst (ranking key df)) <->
            exists r, In r (rows df) /\ key r = k.
Proof.
  assert (Hp : Permutation (map fst (ranking key df))
                           (group_keys (map key (rows df)))).
  { rewrite <- (groupby_agg_keys key sales).
    apply Permutation_map, ranking_perm. }
  split.
  - eapply Permutation_NoDup; [symmetry; exact Hp | apply group_keys_NoDup].
  - intros k. split.
    + intros Hk. apply (Permutation_in _ Hp), group_keys_In, in_map_iff in Hk.
      destruct Hk as [r [E Hr]]. eauto.
    + intros [r [Hr <-]]. apply (Permutation_in _ (Permutation_sym Hp)).
      apply group_keys_In. now apply in_map.
Qed.

(** X2.  The ranking lists every store (item, category) that has rows
    exactly once, in descending order of total sales; its first row has a
    total that no other exceeds and its last row a total that none is
    below. *)
Theorem ranking_is_sorted_by_total (key : SalesRecord -> string)
    (df : DataFrame) :
  NoDup (map fst (ranking key df)) /\
  (forall k, In k (map fst (ranking key df)) <->
             exists r, In r (rows df) /\ key r = k) /\
  StronglySorted by_total_desc (ranking key df) /\
  forall best worst,
    iloc_first (ranking key df) = Ok best ->
    iloc_last (ranking key df) = Ok worst ->
    forall x, In x (ranking key df) ->
              agg_sum (snd x) <= agg_sum (snd best) /\
              agg_sum (snd worst) <= agg_sum (snd x).
Proof.
  split; [apply ranking_keys|]. split; [apply ranking_keys|].
  split; [apply ranking_sorted|].
  intros best worst Hb Hw x Hx.
  apply (sorted_first_last by_total_desc (ranking key df) best worst);
    auto using ranking_sorted.
  intros a. unfold by_total_desc. apply Qle_refl.
Qed.

(* ================================================================== *)
(** * Errors and edge cases of [display_performer_analysis] *)

Lemma run_seq {A B : Type} (m : M A) (k : A -> M B) (w w' : World) (a : A) :
  m w = (Ok a, w') -> bind m k w = k a w'.
Proof. intros E. unfold bind. now rewrite E. Qed.

Lemma run_raise {A B : Type} (m : M A) (k : A -> M B) (w w' : World)
    (e : exn) :
  m w = (Raise e, w') -> bind m k w = (Raise e, w').
Proof. intros E. unfold bind. now rewrite E. Qed.

Lemma run_lift {A B : Type} (r : result A) (k : A -> M B) (w : World) :
  (x <- lift r ;; k x) w
  = match r with Ok a => k a w | Raise e => (Raise e, w) end.
Proof. destruct r; reflexivity. Qed.

Lemma executive_summary_run (w : World) (data : ref) (df : DataFrame) :
  nth_error (heap w) data = Some df ->
  display_executive_summary data w
  = (Ok tt,
     {| heap := heap w; screen := screen w ++ executive_summary_events df |}).
Proof. apply executive_summary_screen. Qed.

Lemma str_column_absent (label : string) (df : DataFrame) :
  has_column label df = false -> str_column label df = Raise KeyError.
Proof. intros E. unfold str_column. now rewrite E. Qed.

Lemma ranking_of_no_rows (key : SalesRecord -> string) (df : DataFrame) :
  rows df = [] -> ranking key df = [].
Proof.
  intros E. unfold ranking, groupby_agg, groupby. now rewrite E.
Qed.

Lemma performer_analysis_keyerror (w : World) (data : ref) (df : DataFrame) :
  nth_error (heap w) data = Some df ->
  has_column "store_name" df = false ->
  has_column "store_id" df = false ->
  display_performer_analysis data w
  = (Raise KeyError,
     {| heap := heap w; screen := screen w ++ performer_analysis_start |}).
Proof.
  intros Hdf Hname Hid. unfold display_performer_analysis.
  rewrite !run_emit, (run_load data _ _ df) by exact Hdf.
  unfold store_col. rewrite Hname, (str_column_absent _ _ Hid), run_lift.
  cbn [heap screen]. now rewrite <- app_assoc.
Qed.

(** X3.  [display_performer_analysis] falls back from [store_name] to
    [store_id] without checking that [store_id] exists: on a frame that has
    neither column it raises [KeyError] after the header and the first
    subheader, and renders nothing else. *)
Theorem performer_analysis_needs_a_store_column (w : World) (data : ref)
    (df : DataFrame) :
  nth_error (heap w) data = Some df ->
  has_column "store_name" df = false ->
  has_column "store_id" df = false ->
  display_performer_analysis data w
  = (Raise KeyError,
     {| heap := heap w; screen := screen w ++ performer_analysis_start |}).
Proof. apply performer_analysis_keyerror. Qed.

(** X4.  Called on a frame without rows that has a store column,
    [display_performer_analysis] raises [IndexError] at the first row of the
    empty ranking, after the header and the first subheader. *)
Theorem performer_analysis_of_no_rows (w : World) (data : ref)
    (df : DataFrame) (key : SalesRecord -> string) :
  nth_error (heap w) data = Some df ->
  str_column (store_col df) df = Ok key ->
  rows df = [] ->
  display_performer_analysis data w
  = (Raise IndexError,
     {| heap := heap w; screen := screen w ++ performer_analysis_start |}).
Proof.
  intros Hdf Hkey Hrows. unfold display_performer_analysis.
  rewrite !run_emit, (run_load data _ _ df) by exact Hdf.
  rewrite Hkey, run_lift. cbv zeta.
  rewrite (ranking_of_no_rows key df Hrows), run_lift.
  cbn [iloc_first heap screen]. now rewrite <- app_assoc.
Qed.

(** X5.  A section that raises ends the page: for a frame with rows and no
    store column, [business_insights_view] renders the title, the
    introduction, the executive summary, a divider and the start of the
    performance analysis, raises [KeyError] and renders none of the later
    sections. *)
Theorem view_stops_at_the_first_error (w : World) (data : ref)
    (df : DataFrame) :
  nth_error (heap w) data = Some df ->
  empty df = false ->
  has_column "store_name" df = false ->
  has_column "store_id" df = false ->
  business_insights_view data w
  = (Raise KeyError,
     {| heap := heap w;
        screen :=
          screen w ++
          [ st_title "Business Insights & Recommendations";
            st_markdown
              (mkMsg "This page analyzes your historical sales data" []) ] ++
          executive_summary_events df ++
          [ st_divider ] ++ performer_analysis_start |}).
Proof.
  intros Hdf Hne Hname Hid. unfold business_insights_view.
  rewrite run_emit, (run_load data _ _ df) by exact Hdf.
  rewrite Hne, run_emit.
  match goal with
  | |- bind (display_executive_summary data) ?k ?W = _ =>
      rewrite (run_seq _ k W _ tt (executive_summary_run W data df Hdf))
  end.
  rewrite run_emit.
  match goal with
  | |- bind (display_performer_analysis data) ?k ?W = _ =>
      rewrite (run_raise _ k W _ _
                 (performer_analysis_keyerror W data df Hdf Hname Hid))
  end.
  cbn [heap screen]. rewrite <- !app_assoc. reflexivity.
Qed.

(* ================================================================== *)
(** * Few items *)

Lemma stays_on_screen {A : Type} (m : M A) (w : World) (e : event) :
  preserving 0 m anything -> In e (screen w) -> In e (screen (snd (m w))).
Proof.
  intros Hm He. destruct (Hm w (Nat.le_0_l _)) as [(_ & _ & l & ->) _].
  apply in_or_app. now left.
Qed.

(** An event that was appended to the screen is on it. *)
Ltac on_screen :=
  cbn [screen];
  repeat first [ apply in_or_app; right; left; reflexivity
               | apply in_or_app; left ].

Lemma ranking_length (key : SalesRecord -> string) (df : DataFrame) :
  length (ranking key df) = nunique (map key (rows df)).
Proof.
  rewrite (Permutation_length (ranking_perm key df)).
  rewrite <- (length_map fst), groupby_agg_keys. apply group_keys_length.
Qed.

Lemma nunique_positive {K : Type} `{Key K} (l : list K) :
  l <> [] -> (0 < nunique l)%nat.
Proof.
  destruct l; [congruence|]. intros _. unfold nunique. simpl. lia.
Qed.

Lemma ranking_nonempty (key : SalesRecord -> string) (df : DataFrame) :
  rows df <> [] -> ranking key df <> [].
Proof.
  intros Hne E. apply (f_equal (@length _)) in E.
  rewrite ranking_length in E.
  assert (Hp : (0 < nunique (map key (rows df)))%nat).
  { apply nunique_positive. destruct (rows df); [congruence | discriminate]. }
  simpl in E. lia.
Qed.

Lemma iloc_first_ok {A : Type} (l : list A) :
  l <> [] -> exists x, iloc_first l = Ok x.
Proof. destruct l; [congruence | intros _; eexists; reflexivity]. Qed.

Lemma iloc_last_ok {A : Type} (l : list A) :
  l <> [] -> exists x, iloc_last l = Ok x.
Proof.
  intros Hne. unfold iloc_last. destruct (rev l) eqn:E; eauto.
  apply (f_equal (@rev _)) in E. rewrite rev_involutive in E.
  simpl in E. congruence.
Qed.

(** X6.  With five items or fewer, [head(5)] and [tail(5)] of the item
    ranking are both the whole ranking: the page names every item as a best
    seller and, in the same order, as a lowest seller. *)
Theorem few_items_are_best_and_lowest (w : World) (data : ref)
    (df : DataFrame) (skey ikey : SalesRecord -> string) :
  nth_error (heap w) data = Some df ->
  rows df <> [] ->
  str_column (store_col df) df = Ok skey ->
  str_column (item_col df) df = Ok ikey ->
  (nunique (map ikey (rows df)) <= 5)%nat ->
  In (st_success (mkMsg "Best sellers" [VStrs (map fst (ranking ikey df))]))
     (screen (snd (display_performer_analysis data w))) /\
  In (st_error (mkMsg "Lowest sellers" [VStrs (map fst (ranking ikey df))]))
     (screen (snd (display_performer_analysis data w))).
Proof.
  intros Hdf Hne Hs Hi Hfew. unfold display_performer_analysis.
  rewrite !run_emit, (run_load data _ _ df) by exact Hdf.
  rewrite Hs, run_lift. cbv zeta.
  destruct (iloc_first_ok _ (ranking_nonempty skey df Hne)) as [best Hb].
  destruct (iloc_last_ok _ (ranking_nonempty skey df Hne)) as [worst Hw].
  rewrite Hb, run_lift, Hw, run_lift, !run_emit.
  rewrite (run_load data _ _ df) by exact Hdf.
  rewrite Hi, run_lift. cbv zeta.
  assert (Hlen : (length (ranking ikey df) <= 5)%nat)
    by now rewrite ranking_length.
  unfold head. rewrite (firstn_all2 (n := 5) (ranking ikey df)) by exact Hlen.
  rewrite (tail_short 5 (ranking ikey df) Hlen), !run_emit.
  split; (apply stays_on_screen; [preserve | on_screen]).
Qed.

(* ================================================================== *)
(** * The label of the greatest and of the least value *)

Lemma fgt_chain (x b y : pyfloat) :
  isna x = false -> isna b = false -> isna y = false ->
  fgt x b = false -> fgt y b = true -> fgt x y = false.
Proof.
  destruct x as [x| | |], b as [b| | |], y as [y| | |];
    intros _ _ _; try discriminate; try reflexivity.
  rewrite fgt_fin_false, fgt_fin. intros Hxb Hby.
  apply fgt_fin_false. apply Qlt_le_weak. eapply Qle_lt_trans; eauto.
Qed.

Lemma flt_fin (q c : Q) : flt (Fin q) (Fin c) = true <-> q < c.
Proof.
  unfold flt, fcmp. rewrite Qlt_alt.
  destruct (q ?= c); split; intros E; (reflexivity || discriminate E).
Qed.

Lemma flt_fin_false (q c : Q) : flt (Fin q) (Fin c) = false <-> c <= q.
Proof.
  rewrite <- not_true_iff_false, flt_fin. split.
  - apply Qnot_lt_le.
  - apply Qle_not_lt.
Qed.

Lemma flt_chain (x b y : pyfloat) :
  isna x = false -> isna b = false -> isna y = false ->
  flt x b = false -> flt y b = true -> flt x y = false.
Proof.
  destruct x as [x| | |], b as [b| | |], y as [y| | |];
    intros _ _ _; try discriminate; try reflexivity.
  rewrite flt_fin_false, flt_fin. intros Hxb Hby.
  apply flt_fin_false. apply Qlt_le_weak. eapply Qlt_le_trans; eauto.
Qed.

Lemma fgt_irrefl (x : pyfloat) : fgt x x = false.
Proof.
  destruct x as [x| | |]; try reflexivity.
  apply fgt_fin_false. apply Qle_refl.
Qed.

Lemma flt_irrefl (x : pyfloat) : flt x x = false.
Proof.
  destruct x as [x| | |]; try reflexivity.
  apply flt_fin_false. apply Qle_refl.
Qed.

Section IdxBest.
Context {K : Type} (better : pyfloat -> pyfloat -> bool).
Hypothesis better_irrefl : forall x, better x x = false.
Hypothesis better_chain :
  forall x b y,
    isna x = false -> isna b = false -> isna y = false ->
    better x b = false -> better y b = true -> better x y = false.

Lemma idx_best_scan (s seen : list (K * pyfloat))
    (acc : option (K * pyfloat)) :
  best_so_far better acc seen ->
  best_so_far better
    (fold_left
       (fun best kv =>
          if isna (snd kv) then best
          else match best with
               | None => Some kv
               | Some b => if better (snd kv) (snd b) then Some kv else best
               end)
       s acc)
    (seen ++ s).
Proof.
  revert seen acc. induction s as [|kv s IH]; intros seen acc Hacc.
  - now rewrite app_nil_r.
  - cbn [fold_left].
    replace (seen ++ kv :: s) with ((seen ++ [kv]) ++ s)
      by (rewrite <- app_assoc; reflexivity).
    apply IH. destruct (isna (snd kv)) eqn:Ena.
    + destruct acc as [b|]; cbn [best_so_far] in *.
      * destruct Hacc as (Hin & Hb & Hall). split; [|split]; auto.
        -- apply in_or_app. now left.
        -- intros x Hx Hxna. apply in_app_or in Hx.
           destruct Hx as [Hx | [<- | []]]; [now apply Hall | congruence].
      * intros x Hx. apply in_app_or in Hx.
        destruct Hx as [Hx | [<- | []]]; auto.
    + destruct acc as [b|]; cbn [best_so_far] in *.
      * destruct Hacc as (Hin & Hb & Hall).
        destruct (better (snd kv) (snd b)) eqn:Ebet; cbn [best_so_far].
        -- split; [|split]; auto.
           ++ apply in_or_app. right. now left.
           ++ intros x Hx Hxna. apply in_app_or in Hx.
              destruct Hx as [Hx | [<- | []]]; [|apply better_irrefl].
              apply (better_chain _ (snd b)); auto.
        -- split; [|split]; auto.
           ++ apply in_or_app. now left.
           ++ intros x Hx Hxna. apply in_app_or in Hx.
              destruct Hx as [Hx | [<- | []]]; auto.
      * split; [|split]; auto.
        -- apply in_or_app. right. now left.
        -- intros x Hx Hxna. apply in_app_or in Hx.
           destruct Hx as [Hx | [<- | []]]; [|apply better_irrefl].
           rewrite (Hacc x Hx) in Hxna. discriminate.
Qed.

Lemma idx_best_spec (s : list (K * pyfloat)) :
  match idx_best better s with
  | Ok k =>
      exists v, In (k, v) s /\ isna v = false /\
                forall kv, In kv s -> isna (snd kv) = false ->
                           better (snd kv) v = false
  | Raise e =>
      e = ValueError /\ forall kv, In kv s -> isna (snd kv) = true
  end.
Proof.
  assert (H := idx_best_scan s [] None (fun kv (F : In kv []) =>
                                          match F with end)).
  unfold idx_best. cbn [app] in H.
  destruct (fold_left _ s None) as [[k v]|]; cbn [best_so_far] in H.
  - destruct H as (Hin & Hna & Hall). exists v. auto.
  - auto.
Qed.

End IdxBest.

(* The two results of [idxmax] and of [idxmin]. *)
Lemma idx_extremes_cases :
  forall (K : Type) (s : list (K * pyfloat)),
    match idxmax s with
    | Ok k => exists v, In (k, v) s /\ isna v = false /\
                        forall kv, In kv s -> fgt (snd kv) v = false
    | Raise e => e = ValueError /\ forall kv, In kv s -> isna (snd kv) = true
    end /\
    match idxmin s with
    | Ok k => exists v, In (k, v) s /\ isna v = false /\
                        forall kv, In kv s -> flt (snd kv) v = false
    | Raise e => e = ValueError /\ forall kv, In kv s -> isna (snd kv) = true
    end.
Proof.
  intros K s. split.
  - assert (H := idx_best_spec (K := K) fgt fgt_irrefl fgt_chain s).
    unfold idxmax. destruct (idx_best fgt s) as [k|e]; [|exact H].
    destruct H as (v & Hin & Hna & Hall). exists v.
    split; [exact Hin|]. split; [exact Hna|].
    intros kv Hkv. destruct (isna (snd kv)) eqn:E; [|now apply Hall].
    destruct (snd kv); try discriminate. reflexivity.
  - assert (H := idx_best_spec (K := K) flt flt_irrefl flt_chain s).
    unfold idxmin. destruct (idx_best flt s) as [k|e]; [|exact H].
    destruct H as (v & Hin & Hna & Hall). exists v.
    split; [exact Hin|]. split; [exact Hna|].
    intros kv Hkv. destruct (isna (snd kv)) eqn:E; [|now apply Hall].
    destruct (snd kv); try discriminate. reflexivity.
Qed.

(** X7.  On a series that has a value other than NaN, [idxmax] returns the
    label of a value that is not NaN and that no value of the series
    exceeds, and [idxmin] the label of one that none is below. *)
Theorem idxmax_idxmin_are_extremes (K : Type) (s : list (K * pyfloat)) :
  (exists kv, In kv s /\ isna (snd kv) = false) ->
  (exists k v, idxmax s = Ok k /\ In (k, v) s /\ isna v = false /\
               forall kv, In kv s -> fgt (snd kv) v = false) /\
  (exists k v, idxmin s = Ok k /\ In (k, v) s /\ isna v = false /\
               forall kv, In kv s -> flt (snd kv) v = false).
Proof.
  intros [kv [Hin Hna]].
  destruct (idx_extremes_cases K s) as [Hmax Hmin]. split.
  - destruct (idxmax s) as [k|e].
    + destruct Hmax as (v & H). exists k, v. split; [reflexivity | exact H].
    + destruct Hmax as [_ Hall]. rewrite (Hall kv Hin) in Hna. discriminate.
  - destruct (idxmin s) as [k|e].
    + destruct Hmin as (v & H). exists k, v. split; [reflexivity | exact H].
    + destruct Hmin as [_ Hall]. rewrite (Hall kv Hin) in Hna. discriminate.
Qed.

(* ================================================================== *)
(** * The improvement targets *)

Lemma flt_notna (x y : pyfloat) : flt x y = true -> isna x = false.
Proof. destruct x; try reflexivity. discriminate. Qed.

Lemma flt_below (c a b : pyfloat) :
  isna a = false -> isna b = false -> isna c = false ->
  flt c a = true -> flt b a = false -> flt c b = true.
Proof.
  destruct a as [a| | |], b as [b| | |], c as [c| | |];
    intros Ha Hb Hc Hca Hab;
    try discriminate Ha; try discriminate Hb; try discriminate Hc;
    try (cbn in Hca; discriminate Hca); try (cbn in Hab; discriminate Hab);
    try reflexivity.
  apply flt_fin. apply flt_fin in Hca. apply flt_fin_false in Hab.
  eapply Qlt_le_trans; eauto.
Qed.

Lemma opportunities_sorted (l : list (string * string * pyfloat)) :
  Forall (fun o => isna (snd o) = false) l ->
  StronglySorted (fun a b => flt (snd b) (snd a) = false)
                 (sort_by (fun a b => negb (flt (snd b) (snd a))) l).
Proof.
  intros Hl.
  eapply StronglySorted_impl;
    [|apply (sort_by_sorted
               (fun a b : string * string * pyfloat =>
                  negb (flt (snd b) (snd a)))
               (fun o => isna (snd o) = false))].
  - intros a b Hab. now apply negb_true_iff in Hab.
  - intros a b Ha Hb.
    destruct (flt (snd b) (snd a)) eqn:E; [right | now left].
    apply negb_true_iff.
    apply (flt_chain (snd a) (snd a) (snd b) Ha Ha Hb (flt_irrefl _) E).
  - intros a b c Ha Hb Hc Hab Hbc. apply negb_true_iff in Hab, Hbc.
    apply negb_true_iff.
    destruct (flt (snd c) (snd a)) eqn:E; [|reflexivity].
    rewrite (flt_below (snd c) (snd a) (snd b) Ha Hb Hc E Hab) in Hbc.
    discriminate.
  - exact Hl.
Qed.

Lemma opportunity_cells (gaps : Table string) (o : string * string * pyfloat) :
  In o (flat_map
          (fun store =>
             flat_map
               (fun cat =>
                  let val := t_cell gaps store cat in
                  if flt val (Fin (-10 # 1)) then [(store, cat, val)] else [])
               (t_columns gaps))
          (t_index gaps)) <->
  In (fst (fst o)) (t_index gaps) /\
  In (snd (fst o)) (t_columns gaps) /\
  snd o = t_cell gaps (fst (fst o)) (snd (fst o)) /\
  flt (snd o) (Fin (-10 # 1)) = true.
Proof.
  destruct o as [[s c] v]. cbn [fst snd]. rewrite in_flat_map. split.
  - intros [s' [Hs Hin]]. apply in_flat_map in Hin.
    destruct Hin as [c' [Hc Hin]]. cbv zeta in Hin.
    destruct (flt (t_cell gaps s' c') (Fin (-10 # 1))) eqn:E;
      [|destruct Hin].
    destruct Hin as [Eo | []]. inversion Eo; subst. auto.
  - intros (Hs & Hc & -> & Hlt). exists s. split; [exact Hs|].
    apply in_flat_map. exists c. split; [exact Hc|].
    cbv zeta. rewrite Hlt. left. reflexivity.
Qed.

(** X8.  The improvement targets are exactly the cells of the gap table
    that are below -10, each with its store, its category and its value; a
    NaN cell is never one.  They are listed with the lowest value first. *)
Theorem opportunities_are_the_cells_below_threshold (gaps : Table string) :
  (forall s c v,
      In (s, c, v) (find_opportunities gaps) <->
      In s (t_index gaps) /\ In c (t_columns gaps) /\
      v = t_cell gaps s c /\ flt v (Fin (-10 # 1)) = true) /\
  (forall o, In o (find_opportunities gaps) -> isna (snd o) = false) /\
  StronglySorted (fun a b => flt (snd b) (snd a) = false)
                 (find_opportunities gaps).
Proof.
  assert (Hmem : forall o,
             In o (find_opportunities gaps) <->
             In (fst (fst o)) (t_index gaps) /\
             In (snd (fst o)) (t_columns gaps) /\
             snd o = t_cell gaps (fst (fst o)) (snd (fst o)) /\
             flt (snd o) (Fin (-10 # 1)) = true).
  { intros o. rewrite <- opportunity_cells. unfold find_opportunities.
    split; apply Permutation_in;
      [apply sort_by_perm | symmetry; apply sort_by_perm]. }
  split; [|split].
  - intros s c v. apply (Hmem (s, c, v)).
  - intros o Ho. apply Hmem in Ho. destruct Ho as (_ & _ & _ & Hlt).
    eapply flt_notna; eauto.
  - unfold find_opportunities. apply opportunities_sorted.
    apply Forall_forall. intros o Ho. apply opportunity_cells in Ho.
    destruct Ho as (_ & _ & _ & Hlt). eapply flt_notna; eauto.
Qed.

(* ================================================================== *)
(** * Sections of [display_growth_opportunities] that are skipped *)



Lemma NoDup_same_length {A : Type} (l1 l2 : list A) :
  NoDup l1 -> NoDup l2 -> (forall x, In x l1 <-> In x l2) ->
  length l1 = length l2.
Proof.
  intros H1 H2 Hin. apply Permutation_length, NoDup_Permutation; auto.
Qed.

(** X10.  The year-over-year table has one column per distinct year of the
    frame.  So whenever the outer test, more than one distinct year, holds,
    the inner test, at least two columns, holds as well, and the table has
    a row for exactly the items that have rows. *)
Theorem yoy_table_has_a_column_per_year (key : SalesRecord -> string)
    (df : DataFrame) :
  length (t_columns (yearly_item_sales key df))
  = nunique (map (fun r => year (date r)) (rows df)) /\
  ((1 <? nunique (map (fun r => year (date r)) (rows df)))%nat = true ->
   (2 <=? length (t_columns (yearly_item_sales key df)))%nat = true) /\
  (forall item, In item (t_index (yearly_item_sales key df)) <->
                exists r, In r (rows df) /\ key r = item).
Proof.
  assert (Hlen : length (t_columns (yearly_item_sales key df))
                 = nunique (map (fun r => year (date r)) (rows df))).
  { destruct (yearly_columns key df) as [l [-> Hl]].
    unfold nunique. apply NoDup_same_length.
    - apply group_keys_NoDup.
    - apply unique_NoDup.
    - intros y. rewrite group_keys_In, unique_In, Hl, in_map_iff.
      split; intros [r [H1 H2]]; eauto. }
  split; [exact Hlen|]. split; [|apply yearly_index].
  rewrite Hlen. intros H1. apply Nat.ltb_lt in H1. apply Nat.leb_le. lia.
Qed.

(* ================================================================== *)
(** * The plotting functions *)

#[export] Instance KeyOrder_Timestamp : KeyOrder Timestamp.
Proof.
  split.
  - intros a b. apply (key_leb_total (ymd a) (ymd b)).
  - intros a b c. apply (key_leb_trans (ymd a) (ymd b) (ymd c)).
  - intros a b Hab Hba. apply ymd_inj.
    now apply (key_leb_antisym (ymd a) (ymd b)).
Qed.








Lemma day_mean_isna (df : DataFrame) (day : string) :
  isna (day_mean df day) = true <->
  forall r, In r (rows df) -> day_name (date r) <> day.
Proof.
  unfold day_mean. split.
  - intros Hna r Hr E.
    assert (Hin : In r (filter (on_day day) (rows df))).
    { apply filter_In. split; auto. unfold on_day. now apply key_eqb_eq. }
    destruct (filter (on_day day) (rows df)); [destruct Hin|].
    discriminate Hna.
  - intros Hnone. rewrite filter_none; [reflexivity|].
    intros r Hr. unfold on_day. apply key_eqb_neq. now apply Hnone.
Qed.

(** X14.  [plot_day_of_week_pattern] does not fail on any frame, an empty
    one included: it returns seven bars, Monday to Sunday, and the bar of a
    day is NaN exactly when no row of the frame falls on that day. *)
Theorem day_of_week_bars (w : World) (data : ref) (df : DataFrame) :
  nth_error (heap w) data = Some df ->
  exists bars,
    fst (plot_day_of_week_pattern data w)
    = Ok (mkChart "barplot" "Average Sales by Day of Week"
                  (map VStr day_order) [bars]) /\
    length bars = 7%nat /\
    (forall i day, nth_error day_order i = Some day ->
       exists v, nth_error bars i = Some v /\
                 (isna v = true <->
                  forall r, In r (rows df) -> day_name (date r) <> day)) /\
    (rows df = [] -> bars = [NaN; NaN; NaN; NaN; NaN; NaN; NaN]).
Proof.
  intros Hdf. exists (map (day_mean df) day_order).
  rewrite (plot_day_of_week_pattern_run w data df Hdf).
  split; [reflexivity|]. split; [reflexivity|]. split.
  - intros i day Hi. exists (day_mean df day). split.
    + now rewrite nth_error_map, Hi.
    + apply day_mean_isna.
  - intros Hrows. unfold day_mean. rewrite Hrows. reflexivity.
Qed.

(* ================================================================== *)
(** * More of [display_executive_summary] *)


Lemma fdiv_by_zero (c p : Q) :
  p == 0 -> fdiv (Fin c) (Fin p) = inf_of_sign (c ?= 0).
Proof.
  intros Hp. unfold fdiv. now rewrite (proj2 (Qeq_bool_iff p 0) Hp).
Qed.

Lemma growth_from_zero (df : DataFrame) (i : nat) (prev cur : MonthlyRow) :
  nth_error (monthly df) i = Some prev ->
  nth_error (monthly df) (S i) = Some cur ->
  m_sales prev == 0 ->
  m_pct_change cur = inf_of_sign (m_sales cur ?= 0).
Proof.
  intros Hp Hc Hz. rewrite (monthly_next_pct df i prev cur Hp Hc).
  rewrite (fdiv_by_zero _ _ Hz).
  destruct (m_sales cur ?= 0); reflexivity.
Qed.

(** X16.  Nothing guards the division by the total of the month before:
    after a month whose total is zero the percent change is +infinity when
    the month has sales, -infinity when its total is negative and NaN when
    it is zero too.  With two months, the first without sales and the second
    with, the recent trend is +infinity and the page shows the positive
    trend message. *)
Theorem growth_after_a_month_without_sales (df : DataFrame) :
  (forall i prev cur,
      nth_error (monthly df) i = Some prev ->
      nth_error (monthly df) (S i) = Some cur ->
      m_sales prev == 0 ->
      (0 < m_sales cur -> m_pct_change cur = PInf) /\
      (m_sales cur == 0 -> m_pct_change cur = NaN) /\
      (m_sales cur < 0 -> m_pct_change cur = NInf)) /\
  (forall prev cur,
      monthly df = [prev; cur] ->
      m_sales prev == 0 -> 0 < m_sales cur ->
      recent_trend df = PInf /\
      trend_event (recent_trend df)
      = st_success (mkMsg "Positive trend" [VNum PInf])).
Proof.
  assert (Hsign : forall i prev cur,
             nth_error (monthly df) i = Some prev ->
             nth_error (monthly df) (S i) = Some cur ->
             m_sales prev == 0 ->
             (0 < m_sales cur -> m_pct_change cur = PInf) /\
             (m_sales cur == 0 -> m_pct_change cur = NaN) /\
             (m_sales cur < 0 -> m_pct_change cur = NInf)).
  { intros i prev cur Hp Hc Hz.
    rewrite (growth_from_zero df i prev cur Hp Hc Hz).
    split; [|split]; intros Hs.
    - now rewrite (proj1 (Qgt_alt (m_sales cur) 0) Hs).
    - now rewrite (proj1 (Qeq_alt (m_sales cur) 0) Hs).
    - now rewrite (proj1 (Qlt_alt (m_sales cur) 0) Hs). }
  split; [exact Hsign|].
  intros prev cur Hm Hz Hpos.
  assert (H0 : nth_error (monthly df) 0 = Some prev) by now rewrite Hm.
  assert (H1 : nth_error (monthly df) 1 = Some cur) by now rewrite Hm.
  assert (Hfirst := monthly_first_pct df prev H0).
  destruct (Hsign 0%nat prev cur H0 H1 Hz) as [Hinf _].
  assert (Ht : recent_trend df = PInf).
  { unfold recent_trend. rewrite Hm. cbn [map].
    rewrite Hfirst, (Hinf Hpos). reflexivity. }
  split; [exact Ht|]. now rewrite Ht.
Qed.

(** X17.  Called on a frame without rows, [display_executive_summary] does
    not fail: it shows a total of 0, an average daily revenue of NaN, no
    stores and no items, the declining-trend message with NaN and an empty
    chart. *)
Theorem executive_summary_of_no_rows (w : World) (data : ref)
    (df : DataFrame) :
  nth_error (heap w) data = Some df ->
  rows df = [] ->
  display_executive_summary data w
  = (Ok tt,
     {| heap := heap w;
        screen :=
          screen w ++
          [ st_header "Executive Summary";
            st_metric "Total Sales (all time)" (VNum (Fin 0));
            st_metric "Avg Daily Revenue" (VNum NaN);
            st_metric "Active Stores" (VInt 0);
            st_metric "Product Range" (VInt 0);
            st_warning (mkMsg "Declining trend" [VNum NaN]);
            st_pyplot (mkChart "bar" "Monthly Revenue Trend" [] [[]]) ] |}).
Proof.
  intros Hdf Hrows. rewrite (executive_summary_run w data df Hdf).
  unfold executive_summary_events, total_sales, avg_daily_revenue,
    daily_sales, recent_trend, monthly, monthly_totals, groupby_sum, groupby.
  rewrite Hrows.
  destruct (has_column "store_id" df), (has_column "item_id" df);
    reflexivity.
Qed.

(* ================================================================== *)
(** * Sales on weekends only *)

Lemma mean_skipna_all_nan (l : list pyfloat) :
  (forall x, In x l -> isna x = true) -> mean_skipna l = NaN.
Proof.
  intros Hall. unfold mean_skipna. rewrite filter_none; [reflexivity|].
  intros x Hx. unfold notna. now rewrite (Hall x Hx).
Qed.

Lemma percent_diff_nan (x : pyfloat) : percent_diff x NaN = NaN.
Proof. destruct x; reflexivity. Qed.

Lemma day_with_a_mean (df : DataFrame) (day : string) :
  isna (day_mean df day) = false ->
  exists r, In r (rows df) /\ day_name (date r) = day.
Proof.
  unfold day_mean. intros Hna.
  destruct (filter (on_day day) (rows df)) as [|r l] eqn:E;
    [discriminate Hna|].
  assert (Hin : In r (filter (on_day day) (rows df)))
    by (rewrite E; left; reflexivity).
  apply filter_In in Hin. destruct Hin as [Hr Hd].
  exists r. split; [exact Hr|]. now apply key_eqb_eq in Hd.
Qed.

(** X18.  When every row falls on a Saturday or a Sunday, the weekday
    average is NaN, so is the weekend lift, and the test [weekend_lift > 0]
    fails: [display_timing_insights] reports "Weekdays outperform weekends",
    naming a weekend day as the best day. *)
Theorem weekend_only_sales_report_weekdays_ahead (w : World) (data : ref)
    (df : DataFrame) :
  nth_error (heap w) data = Some df ->
  rows df <> [] ->
  (forall r, In r (rows df) -> In (day_name (date r)) weekend) ->
  exists best,
    In best weekend /\
    In (st_info (mkMsg "Weekdays outperform weekends" [VStr best]))
       (screen (snd (display_timing_insights data w))).
Proof.
  intros Hdf Hne Hweekend.
  assert (Hwd : mean_skipna (map (day_mean df) weekdays) = NaN).
  { apply mean_skipna_all_nan. intros x Hx.
    apply in_map_iff in Hx. destruct Hx as [d [<- Hd]].
    apply day_mean_isna. intros r Hr E. specialize (Hweekend r Hr).
    rewrite E in Hweekend.
    destruct Hweekend as [<- | [<- | []]];
      repeat (destruct Hd as [Hd | Hd]; [discriminate Hd|]);
      destruct Hd. }
  destruct (idx_best_ok fgt _ (some_day_has_sales df Hne)) as [best Eb].
  destruct (idx_best_ok flt _ (some_day_has_sales df Hne)) as [worst Ew].
  assert (Hbest : In best weekend).
  { assert (Hs := idx_best_spec fgt fgt_irrefl fgt_chain
                    (map (fun day => (day, day_mean df day)) day_order)).
    rewrite Eb in Hs. destruct Hs as (v & Hin & Hna & _).
    apply in_map_iff in Hin. destruct Hin as [d [E _]].
    inversion E; subst.
    destruct (day_with_a_mean df best Hna) as [r [Hr <-]].
    now apply Hweekend. }
  exists best. split; [exact Hbest|].
  unfold display_timing_insights.
  rewrite !run_emit.
  rewrite (run_copy data _ _ df) by exact Hdf.
  rewrite (run_load _ _ _ df) by (cbn [heap]; apply nth_error_last).
  rewrite (run_setitem _ _ _ _ df) by (cbn [heap]; apply nth_error_last).
  cbn [heap screen]. rewrite update_last.
  rewrite (run_load _ _ _ (with_day_names df))
    by (cbn [heap]; apply nth_error_last).
  rewrite dow_sales_spec, run_lift_ok.
  unfold idxmax, idxmin. rewrite Eb, run_lift_ok, Ew, run_lift_ok.
  rewrite select_weekend, run_lift_ok, select_weekdays, run_lift_ok.
  cbv zeta. rewrite run_emit, Hwd, percent_diff_nan.
  change (fgt NaN (Fin 0)) with false. cbv iota.
  rewrite run_emit.
  apply stays_on_screen; [preserve | on_screen].
Qed.

(* ================================================================== *)
(** * A cell at the mean of its column *)

Lemma filter_only {A : Type} (p : A -> bool) (l : list A) (s : A) :
  NoDup l -> In s l -> p s = true ->
  (forall x, In x l -> p x = true -> x = s) ->
  filter p l = [s].
Proof.
  induction 1 as [|y l Hy Hnd IH]; intros Hin Hps Honly; [destruct Hin|].
  cbn [filter]. destruct Hin as [-> | Hin].
  - rewrite Hps. f_equal. apply filter_none. intros x Hx.
    destruct (p x) eqn:E; [|reflexivity].
    assert (x = s) by (apply Honly; [now right | exact E]).
    subst x. contradiction.
  - destruct (p y) eqn:E.
    + assert (y = s) by (apply Honly; [now left | exact E]).
      subst y. contradiction.
    + apply IH; auto. intros x Hx. apply Honly. now right.
Qed.

Lemma mean_of_one (v : Q) : series_mean [v] =f= Fin v.
Proof.
  unfold series_mean, feq, Qsum. cbn [fold_right length].
  change (inject_Z (Z.of_nat 1)) with 1. field.
Qed.

Lemma gap_of_cell (df : DataFrame) (s c : string) :
  In c (t_columns (store_category_pivot df)) ->
  exists gaps,
    compute_gaps (store_category_pivot df) = Ok gaps /\
    t_cell gaps s c
    =f= fround1 (percent_diff (cell_mean df s c) (category_mean df c)).
Proof.
  intros Hc.
  destruct (compute_gaps_cells (store_category_pivot df))
    as (gaps & Hrun & _ & _ & Hcell).
  exists gaps. split; [exact Hrun|].
  rewrite (Hcell s c Hc), pivot_cell. now rewrite pivot_column_mean.
Qed.

Lemma no_gap_at_the_mean (v m : Q) :
  v == m -> ~ m == 0 ->
  fround1 (percent_diff (Fin v) (Fin m)) =f= Fin 0.
Proof.
  intros Hv Hm. rewrite (percent_diff_fin v m Hm). cbn [fround1 feq].
  assert (H0 : percent_change m v == 0).
  { unfold percent_change. rewrite Hv. field. exact Hm. }
  rewrite H0. reflexivity.
Qed.

(** X19.  A store whose mean sales in a category equal the mean of the
    column, when that is not zero, has the deviation 0.0; so has the only
    store that has data in a category, when its mean sales are not zero. *)
Theorem no_gap_at_the_column_mean (df : DataFrame) (s c : string) :
  In c (t_columns (store_category_pivot df)) ->
  has_data df s c = true ->
  exists gaps,
    compute_gaps (store_category_pivot df) = Ok gaps /\
    (forall m, category_mean df c =f= Fin m ->
               cell_value df s c == m -> ~ m == 0 ->
               t_cell gaps s c =f= Fin 0) /\
    ((forall s', has_data df s' c = true -> s' = s) ->
     ~ cell_value df s c == 0 ->
     t_cell gaps s c =f= Fin 0).
Proof.
  intros Hc Hdata. destruct (gap_of_cell df s c Hc) as (gaps & Hrun & Hgap).
  exists gaps. split; [exact Hrun|].
  assert (Hequal : forall m, category_mean df c =f= Fin m ->
                             cell_value df s c == m -> ~ m == 0 ->
                             t_cell gaps s c =f= Fin 0).
  { intros m Hm Hv Hnz. rewrite Hgap, cell_mean_cases, Hdata, Hm.
    now apply no_gap_at_the_mean. }
  split; [exact Hequal|].
  intros Honly Hnz.
  apply (Hequal (cell_value df s c)); [|reflexivity | exact Hnz].
  unfold category_mean.
  rewrite (filter_only (fun s' => has_data df s' c) (store_names df) s).
  - cbn [map]. apply mean_of_one.
  - apply group_keys_NoDup.
  - apply store_names_In. apply has_data_row in Hdata.
    destruct Hdata as [r [Hr [Hs _]]]. eauto.
  - exact Hdata.
  - intros x _ Hx. now apply Honly.
Qed.

(* ================================================================== *)
(** * The order of the year-over-year table *)

Lemma fle_desc_fin (a b : Q) : fle_desc (Fin a) (Fin b) = true <-> b <= a.
Proof.
  unfold fle_desc, fcmp. rewrite Qle_alt, <- (Qcompare_antisym a b).
  destruct (a ?= b); simpl; split; intros E; try reflexivity;
    try discriminate E; try (intros F; discriminate F).
  exfalso. now apply E.
Qed.

Lemma fle_desc_total (x y : pyfloat) :
  fle_desc x y = true \/ fle_desc y x = true.
Proof.
  destruct x as [a| | |], y as [b| | |];
    try (left; reflexivity); try (right; reflexivity).
  rewrite !fle_desc_fin.
  destruct (Qlt_le_dec a b) as [Hlt | Hle];
    [right; now apply Qlt_le_weak | now left].
Qed.

Lemma fle_desc_trans (x y z : pyfloat) :
  fle_desc x y = true -> fle_desc y z = true -> fle_desc x z = true.
Proof.
  destruct x as [a| | |], y as [b| | |], z as [c| | |];
    intros Hxy Hyz;
    try (cbn in Hxy; discriminate Hxy); try (cbn in Hyz; discriminate Hyz);
    try reflexivity.
  apply fle_desc_fin. apply fle_desc_fin in Hxy. apply fle_desc_fin in Hyz.
  eapply Qle_trans; eauto.
Qed.

Lemma fle_desc_not_below (x y : pyfloat) :
  fle_desc x y = true -> flt x y = false.
Proof.
  unfold fle_desc, flt. destruct (fcmp x y) as [[ | | ]|]; auto.
Qed.

Lemma StronglySorted_filter {A : Type} (R : A -> A -> Prop) (p : A -> bool)
    (l : list A) :
  StronglySorted R l -> StronglySorted R (filter p l).
Proof.
  induction 1 as [|x l Hs IH Hx]; cbn [filter]; [constructor|].
  destruct (p x); [|exact IH]. constructor; [exact IH|].
  rewrite Forall_forall in *. intros y Hy. apply filter_In in Hy.
  apply Hx. tauto.
Qed.

(** X20.  The rows of the year-over-year table are in descending order of
    growth, and none has a NaN growth: [head(5)] takes the five largest
    growths, and the declining products, [tail(5)] of the negative ones,
    end with the largest decline. *)
Theorem yoy_rows_descend_by_growth (yoy : Table Z) (g : Table (Z + string)) :
  yoy_growth yoy = Ok g ->
  StronglySorted (fun a b => flt (growth_of g a) (growth_of g b) = false)
                 (t_index g) /\
  (forall item, In item (t_index g) -> isna (growth_of g item) = false) /\
  (forall item, In item (t_index g) -> In item (t_index yoy)).
Proof.
  unfold yoy_growth.
  destruct (sort_keys (t_columns yoy)) as [|y1 [|y2 later]];
    try discriminate.
  unfold get_column.
  destruct (mem y2 (t_columns yoy)); [|discriminate].
  destruct (mem y1 (t_columns yoy)); [|discriminate].
  cbn [rbind]. intros E. inversion E; subst g. clear E.
  unfold growth_of, dropna, sort_values_desc, set_column, year_or_name.
  cbn [t_index t_columns t_cell]. rewrite growth_label_is_new.
  split; [|split].
  - apply StronglySorted_filter.
    eapply StronglySorted_impl;
      [|apply (sort_by_sorted
                 (fun r1 r2 : string =>
                    fle_desc (growth_pct (column yoy y1) (column yoy y2) r1)
                             (growth_pct (column yoy y1) (column yoy y2) r2))
                 (fun _ => True))].
    + intros a b Hab. cbn. now apply fle_desc_not_below.
    + intros a b _ _. apply fle_desc_total.
    + intros a b c _ _ _. apply fle_desc_trans.
    + apply Forall_forall. auto.
  - intros item Hin. apply filter_In in Hin. destruct Hin as [_ Hall].
    rewrite forallb_forall in Hall.
    assert (Hc : In growth_label
                    (map inl (t_columns yoy) ++ [growth_label]))
      by (apply in_or_app; right; left; reflexivity).
    specialize (Hall _ Hc). cbn in Hall. cbn.
    unfold notna in Hall. now apply negb_true_iff in Hall.
  - intros item Hin. apply filter_In in Hin. destruct Hin as [Hin _].
    eapply Permutation_in; [apply sort_by_perm | exact Hin].
Qed.

(* ================================================================== *)
(** * The list of recommendations and the month names *)

Lemma impact_color_known (r : Recommendation) :
  known_impact r -> exists color, impact_color (rec_impact r) = Ok color.
Proof.
  unfold known_impact. intros [<- | [<- | [<- | []]]]; eexists; reflexivity.
Qed.

Lemma impact_color_unknown (r : Recommendation) :
  ~ known_impact r -> impact_color (rec_impact r) = Raise KeyError.
Proof.
  unfold known_impact, impact_color, impact_colors, lookup. intros Hnot.
  cbn [find fst key_eqb Key_string].
  destruct (String.eqb_spec "High" (rec_impact r)) as [E|_];
    [exfalso; apply Hnot; left; exact E|].
  destruct (String.eqb_spec "Medium" (rec_impact r)) as [E|_];
    [exfalso; apply Hnot; right; left; exact E|].
  destruct (String.eqb_spec "Low" (rec_impact r)) as [E|_];
    [exfalso; apply Hnot; right; right; left; exact E|].
  reflexivity.
Qed.

(** X21.  The recommendations are rendered in the order of the list and
    numbered consecutively from the first number, each followed by a
    divider; an impact that has no colour raises [KeyError] before its
    recommendation is rendered. *)
Theorem recommendations_are_numbered_in_order :
  (forall (l : list Recommendation) (i : Z) (w : World),
      Forall known_impact l ->
      exists events,
        render_recommendations i l w
        = (Ok tt, {| heap := heap w; screen := screen w ++ events |}) /\
        length events = (2 * length l)%nat /\
        forall n r,
          nth_error l n = Some r ->
          (exists color rest,
              nth_error events (2 * n)
              = Some (st_markdown
                        (mkMsg "recommendation"
                               (VInt (i + Z.of_nat n) :: VStr (rec_title r)
                                :: VStr color :: rest)))) /\
          nth_error events (2 * n + 1) = Some st_divider) /\
  (forall (r : Recommendation) (l : list Recommendation) (i : Z) (w : World),
      ~ known_impact r ->
      render_recommendations i (r :: l) w = (Raise KeyError, w)).
Proof.
  split.
  - induction l as [|r l IH]; intros i w Hall.
    + exists []. cbn [render_recommendations ret].
      rewrite app_nil_r. split; [now destruct w|]. split; [reflexivity|].
      intros n r Hn. destruct n; discriminate Hn.
    + inversion Hall as [|? ? Hr Hl]; subst.
      destruct (impact_color_known r Hr) as [color Hcolor].
      cbn [render_recommendations]. rewrite Hcolor, run_lift, !run_emit.
      match goal with
      | |- exists events, render_recommendations _ _ ?W = _ /\ _ =>
          destruct (IH (i + 1)%Z W Hl) as (events & Hrun & Hlen & Hnth)
      end.
      eexists (_ :: st_divider :: events). split; [|split].
      * rewrite Hrun. cbn [heap screen]. rewrite <- !app_assoc. reflexivity.
      * cbn [length]. rewrite Hlen. lia.
      * intros n r' Hn. destruct n as [|n].
        -- inversion Hn; subst r'. split; [|reflexivity].
           eexists _, _. cbn [Nat.mul nth_error].
           rewrite Z.add_0_r. reflexivity.
        -- cbn [nth_error] in Hn. destruct (Hnth n r' Hn) as [Hmd Hdiv].
           replace (2 * S n)%nat with (S (S (2 * n))) by lia.
           replace (S (S (2 * n)) + 1)%nat with (S (S (2 * n + 1))) by lia.
           cbn [nth_error]. split; [|exact Hdiv].
           destruct Hmd as (color' & rest & Hmd). exists color', rest.
           replace (i + Z.of_nat (S n))%Z with (i + 1 + Z.of_nat n)%Z by lia.
           exact Hmd.
  - intros r l i w Hnot. cbn [render_recommendations].
    now rewrite (impact_color_unknown r Hnot), run_lift.
Qed.

(** X22.  A month number from 1 to 12 has its name, whatever the frame;
    a number from -11 to 0 wraps around as a Python index does and gives the
    name of the month twelve later; any other number raises
    [IndexError]. *)
Theorem month_names_by_number (m : Z) :
  ((1 <= m <= 12)%Z ->
   exists name, month_name_of m = Ok name /\
                nth_error month_names (Z.to_nat (m - 1)) = Some name) /\
  ((-11 <= m <= 0)%Z -> month_name_of m = month_name_of (m + 12)) /\
  ((12 < m \/ m < -11)%Z -> month_name_of m = Raise IndexError).
Proof.
  unfold month_name_of, py_index.
  change (Z.of_nat (length month_names)) with 12%Z.
  split; [|split].
  - intros Hm.
    destruct (Z.ltb_spec (m - 1) 0) as [Hneg | _]; [lia|].
    destruct (Z.ltb_spec (m - 1) 0) as [Hneg | _]; [lia|].
    destruct (nth_error month_names (Z.to_nat (m - 1))) as [name|] eqn:E.
    + eauto.
    + apply nth_error_None in E.
      change (length month_names) with 12%nat in E. lia.
  - intros Hm.
    destruct (Z.ltb_spec (m - 1) 0) as [_ | Hpos]; [|lia].
    destruct (Z.ltb_spec (m + 12 - 1) 0) as [Hneg | _]; [lia|].
    replace (m - 1 + 12)%Z with (m + 12 - 1)%Z by lia. reflexivity.
  - intros [Hm | Hm].
    + destruct (Z.ltb_spec (m - 1) 0) as [Hneg | _]; [lia|].
      destruct (Z.ltb_spec (m - 1) 0) as [Hneg | _]; [lia|].
      destruct (nth_error month_names (Z.to_nat (m - 1))) eqn:E;
        [|reflexivity].
      assert (Hlt : (Z.to_nat (m - 1) < length month_names)%nat)
        by (apply nth_error_Some; congruence).
      change (length month_names) with 12%nat in Hlt. lia.
    + destruct (Z.ltb_spec (m - 1) 0) as [_ | Hpos]; [|lia].
      destruct (Z.ltb_spec (m - 1 + 12) 0) as [_ | Hpos]; [|lia].
      reflexivity.
Qed.

(** X23.  The monthly seasonality groups by the number of the month alone:
    its points are the months that have rows, in calendar order, and the
    value of a month is the mean of the sales of all the rows of that
    month, of whatever year. *)
Theorem monthly_seasonality_pools_the_years (df : DataFrame) :
  StronglySorted Z.lt (map fst (monthly_avg df)) /\
  (forall m, In m (map fst (monthly_avg df)) <->
             exists r, In r (rows df) /\ month (date r) = m) /\
  (forall m v, In (m, v) (monthly_avg df) ->
               v = series_mean
                     (map sales (filter (in_month_number m) (rows df)))).
Proof.
  unfold monthly_avg. split; [|split].
  - rewrite groupby_mean_keys.
    eapply StronglySorted_impl; [|apply group_keys_sorted].
    intros a b [Hle Hne]. apply Z.leb_le in Hle. lia.
  - intros m. rewrite groupby_mean_keys, group_keys_In, in_map_iff.
    split; intros [r [H1 H2]]; eauto.
  - intros m v Hin. rewrite groupby_mean_tabulate in Hin.
    apply in_map_iff in Hin. destruct Hin as [m' [E _]].
    inversion E; subst. reflexivity.
Qed.

(* ================================================================== *)
(** * The theorems at sample frames *)

Local Open Scope string_scope.


Lemma empty_dataset_shows_no_data_witness :
  nth_error (heap (mkWorld [Samples.no_rows] [])) 0 = Some Samples.no_rows /\
  empty Samples.no_rows = true /\
  business_insights_view 0%nat (mkWorld [Samples.no_rows] [])
  = (Ok tt,
     mkWorld [Samples.no_rows]
             [ st_title "Business Insights & Recommendations";
               st_warning (mkMsg "No sales data available." []) ]).
Proof.
  split; [reflexivity|]. split; [reflexivity|].
  exact (empty_dataset_shows_no_data (mkWorld [Samples.no_rows] []) 0%nat
                                     Samples.no_rows eq_refl eq_refl).
Defined.

Lemma zero_mean_column_is_kept_witness :
  In "c"%string (t_columns (store_category_pivot Samples.nothing_sold)) /\
  category_mean Samples.nothing_sold "c" =f= Fin 0 /\
  exists gaps,
    compute_gaps (store_category_pivot Samples.nothing_sold) = Ok gaps /\
    In "c"%string (t_columns gaps) /\
    t_cell gaps "A" "c" = NaN.
Proof.
  assert (H1 : In "c"%string
                  (t_columns (store_category_pivot Samples.nothing_sold)))
    by (left; reflexivity).
  assert (H2 : category_mean Samples.nothing_sold "c" =f= Fin 0)
    by (vm_compute; reflexivity).
  split; [exact H1|]. split; [exact H2|].
  destruct (zero_mean_column_is_kept Samples.nothing_sold "c" H1 H2)
    as (gaps & Hrun & Hcol & Hcell).
  exists gaps. split; [exact Hrun|]. split; [exact Hcol|].
  rewrite Hcell. reflexivity.
Defined.






Lemma analysis_leaves_dataset_unchanged_witness :
  nth_error (heap (mkWorld [Samples.two_months] [])) 0
  = Some Samples.two_months /\
  nth_error
    (heap (snd (display_timing_insights 0%nat (mkWorld [Samples.two_months] []))))
    0
  = Some Samples.two_months /\
  nth_error
    (heap (snd (plot_day_of_week_pattern 0%nat (mkWorld [Samples.two_months] []))))
    0
  = Some Samples.two_months.
Proof.
  assert (H1 : nth_error (heap (mkWorld [Samples.two_months] [])) 0
               = Some Samples.two_months) by reflexivity.
  split; [exact H1|].
  destruct analysis_leaves_dataset_unchanged
    as (_ & _ & _ & Htiming & _ & _ & _ & Hplot & _).
  split.
  - exact (Htiming _ _ _ H1).
  - exact (Hplot _ _ _ H1).
Defined.

Lemma single_month_is_declining_witness :
  rows Samples.one_month <> [] /\
  (forall r, In r (rows Samples.one_month) ->
             to_period_M (date r) = to_period_M (mkDate 2024 3 1)) /\
  map m_pct_change (monthly Samples.one_month) = [NaN] /\
  recent_trend Samples.one_month = NaN /\
  In (st_warning (mkMsg "Declining trend" [VNum NaN]))
     (screen (snd (display_executive_summary 0%nat
                     (mkWorld [Samples.one_month] [])))).
Proof.
  assert (H1 : rows Samples.one_month <> []) by discriminate.
  assert (H2 : forall r, In r (rows Samples.one_month) ->
                         to_period_M (date r)
                         = to_period_M (mkDate 2024 3 1)).
  { intros r [<- | [<- | []]]; reflexivity. }
  split; [exact H1|]. split; [exact H2|].
  destruct (single_month_is_declining Samples.one_month (mkDate 2024 3 1)
                                      H1 H2)
    as (Hpcts & Htrend & _ & Hview).
  split; [exact Hpcts|]. split; [exact Htrend|].
  exact (proj1 (proj2 (Hview (mkWorld [Samples.one_month] []) 0%nat
                             eq_refl))).
Defined.

(* ================================================================== *)
(** * The further theorems at sample frames *)

Lemma aggregate_sum_mean_count_agree_witness :
  In ("A", mkAgg (10 + (7 + 0)) (Fin ((10 + (7 + 0)) / inject_Z 2)) 2)
     (groupby_agg store_name sales (rows More.three_stores)) /\
  list_sum (map (fun x => agg_count (snd x))
                (groupby_agg store_name sales (rows More.three_stores)))
  = 4%nat.
Proof.
  assert (H1 : In ("A", mkAgg (10 + (7 + 0))
                              (Fin ((10 + (7 + 0)) / inject_Z 2)) 2)
                  (groupby_agg store_name sales (rows More.three_stores)))
    by (left; reflexivity).
  split; [exact H1|].
  exact (proj2 (aggregate_sum_mean_count_agree string _ store_name
                  (rows More.three_stores))).
Defined.

Lemma ranking_is_sorted_by_total_witness :
  exists best worst,
    iloc_first (ranking store_name More.three_stores) = Ok best /\
    iloc_last (ranking store_name More.three_stores) = Ok worst /\
    fst best = "B" /\ fst worst = "C" /\
    forall x, In x (ranking store_name More.three_stores) ->
              agg_sum (snd x) <= agg_sum (snd best) /\
              agg_sum (snd worst) <= agg_sum (snd x).
Proof.
  destruct (ranking_is_sorted_by_total store_name More.three_stores)
    as (_ & _ & _ & Hends).
  eexists _, _. split; [reflexivity|]. split; [reflexivity|].
  split; [reflexivity|]. split; [reflexivity|].
  exact (Hends _ _ eq_refl eq_refl).
Defined.

Lemma performer_analysis_needs_a_store_column_witness :
  nth_error (heap (mkWorld [More.no_store_columns] [])) 0
  = Some More.no_store_columns /\
  has_column "store_name" More.no_store_columns = false /\
  has_column "store_id" More.no_store_columns = false /\
  display_performer_analysis 0%nat (mkWorld [More.no_store_columns] [])
  = (Raise KeyError,
     mkWorld [More.no_store_columns] performer_analysis_start).
Proof.
  split; [reflexivity|]. split; [reflexivity|]. split; [reflexivity|].
  exact (performer_analysis_needs_a_store_column
           (mkWorld [More.no_store_columns] []) 0%nat More.no_store_columns
           eq_refl eq_refl eq_refl).
Defined.

Lemma performer_analysis_of_no_rows_witness :
  nth_error (heap (mkWorld [Samples.no_rows] [])) 0 = Some Samples.no_rows /\
  str_column (store_col Samples.no_rows) Samples.no_rows = Ok store_name /\
  rows Samples.no_rows = [] /\
  display_performer_analysis 0%nat (mkWorld [Samples.no_rows] [])
  = (Raise IndexError, mkWorld [Samples.no_rows] performer_analysis_start).
Proof.
  split; [reflexivity|]. split; [reflexivity|]. split; [reflexivity|].
  exact (performer_analysis_of_no_rows
           (mkWorld [Samples.no_rows] []) 0%nat Samples.no_rows store_name
           eq_refl eq_refl eq_refl).
Defined.

Lemma view_stops_at_the_first_error_witness :
  nth_error (heap (mkWorld [More.no_store_columns] [])) 0
  = Some More.no_store_columns /\
  empty More.no_store_columns = false /\
  has_column "store_name" More.no_store_columns = false /\
  has_column "store_id" More.no_store_columns = false /\
  fst (business_insights_view 0%nat (mkWorld [More.no_store_columns] []))
  = Raise KeyError /\
  length (screen (snd (business_insights_view 0%nat
                         (mkWorld [More.no_store_columns] []))))
  = 12%nat.
Proof.
  split; [reflexivity|]. split; [reflexivity|]. split; [reflexivity|].
  split; [reflexivity|].
  rewrite (view_stops_at_the_first_error
             (mkWorld [More.no_store_columns] []) 0%nat More.no_store_columns
             eq_refl eq_refl eq_refl eq_refl).
  split; reflexivity.
Defined.

Lemma few_items_are_best_and_lowest_witness :
  nth_error (heap (mkWorld [More.three_stores] [])) 0
  = Some More.three_stores /\
  rows More.three_stores <> [] /\
  (nunique (map item_name (rows More.three_stores)) <= 5)%nat /\
  In (st_success
        (mkMsg "Best sellers"
               [VStrs (map fst (ranking item_name More.three_stores))]))
     (screen (snd (display_performer_analysis 0%nat
                     (mkWorld [More.three_stores] [])))) /\
  In (st_error
        (mkMsg "Lowest sellers"
               [VStrs (map fst (ranking item_name More.three_stores))]))
     (screen (snd (display_performer_analysis 0%nat
                     (mkWorld [More.three_stores] [])))).
Proof.
  assert (H2 : rows More.three_stores <> []) by discriminate.
  assert (H3 : (nunique (map item_name (rows More.three_stores)) <= 5)%nat)
    by (vm_compute; repeat constructor).
  split; [reflexivity|]. split; [exact H2|]. split; [exact H3|].
  exact (few_items_are_best_and_lowest
           (mkWorld [More.three_stores] []) 0%nat More.three_stores
           store_name item_name eq_refl H2 eq_refl eq_refl H3).
Defined.

Lemma idxmax_idxmin_are_extremes_witness :
  (exists kv, In kv [("a", Fin 3); ("b", NaN); ("c", Fin 7); ("d", Fin 7)] /\
              isna (snd kv) = false) /\
  idxmax [("a", Fin 3); ("b", NaN); ("c", Fin 7); ("d", Fin 7)] = Ok "c" /\
  idxmin [("a", Fin 3); ("b", NaN); ("c", Fin 7); ("d", Fin 7)] = Ok "a" /\
  exists k v,
    idxmax [("a", Fin 3); ("b", NaN); ("c", Fin 7); ("d", Fin 7)] = Ok k /\
    In (k, v) [("a", Fin 3); ("b", NaN); ("c", Fin 7); ("d", Fin 7)] /\
    fgt (Fin 3) v = false.
Proof.
  assert (H1 : exists kv,
             In kv [("a", Fin 3); ("b", NaN); ("c", Fin 7); ("d", Fin 7)] /\
             isna (snd kv) = false).
  { exists ("a", Fin 3). split; [left; reflexivity | reflexivity]. }
  split; [exact H1|]. split; [reflexivity|]. split; [reflexivity|].
  destruct (proj1 (idxmax_idxmin_are_extremes string _ H1))
    as (k & v & Hrun & Hin & _ & Hall).
  exists k, v. split; [exact Hrun|]. split; [exact Hin|].
  exact (Hall ("a", Fin 3) (or_introl eq_refl)).
Defined.

Lemma opportunities_are_the_cells_below_threshold_witness :
  In "A" (t_index More.some_gaps) /\
  In "c" (t_columns More.some_gaps) /\
  flt (Fin (-20 # 1)) (Fin (-10 # 1)) = true /\
  In ("A", "c", Fin (-20 # 1)) (find_opportunities More.some_gaps) /\
  ~ In ("B", "c", Fin 5) (find_opportunities More.some_gaps).
Proof.
  assert (H1 : In "A" (t_index More.some_gaps)) by (left; reflexivity).
  assert (H2 : In "c" (t_columns More.some_gaps)) by (left; reflexivity).
  assert (H3 : flt (Fin (-20 # 1)) (Fin (-10 # 1)) = true) by reflexivity.
  split; [exact H1|]. split; [exact H2|]. split; [exact H3|].
  destruct (opportunities_are_the_cells_below_threshold More.some_gaps)
    as (Hmem & _ & _).
  split.
  - apply Hmem. split; [exact H1|]. split; [exact H2|].
    split; reflexivity.
  - intros Hin. apply Hmem in Hin. destruct Hin as (_ & _ & _ & Hlt).
    discriminate Hlt.
Defined.


Lemma yoy_table_has_a_column_per_year_witness :
  (1 <? nunique (map (fun r => year (date r)) (rows Samples.three_years)))%nat
  = true /\
  length (t_columns (yearly_item_sales item_name Samples.three_years))
  = 3%nat /\
  (2 <=? length (t_columns (yearly_item_sales item_name Samples.three_years)))%nat
  = true.
Proof.
  assert (H1 : (1 <? nunique (map (fun r => year (date r))
                                  (rows Samples.three_years)))%nat = true)
    by reflexivity.
  split; [exact H1|].
  destruct (yoy_table_has_a_column_per_year item_name Samples.three_years)
    as (Hlen & Hguard & _).
  split.
  - rewrite Hlen. reflexivity.
  - exact (Hguard H1).
Defined.




Lemma day_of_week_bars_witness :
  nth_error (heap (mkWorld [Samples.no_rows] [])) 0 = Some Samples.no_rows /\
  rows Samples.no_rows = [] /\
  fst (plot_day_of_week_pattern 0%nat (mkWorld [Samples.no_rows] []))
  = Ok (mkChart "barplot" "Average Sales by Day of Week"
                (map VStr day_order) [[NaN; NaN; NaN; NaN; NaN; NaN; NaN]]).
Proof.
  split; [reflexivity|]. split; [reflexivity|].
  destruct (day_of_week_bars (mkWorld [Samples.no_rows] []) 0%nat
                             Samples.no_rows eq_refl)
    as (bars & Hrun & _ & _ & Hempty).
  rewrite Hrun, (Hempty eq_refl). reflexivity.
Defined.


Lemma growth_after_a_month_without_sales_witness :
  exists prev cur,
    monthly More.after_a_quiet_month = [prev; cur] /\
    m_sales prev == 0 /\ 0 < m_sales cur /\
    recent_trend More.after_a_quiet_month = PInf /\
    trend_event (recent_trend More.after_a_quiet_month)
    = st_success (mkMsg "Positive trend" [VNum PInf]).
Proof.
  exists (mkMonthly (mkDate 2024 1 1) 0 NaN),
         (mkMonthly (mkDate 2024 2 1) 5 PInf).
  assert (H1 : monthly More.after_a_quiet_month
               = [mkMonthly (mkDate 2024 1 1) 0 NaN;
                  mkMonthly (mkDate 2024 2 1) 5 PInf]) by reflexivity.
  assert (H2 : m_sales (mkMonthly (mkDate 2024 1 1) 0 NaN) == 0)
    by reflexivity.
  assert (H3 : 0 < m_sales (mkMonthly (mkDate 2024 2 1) 5 PInf))
    by reflexivity.
  split; [exact H1|]. split; [exact H2|]. split; [exact H3|].
  exact (proj2 (growth_after_a_month_without_sales More.after_a_quiet_month)
               _ _ H1 H2 H3).
Defined.

Lemma executive_summary_of_no_rows_witness :
  nth_error (heap (mkWorld [Samples.no_rows] [])) 0 = Some Samples.no_rows /\
  rows Samples.no_rows = [] /\
  fst (display_executive_summary 0%nat (mkWorld [Samples.no_rows] []))
  = Ok tt /\
  length (screen (snd (display_executive_summary 0%nat
                         (mkWorld [Samples.no_rows] []))))
  = 7%nat.
Proof.
  split; [reflexivity|]. split; [reflexivity|].
  rewrite (executive_summary_of_no_rows (mkWorld [Samples.no_rows] [])
                                        0%nat Samples.no_rows
                                        eq_refl eq_refl).
  split; reflexivity.
Defined.

Lemma weekend_only_sales_report_weekdays_ahead_witness :
  nth_error (heap (mkWorld [More.weekend_only] [])) 0
  = Some More.weekend_only /\
  rows More.weekend_only <> [] /\
  (forall r, In r (rows More.weekend_only) ->
             In (day_name (date r)) weekend) /\
  exists best,
    In best weekend /\
    In (st_info (mkMsg "Weekdays outperform weekends" [VStr best]))
       (screen (snd (display_timing_insights 0%nat
                       (mkWorld [More.weekend_only] [])))).
Proof.
  assert (H2 : rows More.weekend_only <> []) by discriminate.
  assert (H3 : forall r, In r (rows More.weekend_only) ->
                         In (day_name (date r)) weekend).
  { intros r [<- | [<- | []]]; [left | right; left]; reflexivity. }
  split; [reflexivity|]. split; [exact H2|]. split; [exact H3|].
  exact (weekend_only_sales_report_weekdays_ahead
           (mkWorld [More.weekend_only] []) 0%nat More.weekend_only
           eq_refl H2 H3).
Defined.

Lemma no_gap_at_the_column_mean_witness :
  In "d" (t_columns (store_category_pivot Samples.two_stores)) /\
  has_data Samples.two_stores "A" "d" = true /\
  (forall s', has_data Samples.two_stores s' "d" = true -> s' = "A") /\
  ~ cell_value Samples.two_stores "A" "d" == 0 /\
  exists gaps,
    compute_gaps (store_category_pivot Samples.two_stores) = Ok gaps /\
    t_cell gaps "A" "d" =f= Fin 0.
Proof.
  assert (H1 : In "d" (t_columns (store_category_pivot Samples.two_stores)))
    by (right; left; reflexivity).
  assert (H2 : has_data Samples.two_stores "A" "d" = true) by reflexivity.
  assert (H3 : forall s', has_data Samples.two_stores s' "d" = true ->
                          s' = "A").
  { intros s' Hs'. apply has_data_row in Hs'.
    destruct Hs' as [r [Hr [Hs Hc]]].
    unfold Samples.two_stores, Samples.frame in Hr. cbn [rows] in Hr.
    repeat (destruct Hr as [<- | Hr];
            [first [discriminate Hc | symmetry; exact Hs]|]).
    destruct Hr. }
  assert (H4 : ~ cell_value Samples.two_stores "A" "d" == 0)
    by (vm_compute; discriminate).
  split; [exact H1|]. split; [exact H2|]. split; [exact H3|].
  split; [exact H4|].
  destruct (no_gap_at_the_column_mean Samples.two_stores "A" "d" H1 H2)
    as (gaps & Hrun & _ & Honly).
  exists gaps. split; [exact Hrun|]. exact (Honly H3 H4).
Defined.

Lemma yoy_rows_descend_by_growth_witness :
  exists g,
    yoy_growth (yearly_item_sales item_name Samples.two_years) = Ok g /\
    t_index g = ["x"; "y"] /\
    StronglySorted (fun a b => flt (growth_of g a) (growth_of g b) = false)
                   (t_index g).
Proof.
  assert (E : exists g,
             yoy_growth (yearly_item_sales item_name Samples.two_years)
             = Ok g /\ t_index g = ["x"; "y"]).
  { eexists. split; [vm_compute; reflexivity | reflexivity]. }
  destruct E as [g [E Hidx]]. exists g.
  split; [exact E|]. split; [exact Hidx|].
  exact (proj1 (yoy_rows_descend_by_growth _ g E)).
Defined.

Lemma recommendations_are_numbered_in_order_witness :
  Forall known_impact More.two_recommendations /\
  exists events,
    render_recommendations 1 More.two_recommendations (mkWorld [] [])
    = (Ok tt, mkWorld [] events) /\
    length events = 4%nat /\
    nth_error events 3 = Some st_divider.
Proof.
  assert (H1 : Forall known_impact More.two_recommendations).
  { constructor; [left; reflexivity|].
    constructor; [right; left; reflexivity|]. constructor. }
  split; [exact H1|].
  destruct (proj1 recommendations_are_numbered_in_order
                  More.two_recommendations 1%Z (mkWorld [] []) H1)
    as (events & Hrun & Hlen & Hnth).
  exists events. split; [exact Hrun|]. split; [exact Hlen|].
  exact (proj2 (Hnth 1%nat _ eq_refl)).
Defined.

Lemma month_names_by_number_witness :
  (1 <= 3 <= 12)%Z /\
  exists name, month_name_of 3 = Ok name /\
               nth_error month_names (Z.to_nat (3 - 1)) = Some name.
Proof.
  assert (H1 : (1 <= 3 <= 12)%Z) by (split; discriminate).
  split; [exact H1|].
  exact (proj1 (month_names_by_number 3) H1).
Defined.

Lemma monthly_seasonality_pools_the_years_witness :
  In (5%Z, Fin ((3 + (4 + (5 + 0))) / inject_Z 3))
     (monthly_avg Samples.three_years) /\
  Fin ((3 + (4 + (5 + 0))) / inject_Z 3)
  = series_mean (map sales (filter (in_month_number 5)
                                   (rows Samples.three_years))).
Proof.
  assert (H1 : In (5%Z, Fin ((3 + (4 + (5 + 0))) / inject_Z 3))
                  (monthly_avg Samples.three_years))
    by (right; left; reflexivity).
  split; [exact H1|].
  exact (proj2 (proj2 (monthly_seasonality_pools_the_years
                         Samples.three_years)) _ _ H1).
Defined.
